(** * MessengerServer.js: presence / room / history state machine

    A shallow embedding of the Socket.IO chat server of
    [src/MessengerServer.js] (the variant with the Laravel bridge): the three
    registries [users], [rooms], [messageHistory], the set [laravelSockets],
    the per-connection closure state of [io.on('connection')], and every
    event handler as a function from a state to a new state and the list of
    emits it performs.

    Modelling conventions.
    - A JS string is a [string]: a sequence of code units below 256, on
      which [toLowerCase] and [trim] are exact. A text with a code unit above
      255 is outside the model (the Kelvin sign, which lower-cases to [k] and
      is no character of a name, is one): the theorems on names take the
      validity of a name as a hypothesis and derive none from its case.
    - [Map] and [Set] are stdpp's [gmap] and [gset]; snapshot lists built with
      [Array.from] come out in the enumeration order of the map, and
      [find] over [users.values()] returns the first match in that order
      (the only match when usernames are unique, see [find_user_unique]).
    - A field of a client payload is [undefined], a JSON scalar or a string
      ([jsval]); an array or an object as the value of a field is not
      modelled (an array of one valid name passes the name tests of the
      source, so the statements on names are about string fields). Room names
      sent by the bridge are strings.
    - An exception is the result the enclosing [catch] produces; every
      [throw] of the handlers comes before their first mutation, except in
      [handleLaravelRoomCreation], whose model keeps the entry made before.
    - [Date.now()] is an argument [now] of the handler, read once.
    - [setTimeout] appends the room to the list [timers] of pending purge
      callbacks; the event [Timeout] runs one of them, at any later point
      of the event stream.
    - [socket.join], [socket.leave] and the delivery of an emit to the
      members of a Socket.IO room are the library's; an emit is recorded with
      its target. *)

From Stdlib Require Import Ascii String NArith ZArith.
From stdpp Require Import gmap strings list fin_maps.

Open Scope string_scope.
Open Scope list_scope.

(** ** JS string primitives *)

Module JsString.

Definition code (a : ascii) : N := N_of_ascii a.

(** WhiteSpace and LineTerminator code units below 256, as stripped by
    [String.prototype.trim]. *)
Definition isWhiteSpace (a : ascii) : bool :=
  let c := code a in
  ((9 <=? c) && (c <=? 13) || (c =? 32) || (c =? 160))%N.

Fixpoint trimStart (s : string) : string :=
  match s with
  | "" => ""
  | String a s' => if isWhiteSpace a then trimStart s' else s
  end.

Definition trimEnd (s : string) : string :=
  String.rev (trimStart (String.rev s)).

Definition trim (s : string) : string := trimEnd (trimStart s).

(** [s.substring(0, n)] *)
Fixpoint substring0 (n : nat) (s : string) : string :=
  match n, s with
  | S n', String a s' => String a (substring0 n' s')
  | _, _ => ""
  end.

Definition lowerChar (a : ascii) : ascii :=
  let c := code a in
  if ((65 <=? c) && (c <=? 90)
      || (192 <=? c) && (c <=? 222) && negb (c =? 215))%N
  then ascii_of_N (c + 32) else a.

Fixpoint toLowerCase (s : string) : string :=
  match s with
  | "" => ""
  | String a s' => String (lowerChar a) (toLowerCase s')
  end.

(** The character class [[a-zA-Z0-9_-]]. *)
Definition inClass (a : ascii) : bool :=
  let c := code a in
  ((97 <=? c) && (c <=? 122) || (65 <=? c) && (c <=? 90)
   || (48 <=? c) && (c <=? 57) || (c =? 95) || (c =? 45))%N.

Fixpoint allInClass (s : string) : bool :=
  match s with
  | "" => true
  | String a s' => inClass a && allInClass s'
  end.

(** [/^[a-zA-Z0-9_-]+$/.test(s)] *)
Definition test_name_regex (s : string) : bool :=
  match s with
  | "" => false
  | _ => allInClass s
  end.

(** [s.split('\n')]: always at least one piece. *)
Fixpoint split_go (cur : string) (s : string) : list string :=
  match s with
  | "" => [String.rev cur]
  | String a s' =>
      if (code a =? 10)%N then String.rev cur :: split_go "" s'
      else split_go (String a cur) s'
  end.

Definition split_newline (s : string) : list string := split_go "" s.

End JsString.

Import JsString.

(** ** Values carried by events *)

(** A field of a client payload: [undefined] (absent), or a JSON scalar. *)
Inductive jsval :=
| JUndefined
| JNull
| JBool (b : bool)
| JNum (z : Z)
| JStr (s : string).

(** A JSON document, as the bridge sends in [data] and [payload]. *)
#[warnings="-register-all"]
Inductive json :=
| JsonNull
| JsonBool (b : bool)
| JsonNum (z : Z)
| JsonStr (s : string)
| JsonArr (l : list json)
| JsonObj (l : list (string * json)).

(** The record stored by [users.set(socket.id, {...})]. *)
Record User := mkUser {
  username : string;
  room : string;
  socketId : string;
  userId : jsval;
  joinedAt : Z
}.

(** What a history buffer holds: the system notices and chat messages built
    by the handlers, and the [data] the bridge hands to [emit_to_room]. *)
Inductive message :=
| SystemMessage (now : Z) (content room : string)
| ChatMessage (now : Z) (username content room socketId : string)
    (userId : jsval)
| LaravelData (data : json).

Record PrivateMessage := mkPrivate {
  pm_now : Z;
  pm_socket : string;
  pm_from : string;
  pm_to : string;
  pm_content : string
}.

(** ** Configuration *)

Definition MAX_MESSAGE_HISTORY : nat := 50.
Definition MAX_USERNAME_LENGTH : nat := 20.
Definition MAX_MESSAGE_LENGTH : nat := 500.
Definition MAX_ROOM_NAME_LENGTH : nat := 30.

Definition LARAVEL_CLIENT : string := "LARAVEL_CLIENT".

(** ** Utility functions *)

(** [sanitizeInput]: [input.trim().substring(0, MAX_MESSAGE_LENGTH)]; a
    value that is not a string has no [trim] and the call throws ([None]). *)
Definition sanitizeInput (input : jsval) : option string :=
  match input with
  | JStr s => Some (substring0 MAX_MESSAGE_LENGTH (trim s))
  | _ => None
  end.

(** [name && name.length <= max && /^[a-zA-Z0-9_-]+$/.test(name)], read as a
    condition. A scalar that is not a string is falsy or has no [length]. *)
Definition isValidName (max : nat) (name : jsval) : bool :=
  match name with
  | JStr s =>
      negb (String.eqb s "") && (String.length s <=? max)%nat
      && test_name_regex s
  | _ => false
  end.

Definition isValidUsername (name : jsval) : bool :=
  isValidName MAX_USERNAME_LENGTH name.

Definition isValidRoomName (name : jsval) : bool :=
  isValidName MAX_ROOM_NAME_LENGTH name.

(** The array held for one room after [history.push(message)] and the
    conditional [history.shift()]. *)
Definition push_bounded (history : list message) (m : message)
  : list message :=
  let pushed := history ++ [m] in
  if (MAX_MESSAGE_HISTORY <? length pushed)%nat then tail pushed else pushed.

(** [messageHistory.get(room) || []] *)
Definition getMessageHistory (mh : gmap string (list message))
    (r : string) : list message :=
  default [] (mh !! r).

Definition addToMessageHistory (r : string) (m : message)
    (mh : gmap string (list message)) : gmap string (list message) :=
  <[r := push_bounded (getMessageHistory mh r) m]> mh.

(** ** Server state *)

(** The closure variables and the flag of one connection:
    [isLaravelClient] / [socket.isLaravelClient] (always assigned together)
    and [dataBuffer]; [connected] is cleared by [disconnect]. *)
Record Socket := mkSocket {
  isLaravelClient : bool;
  dataBuffer : string;
  connected : bool
}.

Record state := mkState {
  users : gmap string User;
  rooms : gmap string (gset string);
  messageHistory : gmap string (list message);
  laravelSockets : gset string;
  sockets : gmap string Socket;
  timers : list string
}.

Definition initial : state :=
  {| users := ∅; rooms := ∅; messageHistory := ∅; laravelSockets := ∅;
     sockets := ∅; timers := [] |}.

Definition with_users (f : gmap string User -> gmap string User)
    (s : state) : state :=
  {| users := f (users s); rooms := rooms s;
     messageHistory := messageHistory s; laravelSockets := laravelSockets s;
     sockets := sockets s; timers := timers s |}.

Definition with_rooms
    (f : gmap string (gset string) -> gmap string (gset string))
    (s : state) : state :=
  {| users := users s; rooms := f (rooms s);
     messageHistory := messageHistory s; laravelSockets := laravelSockets s;
     sockets := sockets s; timers := timers s |}.

Definition with_history
    (f : gmap string (list message) -> gmap string (list message))
    (s : state) : state :=
  {| users := users s; rooms := rooms s;
     messageHistory := f (messageHistory s);
     laravelSockets := laravelSockets s;
     sockets := sockets s; timers := timers s |}.

Definition with_laravelSockets (f : gset string -> gset string)
    (s : state) : state :=
  {| users := users s; rooms := rooms s;
     messageHistory := messageHistory s;
     laravelSockets := f (laravelSockets s);
     sockets := sockets s; timers := timers s |}.

Definition with_sockets (f : gmap string Socket -> gmap string Socket)
    (s : state) : state :=
  {| users := users s; rooms := rooms s;
     messageHistory := messageHistory s; laravelSockets := laravelSockets s;
     sockets := f (sockets s); timers := timers s |}.

Definition with_timers (f : list string -> list string) (s : state) : state :=
  {| users := users s; rooms := rooms s;
     messageHistory := messageHistory s; laravelSockets := laravelSockets s;
     sockets := sockets s; timers := f (timers s) |}.

(** [socket.isLaravelClient], falsy on a socket that never set it. *)
Definition is_laravel (s : state) (c : string) : bool :=
  match sockets s !! c with
  | Some sk => isLaravelClient sk
  | None => false
  end.

(** ** Emits *)

Inductive target :=
| ToSocket (id : string)              (* socket.emit / io.to(socketId) *)
| ToRoom (r : string)                 (* io.to(room) *)
| ToRoomExcept (r sender : string)    (* socket.to(room) *)
| ToAll.                              (* io.emit *)

(** [room] of a [room_created] control message. *)
Record RoomInfo := mkRoomInfo {
  ri_id : json;
  ri_slug : string;
  ri_name : json;
  ri_type : string;
  ri_collaboration_id : json
}.

Inductive payload :=
| PError (message : string)
| PHistory (history : list message)
| PJoined (r : string) (userCount : nat)
| PMessage (m : message)
| PUsers (l : list User)
| PPrivate (pm : PrivateMessage)
| PTyping (name : string) (isTyping : bool)
| PRoomChanged (r : string) (userCount : nat)
| PRoomsList (l : list (string * nat))
| PRoomUsers (r : jsval) (l : list User)
| PLaravelConnected (now : Z)
| PPong (now : Z)
| PJson (data : json)
| PCollaborationRoom (ri : RoomInfo) (new_user_id new_user_name : json)
    (now : Z)
| PPresence (user_id status : json) (r : option string) (now : Z).

Record Emit := mkEmit {
  e_target : target;
  e_event : string;
  e_payload : payload
}.

(** [socket.emit('error', { message })] *)
Definition emit_error (c : string) (msg : string) : Emit :=
  mkEmit (ToSocket c) "error" (PError msg).

(** A handler returns the new state and the emits it made, in order. *)
Definition result : Type := state * list Emit.

(** ** Shared pieces of the handlers *)

(** [Array.from(users.values()).find(user =>
      user.username.toLowerCase() === name.toLowerCase())] *)
Definition same_name (name : string) (u : User) : bool :=
  String.eqb (toLowerCase (username u)) (toLowerCase name).

Definition find_user (name : string) (us : gmap string User) : option User :=
  List.find (same_name name) (map snd (map_to_list us)).

(** [Array.from(rooms.get(room) || []).map(id => users.get(id))
      .filter(user => user)] *)
Definition room_users (s : state) (r : string) : list User :=
  omap (fun id => users s !! id) (elements (default ∅ (rooms s !! r))).

(** [if (!rooms.has(room)) rooms.set(room, new Set())] *)
Definition ensure_room (r : string) (rs : gmap string (gset string))
  : gmap string (gset string) :=
  match rs !! r with
  | Some _ => rs
  | None => <[r := ∅]> rs
  end.

(** [ensure_room] followed by [rooms.get(room).add(socket.id)] *)
Definition add_member (r c : string) (rs : gmap string (gset string))
  : gmap string (gset string) :=
  let rs' := ensure_room r rs in
  <[r := default ∅ (rs' !! r) ∪ {[c]}]> rs'.

Definition member_count (s : state) (r : string) : nat :=
  size (default ∅ (rooms s !! r)).

(** The block shared by [change_room] and [disconnect]:
    remove the socket from the tracked room; when the room is left empty
    delete its entry and schedule the purge of its history. *)
Definition leave_room (r c : string) (s : state) : state :=
  match rooms s !! r with
  | None => s
  | Some members =>
      let members' := members ∖ {[c]} in
      if (size members' =? 0)%nat
      then with_timers (fun t => t ++ [r]) (with_rooms (delete r) s)
      else with_rooms <[r := members']> s
  end.

(** The callback given to [setTimeout]:
    [if (!rooms.has(room)) messageHistory.delete(room)] *)
Definition purge_history (r : string) (s : state) : state :=
  match rooms s !! r with
  | Some _ => s
  | None => with_history (delete r) s
  end.

Definition str_of (v : jsval) : option string :=
  match v with
  | JStr x => Some x
  | _ => None
  end.

(** ** Bridge control messages *)

(** A line of the bridge after [JSON.parse], by its [type]. A field the
    handler dereferences ([room], [new_user]) is [None] when absent. *)
Inductive control_message :=
| CEmit (event : string) (data : json)
| CEmitToRoom (r event : string) (data : json)
| CRoomCreated (ri : option RoomInfo) (new_user : option (json * json))
| CPresenceUpdate (user_id status : json) (r : option string)
| CPing
| CHeartbeat
| CDisconnect
| COther (type : string).

Definition handleLaravelEmit (event : string) (data : json) (s : state)
  : result :=
  (s, [mkEmit ToAll event (PJson data)]).

Definition handleLaravelRoomEmit (r event : string) (data : json)
    (s : state) : result :=
  let s1 := with_rooms (ensure_room r) s in
  let out := [mkEmit (ToRoom r) event (PJson data)] in
  if String.eqb event "receive_message"
  then (with_history (addToMessageHistory r (LaravelData data)) s1, out)
  else (s1, out).

(** [room.name] of an absent [room] throws before anything is done;
    [new_user.id] of an absent [new_user] throws after the room entry was
    made and before [io.emit]. Both are caught and logged. *)
Definition handleLaravelRoomCreation (now : Z) (ri : option RoomInfo)
    (new_user : option (json * json)) (s : state) : result :=
  match ri with
  | None => (s, [])
  | Some i =>
      let s1 := with_rooms (ensure_room (ri_slug i)) s in
      if String.eqb (ri_type i) "collaboration" then
        match new_user with
        | None => (s1, [])
        | Some (uid, uname) =>
            (s1, [mkEmit ToAll "collaboration_room_created"
                    (PCollaborationRoom i uid uname now)])
        end
      else (s1, [])
  end.

Definition handleLaravelPresenceUpdate (now : Z) (user_id status : json)
    (r : option string) (s : state) : result :=
  match r with
  | Some x =>
      if String.eqb x "" then
        (s, [mkEmit ToAll "user_presence_changed"
               (PPresence user_id status None now)])
      else
        (s, [mkEmit (ToRoom x) "user_presence_changed"
               (PPresence user_id status (Some x) now)])
  | None =>
      (s, [mkEmit ToAll "user_presence_changed"
             (PPresence user_id status None now)])
  end.

(** The [switch (message.type)] of [processLaravelMessage]. *)
Definition dispatch_control (now : Z) (c : string) (m : control_message)
    (s : state) : result :=
  match m with
  | CEmit event data => handleLaravelEmit event data s
  | CEmitToRoom r event data => handleLaravelRoomEmit r event data s
  | CRoomCreated ri nu => handleLaravelRoomCreation now ri nu s
  | CPresenceUpdate uid st r => handleLaravelPresenceUpdate now uid st r s
  | CPing => (s, [mkEmit (ToSocket c) "pong" (PPong now)])
  | CHeartbeat => (s, [])
  | CDisconnect => (s, [])
  | COther _ => (s, [])
  end.

(** ** Payloads of the client events *)

(** [{ username, room = 'general', userId = null }] *)
Record JoinData := mkJoin {
  jd_username : jsval;
  jd_room : jsval;
  jd_userId : jsval
}.

Definition room_or_general (v : jsval) : jsval :=
  match v with
  | JUndefined => JStr "general"
  | _ => v
  end.

Definition userId_or_null (v : jsval) : jsval :=
  match v with
  | JUndefined => JNull
  | _ => v
  end.

Definition invalid_username_msg : string :=
  "Invalid username. Use only letters, numbers, hyphens, and underscores (max 20 chars)".
Definition invalid_room_msg : string :=
  "Invalid room name. Use only letters, numbers, hyphens, and underscores (max 30 chars)".
Definition username_taken_msg : string :=
  "Username already taken. Please choose another one.".
Definition not_authenticated_msg : string := "User not authenticated".

(** ** Handlers of the regular client events *)

(** [socket.on('join', userData)]; [None] is a payload that cannot be
    destructured ([null] or missing). *)
Definition on_join (now : Z) (c : string) (userData : option JoinData)
    (s : state) : result :=
  if is_laravel s c then (s, []) else
  match userData with
  | None => (s, [emit_error c "Failed to join room"])
  | Some d =>
      let name := jd_username d in
      let rm := room_or_general (jd_room d) in
      let uid := userId_or_null (jd_userId d) in
      if negb (isValidUsername name) then
        (s, [emit_error c invalid_username_msg])
      else if negb (isValidRoomName rm) then
        (s, [emit_error c invalid_room_msg])
      else
        match str_of name, str_of rm with
        | Some u, Some r =>
            match find_user u (users s) with
            | Some _ => (s, [emit_error c username_taken_msg])
            | None =>
                let s1 := with_users <[c := mkUser u r c uid now]> s in
                let s2 := with_rooms (add_member r c) s1 in
                let history := getMessageHistory (messageHistory s2) r in
                let joinMessage :=
                  SystemMessage now (u +:+ " joined the room") r in
                let s3 := with_history (addToMessageHistory r joinMessage) s2 in
                (s3,
                 [ mkEmit (ToSocket c) "message_history" (PHistory history);
                   mkEmit (ToSocket c) "joined"
                     (PJoined r (member_count s2 r));
                   mkEmit (ToRoomExcept r c) "user_joined"
                     (PMessage joinMessage);
                   mkEmit (ToRoom r) "users_update"
                     (PUsers (room_users s3 r)) ])
            end
        | _, _ => (s, [emit_error c "Failed to join room"])
        end
  end.

(** [socket.on('send_message', messageData)]; the argument is the value of
    [messageData.content], [None] when reading it throws. *)
Definition on_send_message (now : Z) (c : string)
    (messageData : option jsval) (s : state) : result :=
  if is_laravel s c then (s, []) else
  match users s !! c with
  | None => (s, [emit_error c not_authenticated_msg])
  | Some user =>
      match messageData ≫= sanitizeInput with
      | None => (s, [emit_error c "Failed to send message"])
      | Some content =>
          if String.eqb content "" then
            (s, [emit_error c "Message cannot be empty"])
          else
            let m := ChatMessage now (username user) content (room user) c
                       (userId user) in
            (with_history (addToMessageHistory (room user) m) s,
             [mkEmit (ToRoom (room user)) "receive_message" (PMessage m)])
      end
  end.

(** [socket.on('send_private_message', data)]; the argument holds
    [data.targetUsername] and [data.content]. *)
Definition on_send_private_message (now : Z) (c : string)
    (data : option (jsval * jsval)) (s : state) : result :=
  if is_laravel s c then (s, []) else
  match users s !! c with
  | None => (s, [emit_error c not_authenticated_msg])
  | Some sender =>
      match data with
      | None => (s, [emit_error c "Failed to send private message"])
      | Some (targetUsername, content) =>
          match sanitizeInput content with
          | None => (s, [emit_error c "Failed to send private message"])
          | Some sanitizedContent =>
              if String.eqb sanitizedContent "" then
                (s, [emit_error c "Private message cannot be empty"])
              else
                match str_of targetUsername with
                | None =>
                    (s, [emit_error c "Failed to send private message"])
                | Some t =>
                    match find_user t (users s) with
                    | Some targetUser =>
                        let pm := mkPrivate now c (username sender) t
                                    sanitizedContent in
                        (s, [ mkEmit (ToSocket (socketId targetUser))
                                "receive_private_message" (PPrivate pm);
                              mkEmit (ToSocket c) "private_message_sent"
                                (PPrivate pm) ])
                    | None =>
                        (s, [emit_error c "User not found or offline"])
                    end
                end
          end
      end
  end.

(** [socket.on('typing')] and [socket.on('stop_typing')] *)
Definition on_typing (isTyping : bool) (c : string) (s : state) : result :=
  if is_laravel s c then (s, []) else
  match users s !! c with
  | Some user =>
      (s, [mkEmit (ToRoomExcept (room user) c) "user_typing"
             (PTyping (username user) isTyping)])
  | None => (s, [])
  end.

Definition set_room (r : string) (u : User) : User :=
  mkUser (username u) r (socketId u) (userId u) (joinedAt u).

(** [socket.on('change_room', newRoom)] *)
Definition on_change_room (now : Z) (c : string) (newRoom : jsval)
    (s : state) : result :=
  if is_laravel s c then (s, []) else
  match users s !! c with
  | None => (s, [emit_error c not_authenticated_msg])
  | Some user =>
      if negb (isValidRoomName newRoom) then
        (s, [emit_error c invalid_room_msg])
      else
        match str_of newRoom with
        | None => (s, [emit_error c "Failed to change room"])
        | Some new =>
            let oldRoom := room user in
            let s1 := leave_room oldRoom c s in
            let s2 := with_users <[c := set_room new user]> s1 in
            let s3 := with_rooms (add_member new c) s2 in
            let history := getMessageHistory (messageHistory s3) new in
            let leftMessage :=
              SystemMessage now (username user +:+ " left the room") oldRoom in
            let s4 := with_history (addToMessageHistory oldRoom leftMessage)
                        s3 in
            let joinedMessage :=
              SystemMessage now (username user +:+ " joined the room") new in
            let s5 := with_history (addToMessageHistory new joinedMessage)
                        s4 in
            (s5,
             [ mkEmit (ToSocket c) "message_history" (PHistory history);
               mkEmit (ToRoomExcept oldRoom c) "user_left"
                 (PMessage leftMessage);
               mkEmit (ToRoom oldRoom) "users_update"
                 (PUsers (room_users s5 oldRoom));
               mkEmit (ToRoomExcept new c) "user_joined"
                 (PMessage joinedMessage);
               mkEmit (ToRoom new) "users_update"
                 (PUsers (room_users s5 new));
               mkEmit (ToSocket c) "room_changed"
                 (PRoomChanged new (member_count s5 new)) ])
        end
  end.

(** [socket.on('get_rooms')] *)
Definition on_get_rooms (c : string) (s : state) : result :=
  if is_laravel s c then (s, []) else
  (s, [mkEmit (ToSocket c) "rooms_list"
         (PRoomsList (map (fun kv => (fst kv, size (snd kv)))
                          (map_to_list (rooms s))))]).

(** [socket.on('get_room_users', room)] *)
Definition on_get_room_users (c : string) (r : jsval) (s : state) : result :=
  if is_laravel s c then (s, []) else
  (s, [mkEmit (ToSocket c) "room_users"
         (PRoomUsers r (match str_of r with
                        | Some x => room_users s x
                        | None => []
                        end))]).

(** ** Handlers of the bridge's Socket.IO events *)

Definition on_laravel_emit (c : string) (data : option (string * json))
    (s : state) : result :=
  if negb (is_laravel s c) then (s, []) else
  match data with
  | None => (s, [])
  | Some (event, p) => (s, [mkEmit ToAll event (PJson p)])
  end.

Definition on_laravel_emit_to_room (c : string)
    (data : option (string * string * json)) (s : state) : result :=
  if negb (is_laravel s c) then (s, []) else
  match data with
  | None => (s, [])
  | Some (r, event, p) =>
      let s1 := with_rooms (ensure_room r) s in
      let out := [mkEmit (ToRoom r) event (PJson p)] in
      if String.eqb event "receive_message"
      then (with_history (addToMessageHistory r (LaravelData p)) s1, out)
      else (s1, out)
  end.

Definition on_laravel_room_created (now : Z) (c : string)
    (data : option (option RoomInfo * option (json * json))) (s : state)
  : result :=
  if negb (is_laravel s c) then (s, []) else
  match data with
  | None => (s, [])
  | Some (ri, nu) => handleLaravelRoomCreation now ri nu s
  end.

Definition on_laravel_presence_update (now : Z) (c : string)
    (data : option (json * json * option string)) (s : state) : result :=
  if negb (is_laravel s c) then (s, []) else
  match data with
  | None => (s, [])
  | Some (uid, st, r) => handleLaravelPresenceUpdate now uid st r s
  end.

(** [socket.on('disconnect')], the registry part. *)
Definition on_disconnect (now : Z) (c : string) (s : state) : result :=
  if is_laravel s c then
    (with_laravelSockets (fun ls => ls ∖ {[c]}) s, [])
  else
    match users s !! c with
    | Some user =>
        let name := username user in
        let r := room user in
        let s1 := leave_room r c s in
        let s2 := with_users (delete c) s1 in
        let leftMessage :=
          SystemMessage now (name +:+ " left the room") r in
        let s3 := with_history (addToMessageHistory r leftMessage) s2 in
        (s3, [ mkEmit (ToRoomExcept r c) "user_left" (PMessage leftMessage);
               mkEmit (ToRoom r) "users_update" (PUsers (room_users s3 r)) ])
    | None => (s, [])
    end.

(** ** Events and the dispatcher *)

Inductive event :=
| Connection (c : string)
| Data (c : string) (data : string)
| Join (c : string) (userData : option JoinData)
| SendMessage (c : string) (messageData : option jsval)
| SendPrivateMessage (c : string) (data : option (jsval * jsval))
| Typing (c : string)
| StopTyping (c : string)
| ChangeRoom (c : string) (newRoom : jsval)
| GetRooms (c : string)
| GetRoomUsers (c : string) (r : jsval)
| LaravelEmit (c : string) (data : option (string * json))
| LaravelEmitToRoom (c : string) (data : option (string * string * json))
| LaravelRoomCreated (c : string)
    (data : option (option RoomInfo * option (json * json)))
| LaravelPresenceUpdate (c : string)
    (data : option (json * json * option string))
| Disconnect (c : string)
| Timeout (r : string).

(** The connection an event arrives on. *)
Definition event_socket (ev : event) : option string :=
  match ev with
  | Connection c | Data c _ | Join c _ | SendMessage c _
  | SendPrivateMessage c _ | Typing c | StopTyping c | ChangeRoom c _
  | GetRooms c | GetRoomUsers c _ | LaravelEmit c _ | LaravelEmitToRoom c _
  | LaravelRoomCreated c _ | LaravelPresenceUpdate c _ | Disconnect c =>
      Some c
  | Timeout _ => None
  end.

Definition is_connected (s : state) (c : string) : bool :=
  match sockets s !! c with
  | Some sk => connected sk
  | None => false
  end.

Fixpoint remove_one (r : string) (l : list string) : list string :=
  match l with
  | [] => []
  | x :: l' => if String.eqb x r then l' else x :: remove_one r l'
  end.

Definition set_laravel (sk : Socket) : Socket :=
  mkSocket true (dataBuffer sk) (connected sk).

Definition set_buffer (b : string) (sk : Socket) : Socket :=
  mkSocket (isLaravelClient sk) b (connected sk).

Definition set_disconnected (sk : Socket) : Socket :=
  mkSocket (isLaravelClient sk) (dataBuffer sk) false.

(** [messages] after [messages.pop()] and the popped element. *)
Definition complete_lines (buf : string) : list string :=
  removelast (split_newline buf).

Definition pending_line (buf : string) : string :=
  List.last (split_newline buf) "".

Section Server.

(** [JSON.parse] of one line followed by the reading of the fields the
    handlers use; [None] when it throws or the value has no [type]. *)
Context (JSON_parse : string -> option control_message).

(** The control messages one frame hands to [processLaravelMessage]:
    the complete lines that are not blank and that parse. *)
Definition control_messages (buf : string) : list control_message :=
  omap (fun msg =>
          if String.eqb (trim msg) "" then None else JSON_parse msg)
       (complete_lines buf).

Fixpoint process_all (now : Z) (c : string) (ms : list control_message)
    (s : state) : result :=
  match ms with
  | [] => (s, [])
  | m :: ms' =>
      let '(s1, o1) := dispatch_control now c m s in
      let '(s2, o2) := process_all now c ms' s1 in
      (s2, o1 ++ o2)
  end.

(** [socket.conn.on('data', data)] *)
Definition on_data (now : Z) (c : string) (data : string) (s : state)
  : result :=
  let message := trim data in
  if String.eqb message LARAVEL_CLIENT then
    (with_laravelSockets (fun ls => ls ∪ {[c]})
       (with_sockets (alter set_laravel c) s),
     [mkEmit (ToSocket c) "laravel_connected" (PLaravelConnected now)])
  else if is_laravel s c then
    let buf :=
      match sockets s !! c with
      | Some sk => dataBuffer sk +:+ message
      | None => message
      end in
    let s1 := with_sockets (alter (set_buffer (pending_line buf)) c) s in
    process_all now c (control_messages buf) s1
  else (s, []).

(** The handler an event on an open connection runs. *)
Definition dispatch (now : Z) (ev : event) (s : state) : result :=
  match ev with
  | Connection _ => (s, [])
  | Data c data => on_data now c data s
  | Join c userData => on_join now c userData s
  | SendMessage c messageData => on_send_message now c messageData s
  | SendPrivateMessage c data => on_send_private_message now c data s
  | Typing c => on_typing true c s
  | StopTyping c => on_typing false c s
  | ChangeRoom c newRoom => on_change_room now c newRoom s
  | GetRooms c => on_get_rooms c s
  | GetRoomUsers c r => on_get_room_users c r s
  | LaravelEmit c data => on_laravel_emit c data s
  | LaravelEmitToRoom c data => on_laravel_emit_to_room c data s
  | LaravelRoomCreated c data => on_laravel_room_created now c data s
  | LaravelPresenceUpdate c data =>
      on_laravel_presence_update now c data s
  | Disconnect c =>
      let '(s1, out) := on_disconnect now c s in
      (with_sockets (alter set_disconnected c) s1, out)
  | Timeout _ => (s, [])
  end.

(** One event of the server's single event stream: a new connection (socket
    ids are never reused), an event on an open connection, or a pending
    purge callback coming due. Anything else cannot occur and is ignored.
    The source never closes a connection itself, so a raw frame leaves it
    open here; what the Socket.IO library does on its side with a frame that
    is no packet of its protocol is not in the source and not modelled.
    Statements about one handler are made on [dispatch] or on the handler,
    for every state. *)
Definition handle (now : Z) (ev : event) (s : state) : result :=
  match ev with
  | Connection c =>
      match sockets s !! c with
      | None => (with_sockets <[c := mkSocket false "" true]> s, [])
      | Some _ => (s, [])
      end
  | Timeout r =>
      if bool_decide (r ∈ timers s)
      then (purge_history r (with_timers (remove_one r) s), [])
      else (s, [])
  | _ =>
      match event_socket ev with
      | Some c => if is_connected s c then dispatch now ev s else (s, [])
      | None => (s, [])
      end
  end.

Fixpoint run (trace : list (Z * event)) (s : state) : state :=
  match trace with
  | [] => s
  | (now, ev) :: trace' => run trace' (handle now ev s).1
  end.

(** The control messages an event makes the server process, through the
    raw channel or through the bridge's Socket.IO events. *)
Definition bridge_operations (s : state) (ev : event)
  : list control_message :=
  match ev with
  | Data c data =>
      if String.eqb (trim data) LARAVEL_CLIENT then []
      else if is_laravel s c then
        match sockets s !! c with
        | Some sk => control_messages (dataBuffer sk +:+ trim data)
        | None => control_messages (trim data)
        end
      else []
  | LaravelEmit c (Some (e, p)) =>
      if is_laravel s c then [CEmit e p] else []
  | LaravelEmitToRoom c (Some (r, e, p)) =>
      if is_laravel s c then [CEmitToRoom r e p] else []
  | LaravelRoomCreated c (Some (ri, nu)) =>
      if is_laravel s c then [CRoomCreated ri nu] else []
  | LaravelPresenceUpdate c (Some (uid, st, r)) =>
      if is_laravel s c then [CPresenceUpdate uid st r] else []
  | _ => []
  end.

(** [emit_to_room] and [room_created] are the operations that make a room
    entry without a member. *)
Definition ensures_tracking (m : control_message) : bool :=
  match m with
  | CEmitToRoom _ _ _ | CRoomCreated _ _ => true
  | _ => false
  end.

(** States reachable from the initial one by events that [allowed]
    admits. *)
Inductive reachable_by (allowed : state -> event -> Prop) : state -> Prop :=
| reach_initial : reachable_by allowed initial
| reach_step s now ev :
    reachable_by allowed s -> allowed s ev ->
    reachable_by allowed (handle now ev s).1.

Definition reachable : state -> Prop := reachable_by (fun _ _ => True).

Definition no_tracking_operation (s : state) (ev : event) : Prop :=
  Forall (fun m => ensures_tracking m = false) (bridge_operations s ev).

(** Each event of a trace is allowed in the state it arrives in. *)
Fixpoint trace_allowed (allowed : state -> event -> Prop)
    (trace : list (Z * event)) (s : state) : Prop :=
  match trace with
  | [] => True
  | (now, ev) :: trace' =>
      allowed s ev /\
      trace_allowed allowed trace' (handle now ev s).1
  end.

End Server.

(** ** Invariants and sample data *)

(** Invariant 4: no history buffer is longer than [MAX_MESSAGE_HISTORY]. *)
Definition history_bounded (s : state) : Prop :=
  forall r h, messageHistory s !! r = Some h ->
    length h <= MAX_MESSAGE_HISTORY.

(** Invariant 5, on the [rooms] map: an entry has at least one member. *)
Definition rooms_nonempty (s : state) : Prop :=
  forall r members, rooms s !! r = Some members -> members <> ∅.

(** Invariant 3: every member of a room has a user record in that room. *)
Definition membership_consistent (s : state) : Prop :=
  forall r members c, rooms s !! r = Some members -> c ∈ members ->
    exists u, users s !! c = Some u /\ room u = r.

(** A [join] comes from a connection that has no user record yet. *)
Definition first_join (s : state) (ev : event) : Prop :=
  match ev with
  | Join c _ => users s !! c = None
  | _ => True
  end.

(** Invariant 2: usernames are pairwise distinct up to case. *)
Definition usernames_unique (s : state) : Prop :=
  forall c1 c2 u1 u2,
    users s !! c1 = Some u1 -> users s !! c2 = Some u2 ->
    toLowerCase (username u1) = toLowerCase (username u2) -> c1 = c2.

Definition usernames_valid (s : state) : Prop :=
  forall c u, users s !! c = Some u ->
    isValidUsername (JStr (username u)) = true.

(** Every code unit of the model. *)
Definition all_ascii : list ascii := map ascii_of_nat (seq 0 256).

(** [addToMessageHistory] applied to each entry of [ms] in turn. *)
Definition append_all (r : string) (ms : list message)
    (mh : gmap string (list message)) : gmap string (list message) :=
  fold_left (fun acc m => addToMessageHistory r m acc) ms mh.

(** Fifty-one distinct notices, numbered 1 to 51. *)
Definition sample_notices : list message :=
  map (fun i => SystemMessage (Z.of_nat i) "notice" "lobby") (seq 1 51).

(** A string between double quotes. *)
Definition quoted (x : string) : string :=
  String (ascii_of_nat 34) x +:+ String (ascii_of_nat 34) "".

(** The JSON text of an [emit_to_room] message for room [r1] with the event
    [receive_message] and the data [null], and a parser that knows this one
    line. *)
Definition sample_line : string :=
  "{" +:+ quoted "type" +:+ ":" +:+ quoted "emit_to_room" +:+ ","
  +:+ quoted "room" +:+ ":" +:+ quoted "r1" +:+ ","
  +:+ quoted "event" +:+ ":" +:+ quoted "receive_message" +:+ ","
  +:+ quoted "data" +:+ ":null}".

Definition sample_parse (line : string) : option control_message :=
  if String.eqb line sample_line
  then Some (CEmitToRoom "r1" "receive_message" JsonNull)
  else None.

Definition newline : string := String (ascii_of_nat 10) "".

(** ** Relations between the states of a step *)

(** The only changes the handlers make: none, the record a successful
    [join] stores, the move of [change_room], the removal of
    [disconnect]. *)
Inductive users_change (us us' : gmap string User) : Prop :=
| users_same : us' = us -> users_change us us'
| users_joined c u r uid now :
    find_user u us = None -> isValidUsername (JStr u) = true ->
    us' = <[c := mkUser u r c uid now]> us -> users_change us us'
| users_moved c user new :
    us !! c = Some user -> us' = <[c := set_room new user]> us ->
    users_change us us'
| users_left c : us' = delete c us -> users_change us us'.

(** A step never clears the flag of a connection. *)
Definition flag_kept (ss ss' : gmap string Socket) : Prop :=
  forall k sk, ss !! k = Some sk -> isLaravelClient sk = true ->
    exists sk', ss' !! k = Some sk' /\ isLaravelClient sk' = true.

(** The failures of validation: a malformed username or room name, a
    username in use, a content that is empty once sanitized, a target that no
    connected user has. *)
Inductive validation_failure (s : state) (c : string) : event -> Prop :=
| invalid_username d :
    isValidUsername (jd_username d) = false ->
    validation_failure s c (Join c (Some d))
| invalid_room d :
    isValidRoomName (room_or_general (jd_room d)) = false ->
    validation_failure s c (Join c (Some d))
| duplicate_username d u k v :
    jd_username d = JStr u -> users s !! k = Some v ->
    toLowerCase (username v) = toLowerCase u ->
    validation_failure s c (Join c (Some d))
| empty_message content :
    sanitizeInput content = Some "" ->
    validation_failure s c (SendMessage c (Some content))
| empty_private_message target content :
    sanitizeInput content = Some "" ->
    validation_failure s c (SendPrivateMessage c (Some (target, content)))
| missing_target t content :
    find_user t (users s) = None ->
    validation_failure s c
      (SendPrivateMessage c (Some (JStr t, content)))
| invalid_new_room newRoom :
    isValidRoomName newRoom = false ->
    validation_failure s c (ChangeRoom c newRoom).

(** ** Sample runs *)

Definition join_data (name r : string) : option JoinData :=
  Some (mkJoin (JStr name) (JStr r) JUndefined).

(** Alice joins the lobby. *)
Definition alice_in_lobby : list (Z * event) :=
  [ (1%Z, Connection "a"); (2%Z, Join "a" (join_data "alice" "lobby")) ].

(** Alice joins the lobby and a second connection opens. *)
Definition alice_and_newcomer : list (Z * event) :=
  alice_in_lobby ++ [ (3%Z, Connection "b") ].

(** Alice joins the lobby, says hi and disconnects; Bob joins the lobby
    before the purge callback is due. *)
Definition rejoin_in_time : list (Z * event) :=
  alice_in_lobby
  ++ [ (3%Z, SendMessage "a" (Some (JStr "hi")));
       (4%Z, Disconnect "a");
       (5%Z, Connection "b");
       (6%Z, Join "b" (join_data "bob" "lobby")) ].

(** A connection that identifies itself as the Laravel client. *)
Definition bridge_connects : list (Z * event) :=
  [ (1%Z, Connection "L"); (2%Z, Data "L" "LARAVEL_CLIENT") ].

(** The bridge then sends a frame holding the sample line twice. *)
Definition bridge_emits_to_room : list (Z * event) :=
  bridge_connects
  ++ [ (3%Z, Data "L" (sample_line +:+ newline +:+ sample_line)) ].

(** A connection whose first frame is not the sentinel. *)
Definition regular_first_frame : list (Z * event) :=
  [ (1%Z, Connection "c"); (2%Z, Data "c" "hello") ].

(** After [rejoin_in_time] Bob disconnects too: the lobby is empty again
    while the purge scheduled at 4 is still pending. *)
Definition rejoin_then_leave : list (Z * event) :=
  rejoin_in_time ++ [ (7%Z, Disconnect "b") ].

(** Alice is in the lobby and a second connection identifies itself as the
    Laravel client. *)
Definition alice_and_bridge : list (Z * event) :=
  alice_in_lobby
  ++ [ (3%Z, Connection "L"); (4%Z, Data "L" "LARAVEL_CLIENT") ].

(** ** Further definitions: text, snapshots, statistics *)

(** No code unit of the string is a line feed. *)
Definition no_newline (x : string) : bool :=
  forallb (fun a => negb (code a =? 10)%N) (list_ascii_of_string x).

(** Every code unit of the string is white space. *)
Definition all_white (x : string) : bool :=
  forallb isWhiteSpace (list_ascii_of_string x).

(** One element of the list [GET /api/rooms] answers with:
    [{ name, userCount, messageCount }]. *)
Record RoomStat := mkRoomStat {
  rs_name : string;
  rs_userCount : nat;
  rs_messageCount : nat
}.

(** [messageHistory.get(room)?.length || 0] *)
Definition message_count (s : state) (r : string) : nat :=
  match messageHistory s !! r with
  | Some h => length h
  | None => 0
  end.

(** The body of [GET /api/rooms]. The source lists the rooms in the order
    they were created; the order of the list here is that of the map, and
    nothing below depends on it. *)
Definition api_rooms (s : state) : list RoomStat :=
  map (fun kv => mkRoomStat (fst kv) (size (snd kv)) (message_count s (fst kv)))
      (map_to_list (rooms s)).

(** [totalMessages] of [GET /api/stats]: the lengths of all history buffers
    added up by [reduce]. *)
Definition total_messages (s : state) : nat :=
  fold_left (fun total h => total + length h)
    (map snd (map_to_list (messageHistory s))) 0.

(** [rooms.size], the [activeRooms] of [GET /health] and
    [GET /api/stats]. *)
Definition active_rooms (s : state) : nat := size (rooms s).

(** The event is one of the regular client events. *)
Definition regular_event (ev : event) : bool :=
  match ev with
  | Join _ _ | SendMessage _ _ | SendPrivateMessage _ _ | Typing _
  | StopTyping _ | ChangeRoom _ _ | GetRooms _ | GetRoomUsers _ _ => true
  | _ => false
  end.

(** The event is one of the bridge's Socket.IO events. *)
Definition laravel_event (ev : event) : bool :=
  match ev with
  | LaravelEmit _ _ | LaravelEmitToRoom _ _ | LaravelRoomCreated _ _
  | LaravelPresenceUpdate _ _ => true
  | _ => false
  end.

(** The event comes from the bridge side: a raw frame or one of its
    Socket.IO events. *)
Definition bridge_event (ev : event) : bool :=
  match ev with
  | Data _ _ => true
  | _ => laravel_event ev
  end.

(** The emit goes to one socket. *)
Definition unicast (e : Emit) : bool :=
  match e_target e with
  | ToSocket _ => true
  | _ => false
  end.

(** The record of a user is well formed: it is stored under its own socket
    id and its names passed the validation. *)
Definition user_well_formed (k : string) (u : User) : Prop :=
  socketId u = k
  /\ isValidUsername (JStr (username u)) = true
  /\ isValidRoomName (JStr (room u)) = true.

(** The only changes a step makes to the closure state of the connections:
    none, the flag set by the sentinel, the buffer replaced by the pending
    line of a frame, the connection closed, a connection opened. *)
Inductive sockets_change (ss ss' : gmap string Socket) : Prop :=
| sockets_same : ss' = ss -> sockets_change ss ss'
| sockets_flagged c : ss' = alter set_laravel c ss -> sockets_change ss ss'
| sockets_buffered c buf :
    ss' = alter (set_buffer (pending_line buf)) c ss -> sockets_change ss ss'
| sockets_closed c :
    ss' = alter set_disconnected c ss -> sockets_change ss ss'
| sockets_opened c :
    ss !! c = None -> ss' = <[c := mkSocket false "" true]> ss ->
    sockets_change ss ss'.

(** No buffer of a connection holds a line feed. *)
Definition buffers_single_line (s : state) : Prop :=
  forall c sk, sockets s !! c = Some sk -> no_newline (dataBuffer sk) = true.

(** Every user record is well formed. *)
Definition users_well_formed (s : state) : Prop :=
  forall k u, users s !! k = Some u -> user_well_formed k u.

(** The events whose handlers only read the registries. *)
Definition read_only_event (ev : event) : bool :=
  match ev with
  | SendPrivateMessage _ _ | Typing _ | StopTyping _ | GetRooms _
  | GetRoomUsers _ _ => true
  | _ => false
  end.

(** The emit goes to a room without reaching the socket [c]. *)
Definition excludes_sender (c : string) (e : Emit) : bool :=
  match e_target e with
  | ToRoomExcept _ sender => String.eqb sender c
  | _ => false
  end.

(** The [rooms] map [rs'] is [rs] with, maybe, entries without members for
    rooms that had none. *)
Definition rooms_extended (rs rs' : gmap string (gset string)) : Prop :=
  forall r, rs' !! r = rs !! r \/ (rs !! r = None /\ rs' !! r = Some ∅).

(** The control messages that reach no registry. *)
Definition quiet_message (m : control_message) : bool :=
  match m with
  | CPing | CHeartbeat | CDisconnect | COther _ => true
  | _ => false
  end.

Definition is_ping (m : control_message) : bool :=
  match m with
  | CPing => true
  | _ => false
  end.

(** ** SocketServer.js: the message relay

    The relay of [src/client1-test.js]: [roomUsers] maps a room id, any
    scalar the client sent (an array or an object as a room id is not
    modelled), to the set of the sockets that joined it, and each socket
    carries the id it joined last in [socket.room_id]. The handlers have no
    [try]: an exception stops the server. *)

Module Relay.

#[global] Instance jsval_eq_dec : EqDecision jsval.
Proof. solve_decision. Defined.

Definition jsval_encode (v : jsval) : unit + (unit + (bool + (Z + string))) :=
  match v with
  | JUndefined => inl tt
  | JNull => inr (inl tt)
  | JBool b => inr (inr (inl b))
  | JNum z => inr (inr (inr (inl z)))
  | JStr x => inr (inr (inr (inr x)))
  end.

Definition jsval_decode (e : unit + (unit + (bool + (Z + string)))) : jsval :=
  match e with
  | inl _ => JUndefined
  | inr (inl _) => JNull
  | inr (inr (inl b)) => JBool b
  | inr (inr (inr (inl z))) => JNum z
  | inr (inr (inr (inr x))) => JStr x
  end.

#[global] Instance jsval_countable : Countable jsval.
Proof.
  apply (inj_countable' jsval_encode jsval_decode).
  intros []; reflexivity.
Defined.

(** The value as a condition. *)
Definition truthy (v : jsval) : bool :=
  match v with
  | JUndefined | JNull => false
  | JBool b => b
  | JNum z => negb (z =? 0)%Z
  | JStr x => negb (String.eqb x "")
  end.

Record state := mkState {
  roomUsers : gmap jsval (gset string);
  room_ids : gmap string jsval;          (* socket.room_id, where assigned *)
  connections : gmap string bool         (* true while the socket is open *)
}.

Definition initial : state :=
  {| roomUsers := ∅; room_ids := ∅; connections := ∅ |}.

(** [socket.room_id] *)
Definition room_id_of (s : state) (c : string) : jsval :=
  default JUndefined (room_ids s !! c).

(** [io.to(room_id).emit('receive_message', messageData)] *)
Record Relayed := mkRelayed {
  to_room : jsval;
  relayed : option json
}.

(** What a handler leaves: the state and the emits, or the server
    stopped by an exception after the emits made so far. *)
Inductive outcome :=
| Running (s : state) (out : list Relayed)
| Crashed (out : list Relayed).

(** [socket.on('join_room', data)]; the argument is [data.room_id], [None]
    when [data] cannot be destructured. *)
Definition on_join_room (c : string) (data : option jsval) (s : state)
  : outcome :=
  match data with
  | None => Crashed []
  | Some room_id =>
      let members := default ∅ (roomUsers s !! room_id) ∪ {[c]} in
      Running {| roomUsers := <[room_id := members]> (roomUsers s);
                 room_ids := <[c := room_id]> (room_ids s);
                 connections := connections s |} []
  end.

(** [socket.on('send_message', messageData)]; the log line after the emit
    reads [messageData.content] and throws on [null] and on [undefined]
    ([None], no payload). *)
Definition on_send_message (c : string) (messageData : option json)
    (s : state) : outcome :=
  let room_id := room_id_of s c in
  if truthy room_id then
    match messageData with
    | None | Some JsonNull => Crashed [mkRelayed room_id messageData]
    | Some _ => Running s [mkRelayed room_id messageData]
    end
  else Running s [].

(** [socket.on('disconnect')] *)
Definition on_disconnect (c : string) (s : state) : state :=
  let room_id := room_id_of s c in
  let rs :=
    if truthy room_id then
      match roomUsers s !! room_id with
      | Some members =>
          if (size (members ∖ {[c]}) =? 0)%nat
          then delete room_id (roomUsers s)
          else <[room_id := members ∖ {[c]}]> (roomUsers s)
      | None => roomUsers s
      end
    else roomUsers s in
  {| roomUsers := rs; room_ids := room_ids s;
     connections := <[c := false]> (connections s) |}.

Inductive event :=
| Connection (c : string)
| JoinRoom (c : string) (data : option jsval)
| SendMessage (c : string) (messageData : option json)
| Disconnect (c : string).

Definition is_open (s : state) (c : string) : bool :=
  default false (connections s !! c).

(** One event of the relay: a new connection under a fresh id, or an event
    on an open connection; anything else cannot occur and is ignored. *)
Definition handle (ev : event) (s : state) : outcome :=
  match ev with
  | Connection c =>
      match connections s !! c with
      | None => Running {| roomUsers := roomUsers s; room_ids := room_ids s;
                           connections := <[c := true]> (connections s) |} []
      | Some _ => Running s []
      end
  | JoinRoom c data =>
      if is_open s c then on_join_room c data s else Running s []
  | SendMessage c messageData =>
      if is_open s c then on_send_message c messageData s else Running s []
  | Disconnect c =>
      if is_open s c then Running (on_disconnect c s) [] else Running s []
  end.

Inductive reachable : state -> Prop :=
| reach_initial : reachable initial
| reach_step s ev s' out :
    reachable s -> handle ev s = Running s' out -> reachable s'.

(** Every tracked room has a member, and every member is a connection the
    relay has seen. *)
Definition tracked_rooms_inhabited (s : state) : Prop :=
  forall id members, roomUsers s !! id = Some members ->
    members <> ∅ /\ forall c, c ∈ members -> is_Some (connections s !! c).

(** The state after [join_room] with the room id [id]. *)
Definition joined (c : string) (id : jsval) (s : state) : state :=
  {| roomUsers := <[id := default ∅ (roomUsers s !! id) ∪ {[c]}]> (roomUsers s);
     room_ids := <[c := id]> (room_ids s);
     connections := connections s |}.

End Relay.

(** What is left of the room [r] once the socket [c] is out of it: nothing,
    with the purge scheduled, when [c] was its last member. *)
Definition room_after_leaving (s : state) (r c : string)
  : option (gset string) * list string :=
  match rooms s !! r with
  | Some members =>
      if (size (members ∖ {[c]}) =? 0)%nat then (None, timers s ++ [r])
      else (Some (members ∖ {[c]}), timers s)
  | None => (None, timers s)
  end.

(** What a control message may change: nothing of the users and the timers,
    and of the rooms only what [rooms_extended] allows. *)
Definition bridge_footprint (s s' : state) : Prop :=
  users s' = users s /\ timers s' = timers s
  /\ rooms_extended (rooms s) (rooms s').

(** ** More sample runs *)

(** Alice and Bob are in the lobby. *)
Definition alice_and_bob : list (Z * event) :=
  alice_in_lobby
  ++ [ (3%Z, Connection "b"); (4%Z, Join "b" (join_data "bob" "lobby")) ].

(** A connection is open and has sent nothing. *)
Definition newcomer : list (Z * event) := [ (1%Z, Connection "a") ].

(** The relay after a socket opened. *)
Definition relay_open : Relay.state :=
  Relay.mkState ∅ ∅ {[ "a" := true ]}.

(** The relay after that socket joined the room [r1]. *)
Definition relay_joined : Relay.state :=
  Relay.joined "a" (JStr "r1") relay_open.

(** ** The history buffer *)

Section History.

Lemma push_bounded_length h m :
  length h <= MAX_MESSAGE_HISTORY ->
  length (push_bounded h m) <= MAX_MESSAGE_HISTORY.
Proof.
  intros Hh. unfold push_bounded.
  destruct (Nat.ltb_spec MAX_MESSAGE_HISTORY (length (h ++ [m]))) as [Hlt|Hge].
  - destruct h as [|x h]; simpl in *; [lia|].
    rewrite length_app in *. simpl in *. lia.
  - exact Hge.
Qed.

(** Below capacity the push keeps everything; at capacity the oldest entry
    goes. *)
Lemma push_bounded_drop h m :
  length h <= MAX_MESSAGE_HISTORY ->
  push_bounded h m = drop (length h + 1 - MAX_MESSAGE_HISTORY) (h ++ [m]).
Proof.
  intros Hh. unfold push_bounded. rewrite length_app. simpl length.
  destruct (Nat.ltb_spec MAX_MESSAGE_HISTORY (length h + 1)) as [Hlt|Hge].
  - replace (length h + 1 - MAX_MESSAGE_HISTORY) with 1 by lia.
    destruct (h ++ [m]); reflexivity.
  - replace (length h + 1 - MAX_MESSAGE_HISTORY) with 0 by lia.
    reflexivity.
Qed.

Lemma fold_push_bounded ms : forall h,
  length h <= MAX_MESSAGE_HISTORY ->
  fold_left push_bounded ms h
  = drop (length h + length ms - MAX_MESSAGE_HISTORY) (h ++ ms).
Proof.
  induction ms as [|m ms IH]; intros h Hh.
  - simpl. rewrite app_nil_r.
    replace (length h + 0 - MAX_MESSAGE_HISTORY) with 0 by lia.
    reflexivity.
  - simpl fold_left. rewrite IH by (apply push_bounded_length; exact Hh).
    rewrite push_bounded_drop by exact Hh.
    set (k := length h + 1 - MAX_MESSAGE_HISTORY).
    assert (Hk : k <= length (h ++ [m])) by (rewrite length_app; simpl; lia).
    rewrite length_drop, length_app. simpl length.
    rewrite <- (drop_app_le (h ++ [m]) ms k) by exact Hk.
    rewrite drop_drop, <- app_assoc. simpl app.
    f_equal. unfold k. lia.
Qed.

Lemma getMessageHistory_add_eq r m mh :
  getMessageHistory (addToMessageHistory r m mh) r
  = push_bounded (getMessageHistory mh r) m.
Proof.
  unfold addToMessageHistory, getMessageHistory at 1.
  rewrite lookup_insert_eq. reflexivity.
Qed.

Lemma getMessageHistory_add_ne r r' m mh :
  r <> r' ->
  getMessageHistory (addToMessageHistory r m mh) r'
  = getMessageHistory mh r'.
Proof.
  intros Hne. unfold addToMessageHistory, getMessageHistory at 1.
  rewrite lookup_insert_ne by exact Hne. reflexivity.
Qed.

Lemma getMessageHistory_append_all r ms : forall mh,
  getMessageHistory (append_all r ms mh) r
  = fold_left push_bounded ms (getMessageHistory mh r).
Proof.
  unfold append_all.
  induction ms as [|m ms IH]; intros mh; simpl; [reflexivity|].
  rewrite IH, getMessageHistory_add_eq. reflexivity.
Qed.

Lemma getMessageHistory_bounded s r :
  history_bounded s ->
  length (getMessageHistory (messageHistory s) r) <= MAX_MESSAGE_HISTORY.
Proof.
  intros H. unfold getMessageHistory.
  destruct (messageHistory s !! r) as [h|] eqn:E; simpl.
  - exact (H r h E).
  - unfold MAX_MESSAGE_HISTORY. lia.
Qed.

Lemma history_bounded_add r m s :
  history_bounded s ->
  history_bounded (with_history (addToMessageHistory r m) s).
Proof.
  intros H r' h. simpl. unfold addToMessageHistory.
  destruct (decide (r = r')) as [->|Hne].
  - rewrite lookup_insert_eq. intros [= <-].
    apply push_bounded_length, getMessageHistory_bounded, H.
  - rewrite lookup_insert_ne by exact Hne. apply H.
Qed.

Lemma history_bounded_delete r s :
  history_bounded s -> history_bounded (with_history (delete r) s).
Proof.
  intros H r' h. simpl. intros Hl.
  apply lookup_delete_Some in Hl as [_ Hl]. exact (H r' h Hl).
Qed.

Lemma history_bounded_same s s' :
  messageHistory s' = messageHistory s ->
  history_bounded s -> history_bounded s'.
Proof. intros E H r h. rewrite E. apply H. Qed.

End History.

(** ** How the shared pieces change the registries *)

Section Frames.

Lemma leave_room_users r c s : users (leave_room r c s) = users s.
Proof. unfold leave_room. repeat case_match; reflexivity. Qed.

Lemma leave_room_history r c s :
  messageHistory (leave_room r c s) = messageHistory s.
Proof. unfold leave_room. repeat case_match; reflexivity. Qed.

Lemma leave_room_sockets r c s : sockets (leave_room r c s) = sockets s.
Proof. unfold leave_room. repeat case_match; reflexivity. Qed.

Lemma purge_history_users r s : users (purge_history r s) = users s.
Proof. unfold purge_history. case_match; reflexivity. Qed.

Lemma purge_history_rooms r s : rooms (purge_history r s) = rooms s.
Proof. unfold purge_history. case_match; reflexivity. Qed.

Lemma ensure_room_lookup_ne r r' rs :
  r <> r' -> ensure_room r rs !! r' = rs !! r'.
Proof.
  intros Hne. unfold ensure_room. case_match; [reflexivity|].
  apply lookup_insert_ne, Hne.
Qed.

Lemma ensure_room_is_Some r rs : is_Some (ensure_room r rs !! r).
Proof.
  unfold ensure_room. case_match eqn:E.
  - rewrite E. eauto.
  - rewrite lookup_insert_eq. eauto.
Qed.

Lemma ensure_room_default r rs :
  default ∅ (ensure_room r rs !! r) = default ∅ (rs !! r).
Proof.
  unfold ensure_room. destruct (rs !! r) as [g|] eqn:E.
  - rewrite E. reflexivity.
  - rewrite lookup_insert_eq. reflexivity.
Qed.

Lemma add_member_lookup_eq r c rs :
  add_member r c rs !! r = Some (default ∅ (rs !! r) ∪ {[c]}).
Proof.
  unfold add_member. rewrite lookup_insert_eq, ensure_room_default.
  reflexivity.
Qed.

Lemma add_member_lookup_ne r r' c rs :
  r <> r' -> add_member r c rs !! r' = rs !! r'.
Proof.
  intros Hne. unfold add_member.
  rewrite lookup_insert_ne by exact Hne. apply ensure_room_lookup_ne, Hne.
Qed.

(** [leave_room] on the [rooms] map, entry by entry. *)
Lemma leave_room_lookup_ne r r' c s :
  r <> r' -> rooms (leave_room r c s) !! r' = rooms s !! r'.
Proof.
  intros Hne. unfold leave_room. repeat case_match; simpl; try reflexivity.
  - apply lookup_delete_ne, Hne.
  - apply lookup_insert_ne, Hne.
Qed.

Lemma leave_room_lookup_eq r c s :
  rooms (leave_room r c s) !! r
  = match rooms s !! r with
    | Some members =>
        if (size (members ∖ {[c]}) =? 0)%nat then None
        else Some (members ∖ {[c]})
    | None => None
    end.
Proof.
  unfold leave_room. destruct (rooms s !! r) as [members|] eqn:E.
  - destruct (size (members ∖ {[c]}) =? 0)%nat; simpl.
    + apply lookup_delete_eq.
    + apply lookup_insert_eq.
  - exact E.
Qed.

End Frames.

(** ** Every step keeps the history buffers bounded *)

Section HistoryInvariant.

Context (JSON_parse : string -> option control_message).

Lemma history_bounded_with_users f s :
  history_bounded s -> history_bounded (with_users f s).
Proof. exact id. Qed.

Lemma history_bounded_with_rooms f s :
  history_bounded s -> history_bounded (with_rooms f s).
Proof. exact id. Qed.

Lemma history_bounded_with_sockets f s :
  history_bounded s -> history_bounded (with_sockets f s).
Proof. exact id. Qed.

Lemma history_bounded_with_timers f s :
  history_bounded s -> history_bounded (with_timers f s).
Proof. exact id. Qed.

Lemma history_bounded_with_laravelSockets f s :
  history_bounded s -> history_bounded (with_laravelSockets f s).
Proof. exact id. Qed.

Lemma history_bounded_leave_room r c s :
  history_bounded s -> history_bounded (leave_room r c s).
Proof. apply history_bounded_same, leave_room_history. Qed.

Lemma history_bounded_purge r s :
  history_bounded s -> history_bounded (purge_history r s).
Proof.
  intros H. unfold purge_history. case_match; [exact H|].
  apply history_bounded_delete, H.
Qed.

Create HintDb bounded.
Hint Resolve history_bounded_add history_bounded_delete
  history_bounded_with_users history_bounded_with_rooms
  history_bounded_with_sockets history_bounded_with_timers
  history_bounded_with_laravelSockets history_bounded_leave_room
  history_bounded_purge : bounded.

Ltac handler_cases :=
  repeat case_match; simplify_eq; simpl; auto 12 with bounded.

Lemma history_bounded_control now c m s :
  history_bounded s -> history_bounded (dispatch_control now c m s).1.
Proof.
  intros H. destruct m; simpl; auto.
  - unfold handleLaravelRoomEmit. handler_cases.
  - unfold handleLaravelRoomCreation. handler_cases.
  - unfold handleLaravelPresenceUpdate. handler_cases.
Qed.

Lemma process_all_preserves (P : state -> Prop) now c :
  (forall m s, P s -> P (dispatch_control now c m s).1) ->
  forall ms s, P s -> P (process_all now c ms s).1.
Proof.
  intros Hstep ms. induction ms as [|m ms IH]; intros s Hs; [exact Hs|].
  simpl. pose proof (Hstep m s Hs) as H1.
  destruct (dispatch_control now c m s) as [s1 o1]. simpl in H1.
  pose proof (IH s1 H1) as H2.
  destruct (process_all now c ms s1) as [s2 o2]. exact H2.
Qed.

Lemma history_bounded_dispatch now ev s :
  history_bounded s -> history_bounded (dispatch JSON_parse now ev s).1.
Proof.
  intros H. destruct ev; simpl; auto.
  - unfold on_data. repeat case_match; simpl; auto with bounded.
    + apply process_all_preserves; auto with bounded.
      intros. apply history_bounded_control. assumption.
    + apply process_all_preserves; auto with bounded.
      intros. apply history_bounded_control. assumption.
  - unfold on_join. handler_cases.
  - unfold on_send_message. handler_cases.
  - unfold on_send_private_message. handler_cases.
  - unfold on_typing. handler_cases.
  - unfold on_typing. handler_cases.
  - unfold on_change_room. handler_cases.
  - unfold on_get_rooms. handler_cases.
  - unfold on_get_room_users. handler_cases.
  - unfold on_laravel_emit. handler_cases.
  - unfold on_laravel_emit_to_room. handler_cases.
  - unfold on_laravel_room_created. repeat case_match; simpl; auto.
    apply (history_bounded_control now c (CRoomCreated _ _)), H.
  - unfold on_laravel_presence_update. repeat case_match; simpl; auto.
    apply (history_bounded_control now c (CPresenceUpdate _ _ _)), H.
  - unfold on_disconnect. handler_cases.
Qed.

Lemma history_bounded_handle now ev s :
  history_bounded s -> history_bounded (handle JSON_parse now ev s).1.
Proof.
  intros H. unfold handle, event_socket.
  destruct ev; cbv beta iota;
    try (case_match; [apply history_bounded_dispatch, H | exact H]).
  - case_match; simpl; auto with bounded.
  - case_match; simpl; auto with bounded.
Qed.

Lemma reachable_by_ind_inv (allowed : state -> event -> Prop)
    (P : state -> Prop) :
  P initial ->
  (forall s now ev, P s -> allowed s ev ->
     P (handle JSON_parse now ev s).1) ->
  forall s, reachable_by JSON_parse allowed s -> P s.
Proof.
  intros Hinit Hstep s Hr. induction Hr; [exact Hinit|].
  apply Hstep; assumption.
Qed.

Lemma history_bounded_initial : history_bounded initial.
Proof. intros r h. simpl. rewrite lookup_empty. discriminate. Qed.

Lemma reachable_history_bounded s :
  reachable JSON_parse s -> history_bounded s.
Proof.
  apply reachable_by_ind_inv.
  - exact history_bounded_initial.
  - intros. apply history_bounded_handle. assumption.
Qed.

End HistoryInvariant.

Section HistoryCapacity.

Context (JSON_parse : string -> option control_message).

(** C4. In every reachable state each history buffer holds at most 50
    entries; and 51 appends to one room's history leave exactly the 2nd to
    the 51st appended entries, in order: the 51st is in the buffer, and the
    1st is not (unless the same value was appended again later). *)
Theorem C4_history_capacity_fifo s :
  reachable JSON_parse s ->
  history_bounded s /\
  forall r ms, length ms = 51 ->
    let buffer :=
      getMessageHistory (append_all r ms (messageHistory s)) r in
    length buffer = MAX_MESSAGE_HISTORY
    /\ buffer = tail ms
    /\ (forall m, last ms = Some m -> m ∈ buffer)
    /\ (forall m, head ms = Some m -> NoDup ms -> m ∉ buffer).
Proof.
  intros Hr. pose proof (reachable_history_bounded _ _ Hr) as Hb.
  split; [exact Hb|].
  intros r ms Hlen buffer.
  assert (Hbuf : buffer = tail ms).
  { unfold buffer. rewrite getMessageHistory_append_all.
    pose proof (getMessageHistory_bounded s r Hb) as Hh.
    rewrite fold_push_bounded by exact Hh.
    set (h := getMessageHistory (messageHistory s) r) in *.
    rewrite Hlen.
    replace (length h + 51 - MAX_MESSAGE_HISTORY) with (length h + 1)
      by (unfold MAX_MESSAGE_HISTORY in *; lia).
    rewrite drop_app_ge by lia.
    replace (length h + 1 - length h) with 1 by lia.
    destruct ms; reflexivity. }
  rewrite Hbuf. repeat split.
  - destruct ms as [|m0 ms]; simpl in *; [discriminate|].
    unfold MAX_MESSAGE_HISTORY. lia.
  - intros m Hlast. destruct ms as [|m0 ms]; [discriminate|]. simpl.
    destruct ms as [|m1 ms]; [simpl in Hlen; discriminate|].
    rewrite last_cons_cons in Hlast.
    apply last_Some in Hlast as [l' ->]. set_solver.
  - intros m Hhead Hnd. destruct ms as [|m0 ms]; [discriminate|].
    simpl in *. injection Hhead as ->.
    apply NoDup_cons in Hnd as [Hnotin _]. exact Hnotin.
Qed.

End HistoryCapacity.

(** ** Lifting a step property from the handlers to [handle] *)

Section Lifting.

Context (JSON_parse : string -> option control_message).

Lemma handle_preserves (allowed : state -> event -> Prop)
    (P : state -> Prop) :
  (forall f s, P s -> P (with_sockets f s)) ->
  (forall r s, P s -> P (purge_history r (with_timers (remove_one r) s))) ->
  (forall now ev s, P s -> allowed s ev ->
     P (dispatch JSON_parse now ev s).1) ->
  forall now ev s, P s -> allowed s ev ->
    P (handle JSON_parse now ev s).1.
Proof.
  intros Hsock Hpurge Hdisp now ev s Hs Hal.
  pose proof (Hdisp now ev s Hs Hal) as Hd.
  unfold handle, event_socket.
  destruct ev; cbv beta iota; try (case_match; [exact Hd | exact Hs]).
  - case_match; simpl; auto.
  - case_match; simpl; auto.
Qed.

Lemma run_reachable_by allowed trace : forall s,
  reachable_by JSON_parse allowed s ->
  trace_allowed JSON_parse allowed trace s ->
  reachable_by JSON_parse allowed (run JSON_parse trace s).
Proof.
  induction trace as [|[now ev] trace IH]; intros s Hr Hal; [exact Hr|].
  destruct Hal as [Hev Hal]. simpl. apply IH; [|exact Hal].
  apply reach_step; assumption.
Qed.

Lemma run_reachable trace : reachable JSON_parse (run JSON_parse trace initial).
Proof.
  apply run_reachable_by; [apply reach_initial|].
  generalize initial. induction trace as [|[now ev] trace IH]; simpl; auto.
Qed.

End Lifting.

(** ** Room entries and their member sets *)

Section RoomEntries.

Context (JSON_parse : string -> option control_message).

Lemma rooms_nonempty_same s s' :
  rooms s' = rooms s -> rooms_nonempty s -> rooms_nonempty s'.
Proof. intros E H r m. rewrite E. apply H. Qed.

Lemma rooms_nonempty_add_member r c s :
  rooms_nonempty s -> rooms_nonempty (with_rooms (add_member r c) s).
Proof.
  intros H r' m. simpl. destruct (decide (r = r')) as [<-|Hne].
  - rewrite add_member_lookup_eq. intros [= <-]. set_solver.
  - rewrite add_member_lookup_ne by exact Hne. apply H.
Qed.

Lemma rooms_nonempty_leave_room r c s :
  rooms_nonempty s -> rooms_nonempty (leave_room r c s).
Proof.
  intros H r' m. destruct (decide (r = r')) as [<-|Hne].
  - rewrite leave_room_lookup_eq.
    destruct (rooms s !! r) as [members|]; [|discriminate].
    destruct (Nat.eqb_spec (size (members ∖ {[c]})) 0) as [|Hsz];
      [discriminate|].
    intros [= <-] Hempty. apply Hsz. rewrite Hempty. apply size_empty.
  - rewrite leave_room_lookup_ne by exact Hne. apply H.
Qed.

Lemma rooms_nonempty_purge r s :
  rooms_nonempty s -> rooms_nonempty (purge_history r s).
Proof. apply rooms_nonempty_same, purge_history_rooms. Qed.

Lemma dispatch_control_rooms now c m s :
  ensures_tracking m = false ->
  rooms (dispatch_control now c m s).1 = rooms s.
Proof.
  destruct m; simpl; try discriminate; try reflexivity.
  intros _. unfold handleLaravelPresenceUpdate.
  repeat case_match; reflexivity.
Qed.

Lemma process_all_rooms now c ms : forall s,
  Forall (fun m => ensures_tracking m = false) ms ->
  rooms (process_all now c ms s).1 = rooms s.
Proof.
  induction ms as [|m ms IH]; intros s Hall; [reflexivity|].
  apply Forall_cons in Hall as [Hm Hall]. simpl.
  pose proof (dispatch_control_rooms now c m s Hm) as H1.
  destruct (dispatch_control now c m s) as [s1 o1]. simpl in H1.
  pose proof (IH s1 Hall) as H2.
  destruct (process_all now c ms s1) as [s2 o2]. simpl in *. congruence.
Qed.

Lemma on_data_rooms now c data s :
  no_tracking_operation JSON_parse s (Data c data) ->
  rooms (on_data JSON_parse now c data s).1 = rooms s.
Proof.
  unfold no_tracking_operation, bridge_operations, on_data.
  repeat case_match; try reflexivity; intros Hall;
    rewrite process_all_rooms by exact Hall; reflexivity.
Qed.

Lemma rooms_nonempty_with_users f s :
  rooms_nonempty s -> rooms_nonempty (with_users f s).
Proof. exact id. Qed.

Lemma rooms_nonempty_with_history f s :
  rooms_nonempty s -> rooms_nonempty (with_history f s).
Proof. exact id. Qed.

Lemma rooms_nonempty_with_sockets f s :
  rooms_nonempty s -> rooms_nonempty (with_sockets f s).
Proof. exact id. Qed.

Lemma rooms_nonempty_with_timers f s :
  rooms_nonempty s -> rooms_nonempty (with_timers f s).
Proof. exact id. Qed.

Lemma rooms_nonempty_with_laravelSockets f s :
  rooms_nonempty s -> rooms_nonempty (with_laravelSockets f s).
Proof. exact id. Qed.

Create HintDb nonempty.
Hint Resolve rooms_nonempty_add_member rooms_nonempty_leave_room
  rooms_nonempty_purge rooms_nonempty_with_users
  rooms_nonempty_with_history rooms_nonempty_with_sockets
  rooms_nonempty_with_timers rooms_nonempty_with_laravelSockets : nonempty.

Ltac room_cases :=
  repeat case_match; simplify_eq; simpl; auto 12 with nonempty.

Lemma rooms_nonempty_dispatch now ev s :
  rooms_nonempty s -> no_tracking_operation JSON_parse s ev ->
  rooms_nonempty (dispatch JSON_parse now ev s).1.
Proof.
  intros H Hal. destruct ev; simpl; auto.
  - eapply rooms_nonempty_same; [apply on_data_rooms, Hal | exact H].
  - unfold on_join. room_cases.
  - unfold on_send_message. room_cases.
  - unfold on_send_private_message. room_cases.
  - unfold on_typing. room_cases.
  - unfold on_typing. room_cases.
  - unfold on_change_room. room_cases.
  - unfold on_get_rooms. room_cases.
  - unfold on_get_room_users. room_cases.
  - unfold on_laravel_emit. room_cases.
  - unfold no_tracking_operation, bridge_operations in Hal.
    unfold on_laravel_emit_to_room.
    destruct data as [[[r e] p]|]; destruct (is_laravel s c); simpl; auto.
    apply Forall_cons in Hal as [Hal _]. discriminate.
  - unfold no_tracking_operation, bridge_operations in Hal.
    unfold on_laravel_room_created.
    destruct data as [[ri nu]|]; destruct (is_laravel s c); simpl; auto.
    apply Forall_cons in Hal as [Hal _]. discriminate.
  - unfold on_laravel_presence_update, handleLaravelPresenceUpdate.
    room_cases.
  - unfold on_disconnect. room_cases.
Qed.

Lemma rooms_nonempty_handle now ev s :
  rooms_nonempty s -> no_tracking_operation JSON_parse s ev ->
  rooms_nonempty (handle JSON_parse now ev s).1.
Proof.
  apply (handle_preserves JSON_parse (no_tracking_operation JSON_parse)
           rooms_nonempty).
  - intros. assumption.
  - intros. apply rooms_nonempty_purge. assumption.
  - intros. apply rooms_nonempty_dispatch; assumption.
Qed.

Lemma rooms_nonempty_initial : rooms_nonempty initial.
Proof. intros r m. simpl. rewrite lookup_empty. discriminate. Qed.


End RoomEntries.

(** ** Case-insensitive comparison of names *)

Section Names.

Lemma all_ascii_complete a : In a all_ascii.
Proof.
  rewrite <- (ascii_nat_embedding a). apply in_map, in_seq.
  pose proof (nat_ascii_bounded a). lia.
Qed.

Lemma toLowerCase_length x : String.length (toLowerCase x) = String.length x.
Proof. induction x as [|a x IH]; simpl; congruence. Qed.

Lemma same_name_spec name u :
  same_name name u = true <->
  toLowerCase (username u) = toLowerCase name.
Proof. unfold same_name. apply String.eqb_eq. Qed.

Lemma find_user_None name (us : gmap string User) k v :
  find_user name us = None -> us !! k = Some v ->
  toLowerCase (username v) <> toLowerCase name.
Proof.
  unfold find_user. intros Hfind Hk Heq.
  apply same_name_spec in Heq.
  assert (Hin : In v (map snd (map_to_list us))).
  { apply (in_map snd _ (k, v)), list_elem_of_In, elem_of_map_to_list, Hk. }
  rewrite (find_none _ _ Hfind v Hin) in Heq. discriminate.
Qed.

(** With unique usernames the order of the search does not matter. *)
Lemma find_user_unique s name k v :
  usernames_unique s -> users s !! k = Some v ->
  toLowerCase (username v) = toLowerCase name ->
  find_user name (users s) = Some v.
Proof.
  intros Huniq Hk Heq. destruct (find_user name (users s)) as [w|] eqn:E.
  - unfold find_user in E. apply find_some in E as [Hin Hsame].
    apply same_name_spec in Hsame.
    apply in_map_iff in Hin as ([k' w'] & <- & Hin). simpl in *.
    apply list_elem_of_In, elem_of_map_to_list in Hin.
    assert (k' = k) as -> by (apply (Huniq k' k w' v); congruence).
    congruence.
  - exfalso. exact (find_user_None _ _ _ _ E Hk Heq).
Qed.

Lemma find_user_Some name (us : gmap string User) k v :
  us !! k = Some v -> toLowerCase (username v) = toLowerCase name ->
  is_Some (find_user name us).
Proof.
  intros Hk Heq. destruct (find_user name us) eqn:E; [eauto|].
  exfalso. exact (find_user_None _ _ _ _ E Hk Heq).
Qed.

End Names.

(** ** How a step changes the [users] map *)

Section Users.

Context (JSON_parse : string -> option control_message).

Lemma dispatch_control_users now c m s :
  users (dispatch_control now c m s).1 = users s.
Proof.
  destruct m; simpl; try reflexivity.
  - unfold handleLaravelRoomEmit. case_match; reflexivity.
  - unfold handleLaravelRoomCreation. repeat case_match; reflexivity.
  - unfold handleLaravelPresenceUpdate. repeat case_match; reflexivity.
Qed.

Lemma process_all_users now c ms : forall s,
  users (process_all now c ms s).1 = users s.
Proof.
  induction ms as [|m ms IH]; intros s; [reflexivity|]. simpl.
  pose proof (dispatch_control_users now c m s) as H1.
  destruct (dispatch_control now c m s) as [s1 o1]. simpl in H1.
  pose proof (IH s1) as H2.
  destruct (process_all now c ms s1) as [s2 o2]. simpl in *. congruence.
Qed.

Lemma str_of_Some v x : str_of v = Some x -> v = JStr x.
Proof. destruct v; simpl; congruence. Qed.

Lemma dispatch_users_change now ev s :
  users_change (users s) (users (dispatch JSON_parse now ev s).1).
Proof.
  destruct ev; simpl; try (apply users_same; reflexivity).
  - apply users_same. unfold on_data.
    repeat case_match; simpl; try reflexivity;
      rewrite process_all_users; reflexivity.
  - unfold on_join. repeat case_match; simpl;
      try (apply users_same; reflexivity).
    match goal with
    | H : str_of (jd_username _) = Some _ |- _ =>
        apply str_of_Some in H; rewrite H in *
    end.
    eapply users_joined; [eassumption | | reflexivity].
    match goal with
    | H : negb (isValidUsername _) = false |- _ =>
        apply negb_false_iff in H; exact H
    end.
  - unfold on_send_message. repeat case_match; apply users_same; reflexivity.
  - unfold on_send_private_message.
    repeat case_match; apply users_same; reflexivity.
  - unfold on_typing. repeat case_match; apply users_same; reflexivity.
  - unfold on_typing. repeat case_match; apply users_same; reflexivity.
  - unfold on_change_room. repeat case_match; simpl;
      try (apply users_same; reflexivity).
    eapply users_moved; [eassumption|].
    rewrite leave_room_users. reflexivity.
  - unfold on_get_rooms. repeat case_match; apply users_same; reflexivity.
  - unfold on_get_room_users.
    repeat case_match; apply users_same; reflexivity.
  - unfold on_laravel_emit. repeat case_match; apply users_same; reflexivity.
  - unfold on_laravel_emit_to_room.
    repeat case_match; apply users_same; reflexivity.
  - unfold on_laravel_room_created, handleLaravelRoomCreation.
    repeat case_match; apply users_same; reflexivity.
  - unfold on_laravel_presence_update, handleLaravelPresenceUpdate.
    repeat case_match; apply users_same; reflexivity.
  - unfold on_disconnect.
    destruct (is_laravel s c); [apply users_same; reflexivity|].
    destruct (users s !! c) as [user|]; simpl;
      [|apply users_same; reflexivity].
    apply (users_left _ _ c). rewrite leave_room_users. reflexivity.
Qed.

Lemma handle_users_change now ev s :
  users_change (users s) (users (handle JSON_parse now ev s).1).
Proof.
  pose proof (dispatch_users_change now ev s) as Hd.
  unfold handle, event_socket.
  destruct ev; cbv beta iota;
    try (case_match; [exact Hd | apply users_same; reflexivity]).
  case_match; apply users_same; simpl; rewrite ?purge_history_users;
    reflexivity.
Qed.

End Users.

(** ** Usernames *)

Section Usernames.

Context (JSON_parse : string -> option control_message).

Lemma usernames_unique_step s s' :
  users_change (users s) (users s') ->
  usernames_unique s -> usernames_unique s'.
Proof.
  intros [E | c u r uid now Hfind _ E | c user new Hc E | c E] H
         c1 c2 u1 u2; rewrite E.
  - apply H.
  - destruct (decide (c = c1)) as [<-|N1], (decide (c = c2)) as [<-|N2];
      try reflexivity.
    + rewrite lookup_insert_eq, lookup_insert_ne by exact N2.
      intros [= <-] H2 Heq. simpl in Heq.
      exfalso. exact (find_user_None _ _ _ _ Hfind H2 (eq_sym Heq)).
    + rewrite lookup_insert_ne, lookup_insert_eq by exact N1.
      intros H1 [= <-] Heq. simpl in Heq.
      exfalso. exact (find_user_None _ _ _ _ Hfind H1 Heq).
    + rewrite !lookup_insert_ne by assumption. apply H.
  - destruct (decide (c = c1)) as [<-|N1], (decide (c = c2)) as [<-|N2];
      try reflexivity.
    + rewrite lookup_insert_eq, lookup_insert_ne by exact N2.
      intros [= <-] H2 Heq. simpl in Heq. exact (H _ _ _ _ Hc H2 Heq).
    + rewrite lookup_insert_ne, lookup_insert_eq by exact N1.
      intros H1 [= <-] Heq. simpl in Heq. exact (H _ _ _ _ H1 Hc Heq).
    + rewrite !lookup_insert_ne by assumption. apply H.
  - intros H1 H2. apply lookup_delete_Some in H1 as [_ H1].
    apply lookup_delete_Some in H2 as [_ H2]. exact (H _ _ _ _ H1 H2).
Qed.

Lemma usernames_valid_step s s' :
  users_change (users s) (users s') ->
  usernames_valid s -> usernames_valid s'.
Proof.
  intros [E | c u r uid now _ Hv E | c user new Hc E | c E] H k v; rewrite E.
  - apply H.
  - destruct (decide (c = k)) as [<-|N].
    + rewrite lookup_insert_eq. intros [= <-]. exact Hv.
    + rewrite lookup_insert_ne by exact N. apply H.
  - destruct (decide (c = k)) as [<-|N].
    + rewrite lookup_insert_eq. intros [= <-]. exact (H _ _ Hc).
    + rewrite lookup_insert_ne by exact N. apply H.
  - intros Hk. apply lookup_delete_Some in Hk as [_ Hk]. exact (H _ _ Hk).
Qed.

Lemma reachable_usernames s :
  reachable JSON_parse s -> usernames_unique s /\ usernames_valid s.
Proof.
  revert s.
  apply (reachable_by_ind_inv JSON_parse _
           (fun s => usernames_unique s /\ usernames_valid s)).
  - split; intros ?; intros; simpl in *;
      match goal with H : ∅ !! _ = Some _ |- _ =>
        rewrite lookup_empty in H; discriminate end.
  - intros s' now ev [Hu Hv] _.
    pose proof (handle_users_change JSON_parse now ev s') as Hc.
    split; [exact (usernames_unique_step _ _ Hc Hu)
           | exact (usernames_valid_step _ _ Hc Hv)].
Qed.

Lemma isValidName_str max v :
  isValidName max v = true -> exists x, v = JStr x.
Proof. destruct v; simpl; try discriminate. eauto. Qed.

(** C5. In every reachable state the usernames of the connected users are
    pairwise distinct up to case. A [join] whose username equals, up to
    case, that of a connected user stores no record and changes nothing;
    coming from a regular client (a connection that is not flagged as a
    Laravel client) with a username and a room that pass the validation,
    which the handler does first, it is answered by the username-taken
    error, alone and to that connection. *)
Theorem C5_usernames_unique_and_duplicates_rejected :
  (forall s, reachable JSON_parse s -> usernames_unique s)
  /\ (forall s now c d u k v,
        jd_username d = JStr u ->
        users s !! k = Some v ->
        toLowerCase u = toLowerCase (username v) ->
        (on_join now c (Some d) s).1 = s
        /\ (is_laravel s c = false ->
            isValidUsername (JStr u) = true ->
            isValidRoomName (room_or_general (jd_room d)) = true ->
            on_join now c (Some d) s
            = (s, [emit_error c username_taken_msg]))).
Proof.
  split.
  - intros s Hr. apply reachable_usernames, Hr.
  - intros s now c d u k v Hname Hk Heq.
    unfold on_join. cbv zeta.
    destruct (is_laravel s c); [split; [reflexivity | discriminate]|].
    rewrite Hname.
    destruct (isValidUsername (JStr u)) eqn:Hu; cbn [negb];
      [|split; [reflexivity | discriminate]].
    destruct (isValidRoomName (room_or_general (jd_room d))) eqn:Hroom;
      cbn [negb]; [|split; [reflexivity | discriminate]].
    destruct (isValidName_str _ _ Hroom) as [r ->]. cbn [str_of].
    destruct (find_user_Some u (users s) k v Hk (eq_sym Heq)) as [w ->].
    split; [reflexivity | intros _ _ _; reflexivity].
Qed.

End Usernames.

(** ** Classification of a connection *)

Section Classification.

Context (JSON_parse : string -> option control_message).

Lemma dispatch_control_sockets now c m s :
  sockets (dispatch_control now c m s).1 = sockets s.
Proof.
  destruct m; simpl; try reflexivity.
  - unfold handleLaravelRoomEmit. case_match; reflexivity.
  - unfold handleLaravelRoomCreation. repeat case_match; reflexivity.
  - unfold handleLaravelPresenceUpdate. repeat case_match; reflexivity.
Qed.

Lemma process_all_sockets now c ms : forall s,
  sockets (process_all now c ms s).1 = sockets s.
Proof.
  induction ms as [|m ms IH]; intros s; [reflexivity|]. simpl.
  pose proof (dispatch_control_sockets now c m s) as H1.
  destruct (dispatch_control now c m s) as [s1 o1]. simpl in H1.
  pose proof (IH s1) as H2.
  destruct (process_all now c ms s1) as [s2 o2]. simpl in *. congruence.
Qed.

Lemma flag_kept_refl ss : flag_kept ss ss.
Proof. intros k sk H1 H2. eauto. Qed.

Lemma flag_kept_alter f c ss :
  (forall sk, isLaravelClient sk = true -> isLaravelClient (f sk) = true) ->
  flag_kept ss (alter f c ss).
Proof.
  intros Hf k sk Hk Hflag. destruct (decide (c = k)) as [<-|N].
  - exists (f sk). rewrite lookup_alter_eq, Hk. split; [reflexivity|].
    apply Hf, Hflag.
  - exists sk. rewrite lookup_alter_ne by exact N. split; assumption.
Qed.

Lemma on_join_sockets now c d s : sockets (on_join now c d s).1 = sockets s.
Proof. unfold on_join. repeat case_match; reflexivity. Qed.

Lemma on_change_room_sockets now c r s :
  sockets (on_change_room now c r s).1 = sockets s.
Proof.
  unfold on_change_room. repeat case_match; simpl; try reflexivity.
  apply leave_room_sockets.
Qed.

Lemma on_disconnect_sockets now c s :
  sockets (on_disconnect now c s).1 = sockets s.
Proof.
  unfold on_disconnect. repeat case_match; simpl; try reflexivity.
  apply leave_room_sockets.
Qed.

Lemma dispatch_flag_kept now ev s :
  flag_kept (sockets s) (sockets (dispatch JSON_parse now ev s).1).
Proof.
  destruct ev; simpl; try apply flag_kept_refl.
  - unfold on_data. repeat case_match; simpl; try apply flag_kept_refl;
      rewrite ?process_all_sockets; simpl;
      apply flag_kept_alter; intros sk Hsk; exact Hsk || reflexivity.
  - rewrite on_join_sockets. apply flag_kept_refl.
  - unfold on_send_message. repeat case_match; apply flag_kept_refl.
  - unfold on_send_private_message. repeat case_match; apply flag_kept_refl.
  - unfold on_typing. repeat case_match; apply flag_kept_refl.
  - unfold on_typing. repeat case_match; apply flag_kept_refl.
  - rewrite on_change_room_sockets. apply flag_kept_refl.
  - unfold on_get_rooms. repeat case_match; apply flag_kept_refl.
  - unfold on_get_room_users. repeat case_match; apply flag_kept_refl.
  - unfold on_laravel_emit. repeat case_match; apply flag_kept_refl.
  - unfold on_laravel_emit_to_room. repeat case_match; apply flag_kept_refl.
  - unfold on_laravel_room_created, handleLaravelRoomCreation.
    repeat case_match; apply flag_kept_refl.
  - unfold on_laravel_presence_update, handleLaravelPresenceUpdate.
    repeat case_match; apply flag_kept_refl.
  - pose proof (on_disconnect_sockets now c s) as E.
    destruct (on_disconnect now c s) as [s1 out]. simpl in *. rewrite E.
    apply flag_kept_alter. intros sk Hsk. exact Hsk.
Qed.

Lemma handle_flag_kept now ev s :
  flag_kept (sockets s) (sockets (handle JSON_parse now ev s).1).
Proof.
  pose proof (dispatch_flag_kept now ev s) as Hd.
  unfold handle, event_socket.
  destruct ev; cbv beta iota;
    try (case_match; [exact Hd | apply flag_kept_refl]).
  - destruct (sockets s !! c) as [sk|] eqn:E; simpl; [apply flag_kept_refl|].
    intros k sk Hk Hflag. exists sk. split; [|exact Hflag].
    rewrite lookup_insert_ne; [exact Hk|]. intros <-. congruence.
  - case_match; simpl; [|apply flag_kept_refl].
    unfold purge_history. case_match; apply flag_kept_refl.
Qed.

Lemma is_laravel_true s c :
  is_laravel s c = true <->
  exists sk, sockets s !! c = Some sk /\ isLaravelClient sk = true.
Proof.
  unfold is_laravel. destruct (sockets s !! c) as [sk|].
  - split; [eauto|]. intros (sk' & [= <-] & H). exact H.
  - split; [discriminate|]. intros (sk' & H & _). discriminate.
Qed.

(** C3, as the code has it. The sentinel is looked for in every raw frame,
    not only in the first: on an open connection a frame that equals the
    sentinel after trimming flags the connection as a Laravel client and
    is answered by the acknowledgment, whatever frames came before; no event
    clears the flag; and a frame that is not the sentinel leaves the flag as
    it is, a connection that is not flagged ignoring it altogether. *)
Theorem C3_sentinel_classifies_on_any_frame s now c data :
  is_connected s c = true ->
  (trim data = LARAVEL_CLIENT ->
     is_laravel (handle JSON_parse now (Data c data) s).1 c = true
     /\ (handle JSON_parse now (Data c data) s).2
        = [mkEmit (ToSocket c) "laravel_connected" (PLaravelConnected now)])
  /\ (trim data <> LARAVEL_CLIENT ->
        is_laravel (handle JSON_parse now (Data c data) s).1 c
        = is_laravel s c
        /\ (is_laravel s c = false ->
            handle JSON_parse now (Data c data) s = (s, [])))
  /\ (forall now' ev, is_laravel s c = true ->
        is_laravel (handle JSON_parse now' ev s).1 c = true).
Proof.
  intros Hconn. unfold handle at 1 2 3 4. cbn [event_socket].
  rewrite Hconn. cbn [dispatch]. unfold on_data.
  assert (Hsk : exists sk, sockets s !! c = Some sk).
  { unfold is_connected in Hconn.
    destruct (sockets s !! c); [eauto | discriminate]. }
  destruct Hsk as [sk Hsk].
  split; [|split].
  - intros Heq. rewrite Heq, String.eqb_refl. simpl. split; [|reflexivity].
    unfold is_laravel. simpl. rewrite lookup_alter_eq, Hsk. reflexivity.
  - intros Hne. apply String.eqb_neq in Hne. rewrite Hne.
    destruct (is_laravel s c) eqn:Hflag.
    + split; [|discriminate]. rewrite Hsk.
      unfold is_laravel. rewrite process_all_sockets. simpl.
      rewrite lookup_alter_eq, Hsk. simpl.
      unfold is_laravel in Hflag. rewrite Hsk in Hflag. exact Hflag.
    + split; [exact Hflag | reflexivity].
  - intros now' ev Hflag. apply is_laravel_true in Hflag as (sk' & H1 & H2).
    apply is_laravel_true. exact (handle_flag_kept now' ev s c sk' H1 H2).
Qed.

End Classification.

(** ** The deferred purge *)

Section Purge.

Context (JSON_parse : string -> option control_message).

(** The last member leaving deletes the entry and schedules the purge. *)
Lemma leave_room_last_member r c s :
  rooms s !! r = Some {[c]} ->
  rooms (leave_room r c s) !! r = None
  /\ timers (leave_room r c s) = timers s ++ [r]
  /\ messageHistory (leave_room r c s) = messageHistory s.
Proof.
  intros Hr. unfold leave_room. rewrite Hr.
  assert (Hempty : ({[c]} ∖ {[c]} : gset string) = ∅)
    by apply difference_diag_L.
  rewrite Hempty, size_empty. simpl. split; [apply lookup_delete_eq | split; reflexivity].
Qed.

(** C6, as the code has it. The purge callback deletes the history of its
    room only when the room has no entry at the time it runs: if the room
    was rejoined in the meantime and has an entry when the callback runs,
    the callback changes no registry and no history buffer; a pending
    callback that finds the room absent deletes the history, also when the
    room was rejoined and left again since the callback was scheduled; and
    the history of a room is deleted by nothing else. *)
Theorem C6_purge_rechecks_room s now r :
  let s' := (handle JSON_parse now (Timeout r) s).1 in
  users s' = users s /\ rooms s' = rooms s
  /\ (is_Some (rooms s !! r) -> messageHistory s' = messageHistory s)
  /\ (r ∈ timers s -> rooms s !! r = None ->
      messageHistory s' = delete r (messageHistory s))
  /\ (messageHistory s' <> messageHistory s ->
      r ∈ timers s /\ rooms s !! r = None).
Proof.
  simpl. destruct (bool_decide (r ∈ timers s)) eqn:Hin; simpl.
  - apply bool_decide_eq_true in Hin.
    unfold purge_history. simpl.
    destruct (rooms s !! r) as [m|] eqn:Hroom; simpl.
    + split_and!; try reflexivity; try congruence.
    + split_and!; try reflexivity; try (intros; assumption).
      * intros [x Hx]. discriminate.
      * intros _. split; [exact Hin | reflexivity].
  - apply bool_decide_eq_false in Hin.
    split_and!; try reflexivity; try congruence; try contradiction.
Qed.

End Purge.

(** ** Rejections by the client handlers *)

Section Rejections.

Context (JSON_parse : string -> option control_message).

(** C7. On a connection of a regular client (one that is not flagged as a
    Laravel client) that has no user record, [send_message] changes no
    registry and no history, broadcasts nothing, and is answered by the
    not-authenticated error, alone and to that connection. *)
Theorem C7_send_message_before_join s now c messageData :
  users s !! c = None -> is_laravel s c = false ->
  on_send_message now c messageData s
  = (s, [emit_error c not_authenticated_msg])
  /\ (is_connected s c = true ->
      handle JSON_parse now (SendMessage c messageData) s
      = (s, [emit_error c not_authenticated_msg])).
Proof.
  intros Hnone Hflag.
  assert (E : on_send_message now c messageData s
              = (s, [emit_error c not_authenticated_msg])).
  { unfold on_send_message. rewrite Hflag, Hnone. reflexivity. }
  split; [exact E|].
  intros Hconn. unfold handle. cbn [event_socket]. rewrite Hconn. exact E.
Qed.

(** C10. On a connection of a regular client (one that is not flagged as a
    Laravel client) that has a user record, a [send_message] whose content is
    not a string does not stop the server: [sanitizeInput] throws, the state
    is left as it was, nothing is broadcast, and the [catch] answers with the
    error 'Failed to send message', alone and to that connection. *)
Theorem C10_send_message_without_string_content s now c user messageData :
  users s !! c = Some user -> is_laravel s c = false ->
  (forall x, messageData <> Some (JStr x)) ->
  messageData ≫= sanitizeInput = None
  /\ on_send_message now c messageData s
     = (s, [emit_error c "Failed to send message"])
  /\ (is_connected s c = true ->
      handle JSON_parse now (SendMessage c messageData) s
      = (s, [emit_error c "Failed to send message"])).
Proof.
  intros Huser Hflag Hnot.
  assert (Hthrow : messageData ≫= sanitizeInput = None).
  { destruct messageData as [[| | | |x]|]; try reflexivity.
    exfalso. exact (Hnot x eq_refl). }
  assert (E : on_send_message now c messageData s
              = (s, [emit_error c "Failed to send message"])).
  { unfold on_send_message. rewrite Hflag, Huser, Hthrow. reflexivity. }
  split; [exact Hthrow|]. split; [exact E|].
  intros Hconn. unfold handle. cbn [event_socket]. rewrite Hconn. exact E.
Qed.

(** C8. When a validation of [join], [send_message],
    [send_private_message] or [change_room] fails, the handler returns the
    state it was given (users, rooms, history buffers and all), and it emits
    nothing but an error event to the connection the event came from: exactly
    one, unless that connection is flagged as a Laravel client, whose events
    these handlers skip before any validation. *)
Theorem C8_validation_failure_changes_nothing s now c ev :
  validation_failure s c ev ->
  let res := dispatch JSON_parse now ev s in
  res.1 = s
  /\ Forall (fun e => exists msg, e = emit_error c msg) res.2
  /\ (is_laravel s c = false -> exists msg, res.2 = [emit_error c msg]).
Proof.
  intros Hfail res.
  assert (H : if is_laravel s c then res = (s, [])
              else exists msg, res = (s, [emit_error c msg])).
  { unfold res. destruct (is_laravel s c) eqn:Hflag.
    - destruct Hfail; simpl;
        unfold on_join, on_send_message, on_send_private_message,
          on_change_room; rewrite Hflag; reflexivity.
    - destruct Hfail as [d Hu | d Hr | d u k v Hname Hk Heq | content Hs
                        | target content Hs | t content Hfind | newRoom Hr];
        simpl.
      + unfold on_join. rewrite Hflag, Hu. simpl. eauto.
      + unfold on_join. rewrite Hflag, Hr. simpl.
        destruct (isValidUsername (jd_username d)); simpl; eauto.
      + unfold on_join. rewrite Hflag. cbv zeta. rewrite Hname.
        destruct (isValidUsername (JStr u)); simpl; [|eauto].
        destruct (isValidRoomName (room_or_general (jd_room d))) eqn:Hroom;
          simpl; [|eauto].
        destruct (isValidName_str _ _ Hroom) as [r ->]. simpl.
        destruct (find_user_Some u (users s) k v Hk Heq) as [w ->]. eauto.
      + unfold on_send_message. rewrite Hflag.
        destruct (users s !! c); [|eauto]. simpl. rewrite Hs. simpl. eauto.
      + unfold on_send_private_message. rewrite Hflag.
        destruct (users s !! c); [|eauto]. rewrite Hs. simpl. eauto.
      + unfold on_send_private_message. rewrite Hflag.
        destruct (users s !! c); [|eauto].
        destruct (sanitizeInput content) as [x|]; [|eauto].
        destruct (String.eqb x ""); [eauto|]. simpl. rewrite Hfind. eauto.
      + unfold on_change_room. rewrite Hflag.
        destruct (users s !! c); [|eauto]. rewrite Hr. simpl. eauto. }
  destruct (is_laravel s c).
  - rewrite H. simpl. split_and!; [reflexivity | apply Forall_nil_2 |].
    discriminate.
  - destruct H as [msg ->]. simpl. split_and!; [reflexivity | | eauto].
    apply Forall_cons. split; [eauto | apply Forall_nil_2].
Qed.

End Rejections.

(** ** The bridge's [emit_to_room] *)

Section RoomEmit.

(** C9. Processing an [emit_to_room] control message whose event is
    [receive_message] leaves a tracking entry for the room, emits the event
    with its data to that room, and pushes the data, as one entry, at the end
    of the history buffer of that room (the oldest entry leaving when that
    makes 51), with no other buffer touched. With any other event the
    entry is ensured and the event emitted all the same, and every
    history buffer is as it was. *)
Theorem C9_emit_to_room_appends_to_history s now c r data :
  (let res := dispatch_control now c (CEmitToRoom r "receive_message" data) s in
   let old := getMessageHistory (messageHistory s) r in
   is_Some (rooms res.1 !! r)
   /\ res.2 = [mkEmit (ToRoom r) "receive_message" (PJson data)]
   /\ messageHistory res.1 !! r
      = Some (if (MAX_MESSAGE_HISTORY <? length (old ++ [LaravelData data]))%nat
              then tail (old ++ [LaravelData data])
              else old ++ [LaravelData data])
   /\ last (getMessageHistory (messageHistory res.1) r)
      = Some (LaravelData data)
   /\ (forall r', r' <> r ->
        messageHistory res.1 !! r' = messageHistory s !! r')
   /\ users res.1 = users s)
  /\ (forall event, event <> "receive_message" ->
      let res := dispatch_control now c (CEmitToRoom r event data) s in
      is_Some (rooms res.1 !! r)
      /\ res.2 = [mkEmit (ToRoom r) event (PJson data)]
      /\ messageHistory res.1 = messageHistory s).
Proof.
  split.
  - simpl. unfold handleLaravelRoomEmit. simpl.
    unfold addToMessageHistory.
    split_and!; try reflexivity.
    + apply ensure_room_is_Some.
    + rewrite lookup_insert_eq. reflexivity.
    + unfold getMessageHistory at 1. rewrite lookup_insert_eq. simpl.
      unfold push_bounded.
      set (old := getMessageHistory (messageHistory s) r).
      destruct (MAX_MESSAGE_HISTORY <? length (old ++ [LaravelData data]))%nat
        eqn:Hfull.
      * destruct old as [|m0 old'].
        { simpl in Hfull. discriminate. }
        simpl. apply last_snoc.
      * apply last_snoc.
    + intros r' Hne. apply lookup_insert_ne. congruence.
  - intros event Hne. simpl. unfold handleLaravelRoomEmit.
    apply String.eqb_neq in Hne. rewrite Hne. simpl.
    split_and!; try reflexivity. apply ensure_room_is_Some.
Qed.

End RoomEmit.

(** ** Members and user records *)

Section Membership.

Context (JSON_parse : string -> option control_message).

Lemma membership_consistent_same s s' :
  users s' = users s -> rooms s' = rooms s ->
  membership_consistent s -> membership_consistent s'.
Proof. intros Eu Er H r m c. rewrite Eu, Er. apply H. Qed.

Lemma membership_consistent_ensure_room r s :
  membership_consistent s ->
  membership_consistent (with_rooms (ensure_room r) s).
Proof.
  intros H r' m c. simpl. unfold ensure_room.
  destruct (rooms s !! r) eqn:E; [apply H|].
  destruct (decide (r = r')) as [<-|Hne].
  - rewrite lookup_insert_eq. intros [= <-] Hin.
    exfalso. exact (not_elem_of_empty c Hin).
  - rewrite lookup_insert_ne by exact Hne. apply H.
Qed.

Lemma membership_consistent_control now c m s :
  membership_consistent s ->
  membership_consistent (dispatch_control now c m s).1.
Proof.
  intros H. destruct m; simpl; try exact H.
  - unfold handleLaravelRoomEmit. case_match; simpl;
      apply (membership_consistent_ensure_room r s H).
  - unfold handleLaravelRoomCreation. repeat case_match; simpl;
      try exact H; apply (membership_consistent_ensure_room _ s H).
  - unfold handleLaravelPresenceUpdate. repeat case_match; exact H.
Qed.

(** A connection without a user record is in no room. *)
Lemma membership_consistent_join now c u r uid s :
  membership_consistent s -> users s !! c = None ->
  membership_consistent
    (with_rooms (add_member r c) (with_users <[c := mkUser u r c uid now]> s)).
Proof.
  intros H Hnone r' m c'. simpl.
  destruct (decide (r = r')) as [<-|Hne].
  - rewrite add_member_lookup_eq. intros [= <-] Hin.
    destruct (decide (c = c')) as [<-|Hc].
    + rewrite lookup_insert_eq. eauto.
    + rewrite lookup_insert_ne by exact Hc.
      apply elem_of_union in Hin as [Hin|Hin].
      * destruct (rooms s !! r) as [m0|] eqn:E; simpl in Hin.
        -- exact (H r m0 c' E Hin).
        -- exfalso. exact (not_elem_of_empty c' Hin).
      * apply elem_of_singleton in Hin. congruence.
  - rewrite add_member_lookup_ne by exact Hne. intros Hm Hin.
    destruct (H r' m c' Hm Hin) as (u' & Hu' & Hr').
    exists u'. split; [|exact Hr'].
    rewrite lookup_insert_ne; [exact Hu'|]. intros <-. congruence.
Qed.

(** The old room loses the connection, the new one gains it, and the
    record follows. *)
Lemma membership_consistent_move c user new s :
  membership_consistent s -> users s !! c = Some user ->
  membership_consistent
    (with_rooms (add_member new c)
       (with_users <[c := set_room new user]> (leave_room (room user) c s))).
Proof.
  intros H Huser r' m c'. simpl. rewrite leave_room_users.
  assert (Hleft : forall r0 m0, rooms (leave_room (room user) c s) !! r0
                    = Some m0 -> forall x, x ∈ m0 ->
                    x <> c /\ exists m1, rooms s !! r0 = Some m1 /\ x ∈ m1).
  { intros r0 m0 Hm0 x Hx.
    destruct (decide (room user = r0)) as [<-|Hne].
    - rewrite leave_room_lookup_eq in Hm0.
      destruct (rooms s !! room user) as [m1|] eqn:E; [|discriminate].
      destruct (size (m1 ∖ {[c]}) =? 0)%nat; [discriminate|].
      injection Hm0 as <-. apply elem_of_difference in Hx as [Hx Hnc].
      split; [|eauto]. intros ->. apply Hnc, elem_of_singleton. reflexivity.
    - rewrite leave_room_lookup_ne in Hm0 by exact Hne.
      split; [|eauto]. intros ->.
      destruct (H r0 m0 c Hm0 Hx) as (u' & Hu' & Hr').
      rewrite Huser in Hu'. injection Hu' as <-. congruence. }
  destruct (decide (new = r')) as [<-|Hne].
  - rewrite add_member_lookup_eq. intros [= <-] Hin.
    destruct (decide (c = c')) as [<-|Hc].
    + rewrite lookup_insert_eq. eauto.
    + rewrite lookup_insert_ne by exact Hc.
      apply elem_of_union in Hin as [Hin|Hin].
      * destruct (rooms (leave_room (room user) c s) !! new) as [m0|] eqn:E;
          simpl in Hin.
        -- destruct (Hleft new m0 E c' Hin) as (_ & m1 & Hm1 & Hin1).
           exact (H new m1 c' Hm1 Hin1).
        -- exfalso. exact (not_elem_of_empty c' Hin).
      * apply elem_of_singleton in Hin. congruence.
  - rewrite add_member_lookup_ne by exact Hne. intros Hm Hin.
    destruct (Hleft r' m Hm c' Hin) as (Hc & m1 & Hm1 & Hin1).
    rewrite lookup_insert_ne by congruence.
    exact (H r' m1 c' Hm1 Hin1).
Qed.

Lemma membership_consistent_leave c user s :
  membership_consistent s -> users s !! c = Some user ->
  membership_consistent
    (with_users (delete c) (leave_room (room user) c s)).
Proof.
  intros H Huser r' m c'. simpl. rewrite leave_room_users. intros Hm Hin.
  assert (Hc : c' <> c /\ exists m1, rooms s !! r' = Some m1 /\ c' ∈ m1).
  { destruct (decide (room user = r')) as [<-|Hne].
    - rewrite leave_room_lookup_eq in Hm.
      destruct (rooms s !! room user) as [m1|] eqn:E; [|discriminate].
      destruct (size (m1 ∖ {[c]}) =? 0)%nat; [discriminate|].
      injection Hm as <-. apply elem_of_difference in Hin as [Hx Hnc].
      split; [|eauto]. intros ->. apply Hnc, elem_of_singleton. reflexivity.
    - rewrite leave_room_lookup_ne in Hm by exact Hne.
      split; [|eauto]. intros ->.
      destruct (H r' m c Hm Hin) as (u' & Hu' & Hr').
      rewrite Huser in Hu'. injection Hu' as <-. congruence. }
  destruct Hc as (Hc & m1 & Hm1 & Hin1).
  rewrite lookup_delete_ne by congruence. exact (H r' m1 c' Hm1 Hin1).
Qed.

Lemma membership_consistent_dispatch now ev s :
  membership_consistent s -> first_join s ev ->
  membership_consistent (dispatch JSON_parse now ev s).1.
Proof.
  intros H Hfirst. destruct ev; simpl; try exact H.
  - unfold on_data. repeat case_match; simpl; try exact H;
      apply process_all_preserves;
      try (intros; apply membership_consistent_control; assumption);
      exact H.
  - simpl in Hfirst. unfold on_join.
    repeat case_match; simpl; try exact H.
    apply (membership_consistent_join _ _ _ _ _ s H Hfirst).
  - unfold on_send_message. repeat case_match; exact H.
  - unfold on_send_private_message. repeat case_match; exact H.
  - unfold on_typing. repeat case_match; exact H.
  - unfold on_typing. repeat case_match; exact H.
  - unfold on_change_room. repeat case_match; simpl; try exact H.
    apply (membership_consistent_move c _ _ s H). assumption.
  - unfold on_get_rooms. repeat case_match; exact H.
  - unfold on_get_room_users. repeat case_match; exact H.
  - unfold on_laravel_emit. repeat case_match; exact H.
  - unfold on_laravel_emit_to_room. repeat case_match; simpl; try exact H;
      apply (membership_consistent_ensure_room _ s H).
  - unfold on_laravel_room_created. repeat case_match; simpl; try exact H.
    apply (membership_consistent_control now c (CRoomCreated _ _)), H.
  - unfold on_laravel_presence_update, handleLaravelPresenceUpdate.
    repeat case_match; exact H.
  - unfold on_disconnect.
    destruct (is_laravel s c); [exact H|].
    destruct (users s !! c) as [user|] eqn:Huser; simpl; [|exact H].
    apply (membership_consistent_leave c user s H Huser).
Qed.

(** The second [join] of a connection is the only step that breaks the
    consistency of [rooms] and [users]. *)
Lemma membership_consistent_until_rejoin s :
  reachable_by JSON_parse first_join s -> membership_consistent s.
Proof.
  revert s. apply reachable_by_ind_inv.
  - intros r m c. simpl. rewrite lookup_empty. discriminate.
  - intros s now ev.
    apply (handle_preserves JSON_parse first_join membership_consistent).
    + intros. assumption.
    + intros r s' H. eapply membership_consistent_same; [| |exact H].
      * rewrite purge_history_users. reflexivity.
      * rewrite purge_history_rooms. reflexivity.
    + apply membership_consistent_dispatch.
Qed.

End Membership.

(** ** A connection that joins twice *)

Section DoubleJoin.

Context (JSON_parse : string -> option control_message).

(** C2, at the input where the code departs from it. A connection joins
    room [r1] as [a] and then joins room [r2] as [b]: the second [join]
    replaces its user record and adds it to [r2] without taking it out of
    [r1], so [r1] keeps a member whose user record names [r2]. *)
Theorem C2_second_join_keeps_old_membership :
  let s := run JSON_parse
             [ (1%Z, Connection "c");
               (2%Z, Join "c" (Some (mkJoin (JStr "a") (JStr "r1") JUndefined)));
               (3%Z, Join "c" (Some (mkJoin (JStr "b") (JStr "r2") JUndefined))) ]
             initial in
  reachable JSON_parse s
  /\ rooms s !! "r1" = Some {["c"]}
  /\ rooms s !! "r2" = Some {["c"]}
  /\ users s !! "c" = Some (mkUser "b" "r2" "c" JNull 3)
  /\ ~ membership_consistent s.
Proof.
  intros s. split; [apply run_reachable|].
  assert (H1 : rooms s !! "r1" = Some {["c"]}) by (vm_compute; reflexivity).
  assert (H2 : rooms s !! "r2" = Some {["c"]}) by (vm_compute; reflexivity).
  assert (Hu : users s !! "c" = Some (mkUser "b" "r2" "c" JNull 3))
    by (vm_compute; reflexivity).
  split; [exact H1|]. split; [exact H2|]. split; [exact Hu|].
  intros Hcons.
  destruct (Hcons "r1" {["c"]} "c" H1) as (u & Hlook & Hroom).
  - apply elem_of_singleton. reflexivity.
  - rewrite Hu in Hlook. injection Hlook as <-. discriminate.
Qed.

End DoubleJoin.

(** ** The theorems at sample runs *)

Lemma alice_in_lobby_allowed :
  trace_allowed sample_parse (no_tracking_operation sample_parse)
    alice_in_lobby initial.
Proof. simpl. split_and!; try exact I; apply Forall_nil_2. Qed.



(** C3 at a sample run: the sentinel on an open connection. *)
Lemma C3_witness :
  let s := run sample_parse regular_first_frame initial in
  is_connected s "c" = true
  /\ trim "LARAVEL_CLIENT" = LARAVEL_CLIENT
  /\ is_laravel (handle sample_parse 3 (Data "c" "LARAVEL_CLIENT") s).1 "c"
     = true.
Proof.
  intros s.
  assert (Hc : is_connected s "c" = true) by (vm_compute; reflexivity).
  assert (Ht : trim "LARAVEL_CLIENT" = LARAVEL_CLIENT)
    by (vm_compute; reflexivity).
  split; [exact Hc|]. split; [exact Ht|].
  exact (proj1 (proj1 (C3_sentinel_classifies_on_any_frame
                         sample_parse s 3 "c" "LARAVEL_CLIENT" Hc) Ht)).
Defined.

(** C3 fails as stated: a connection whose first frame was [hello], not the
    sentinel, is flagged as the Laravel client by a later sentinel frame and
    gets the acknowledgment. *)
Lemma C3_counterexample :
  let s := run sample_parse regular_first_frame initial in
  trim "hello" <> LARAVEL_CLIENT
  /\ is_laravel s "c" = false
  /\ is_laravel (handle sample_parse 3 (Data "c" "LARAVEL_CLIENT") s).1 "c"
     = true
  /\ (handle sample_parse 3 (Data "c" "LARAVEL_CLIENT") s).2
     = [mkEmit (ToSocket "c") "laravel_connected" (PLaravelConnected 3)].
Proof.
  intros s. split; [vm_compute; discriminate|].
  split_and!; vm_compute; reflexivity.
Qed.

(** C4 at a sample run: 51 notices appended to the lobby's history after
    Alice joined. *)
Lemma C4_witness :
  let s := run sample_parse alice_in_lobby initial in
  reachable sample_parse s
  /\ length sample_notices = 51
  /\ getMessageHistory (append_all "lobby" sample_notices (messageHistory s))
       "lobby" = tail sample_notices.
Proof.
  intros s.
  assert (Hr : reachable sample_parse s) by apply run_reachable.
  split; [exact Hr|]. split; [reflexivity|].
  exact (proj1 (proj2 (proj2 (C4_history_capacity_fifo sample_parse s Hr)
                         "lobby" sample_notices eq_refl))).
Defined.

(** C5 at a sample run: a newcomer asks for the name [ALICE] while [alice]
    is connected. *)
Lemma C5_witness :
  let s := run sample_parse alice_and_newcomer initial in
  let alice := mkUser "alice" "lobby" "a" JNull 2 in
  let d := mkJoin (JStr "ALICE") (JStr "lobby") JUndefined in
  users s !! "a" = Some alice
  /\ toLowerCase "ALICE" = toLowerCase (username alice)
  /\ is_laravel s "b" = false
  /\ isValidUsername (JStr "ALICE") = true
  /\ isValidRoomName (room_or_general (jd_room d)) = true
  /\ on_join 4 "b" (Some d) s = (s, [emit_error "b" username_taken_msg]).
Proof.
  intros s alice d.
  assert (Hk : users s !! "a" = Some alice) by (vm_compute; reflexivity).
  assert (Hl : toLowerCase "ALICE" = toLowerCase (username alice))
    by (vm_compute; reflexivity).
  assert (Hf : is_laravel s "b" = false) by (vm_compute; reflexivity).
  assert (Hu : isValidUsername (JStr "ALICE") = true)
    by (vm_compute; reflexivity).
  assert (Hr : isValidRoomName (room_or_general (jd_room d)) = true)
    by (vm_compute; reflexivity).
  split; [exact Hk|]. split; [exact Hl|]. split; [exact Hf|].
  split; [exact Hu|]. split; [exact Hr|].
  exact (proj2 (proj2 (C5_usernames_unique_and_duplicates_rejected
                         sample_parse)
                  s 4%Z "b" d "ALICE" "a" alice eq_refl Hk Hl) Hf Hu Hr).
Defined.

(** C6 at a sample run: Bob rejoined the lobby before the purge scheduled
    when Alice left comes due; the callback then keeps the four entries. *)
Lemma C6_witness :
  let s := run sample_parse rejoin_in_time initial in
  let s' := (handle sample_parse 7 (Timeout "lobby") s).1 in
  timers s = ["lobby"]
  /\ is_Some (rooms s !! "lobby")
  /\ messageHistory s' = messageHistory s
  /\ getMessageHistory (messageHistory s) "lobby"
     = [ SystemMessage 2 "alice joined the room" "lobby";
         ChatMessage 3 "alice" "hi" "lobby" "a" JNull;
         SystemMessage 4 "alice left the room" "lobby";
         SystemMessage 6 "bob joined the room" "lobby" ].
Proof.
  intros s s'.
  assert (Hroom : is_Some (rooms s !! "lobby"))
    by (exists {["b"]}; vm_compute; reflexivity).
  split; [vm_compute; reflexivity|]. split; [exact Hroom|].
  split; [|vm_compute; reflexivity].
  exact (proj1 (proj2 (proj2 (C6_purge_rechecks_room
                                sample_parse s 7 "lobby"))) Hroom).
Defined.

(** C6 fails as stated: Alice left the lobby at 4, which scheduled the purge
    for 300004; Bob recreated the lobby at 6, inside the window, and left at
    7. The callback of 300004 finds no entry and deletes the five entries of
    the history: the purge is no no-op although the room was recreated within
    the window. *)
Lemma C6_counterexample :
  let before := run sample_parse rejoin_in_time initial in
  let s := run sample_parse rejoin_then_leave initial in
  let s' := (handle sample_parse 300004 (Timeout "lobby") s).1 in
  timers before = ["lobby"]
  /\ rooms before !! "lobby" = Some {["b"]}
  /\ getMessageHistory (messageHistory s) "lobby"
     = [ SystemMessage 2 "alice joined the room" "lobby";
         ChatMessage 3 "alice" "hi" "lobby" "a" JNull;
         SystemMessage 4 "alice left the room" "lobby";
         SystemMessage 6 "bob joined the room" "lobby";
         SystemMessage 7 "bob left the room" "lobby" ]
  /\ messageHistory s' !! "lobby" = None
  /\ messageHistory s' <> messageHistory s.
Proof.
  intros before s s'.
  split_and!; try (vm_compute; reflexivity).
  intros H.
  assert (Hs : messageHistory s !! "lobby" <> None)
    by (vm_compute; discriminate).
  apply Hs. rewrite <- H. vm_compute. reflexivity.
Qed.

(** C7 at a sample run: a fresh connection sends a message. *)
Lemma C7_witness :
  let s := run sample_parse [(1%Z, Connection "c")] initial in
  users s !! "c" = None
  /\ is_laravel s "c" = false
  /\ is_connected s "c" = true
  /\ handle sample_parse 2 (SendMessage "c" (Some (JStr "hi"))) s
     = (s, [emit_error "c" not_authenticated_msg]).
Proof.
  intros s.
  assert (Hn : users s !! "c" = None) by (vm_compute; reflexivity).
  assert (Hf : is_laravel s "c" = false) by (vm_compute; reflexivity).
  assert (Hc : is_connected s "c" = true) by (vm_compute; reflexivity).
  split; [exact Hn|]. split; [exact Hf|]. split; [exact Hc|].
  exact (proj2 (C7_send_message_before_join
                  sample_parse s 2 "c" (Some (JStr "hi")) Hn Hf) Hc).
Defined.

(** C8 at a sample run: a [join] with a space in the username. *)
Lemma C8_witness :
  let s := run sample_parse [(1%Z, Connection "c")] initial in
  let request := Join "c" (join_data "ab cd" "lobby") in
  validation_failure s "c" request
  /\ (dispatch sample_parse 2 request s).1 = s
  /\ Forall (fun e => exists msg, e = emit_error "c" msg)
       (dispatch sample_parse 2 request s).2.
Proof.
  intros s request.
  assert (Hf : validation_failure s "c" request)
    by (apply invalid_username; reflexivity).
  split; [exact Hf|].
  destruct (C8_validation_failure_changes_nothing
              sample_parse s 2 "c" request Hf) as (H1 & H2 & _).
  split; [exact H1 | exact H2].
Defined.

(** C9 at a sample input: an [emit_to_room] of another event. *)
Lemma C9_witness :
  "user_typing" <> "receive_message"
  /\ messageHistory
       (dispatch_control 1 "L" (CEmitToRoom "r1" "user_typing" JsonNull)
          initial).1
     = messageHistory initial.
Proof.
  assert (Hne : "user_typing" <> "receive_message") by discriminate.
  split; [exact Hne|].
  exact (proj2 (proj2 (proj2 (C9_emit_to_room_appends_to_history
                                initial 1 "L" "r1" JsonNull)
                         "user_typing" Hne))).
Defined.

(** C10 at a sample run: Alice sends a message without content. *)
Lemma C10_witness :
  let s := run sample_parse alice_in_lobby initial in
  users s !! "a" = Some (mkUser "alice" "lobby" "a" JNull 2)
  /\ is_laravel s "a" = false
  /\ (forall x, Some JUndefined <> Some (JStr x))
  /\ is_connected s "a" = true
  /\ handle sample_parse 3 (SendMessage "a" (Some JUndefined)) s
     = (s, [emit_error "a" "Failed to send message"]).
Proof.
  intros s.
  assert (Hu : users s !! "a" = Some (mkUser "alice" "lobby" "a" JNull 2))
    by (vm_compute; reflexivity).
  assert (Hf : is_laravel s "a" = false) by (vm_compute; reflexivity).
  assert (Hn : forall x, Some JUndefined <> Some (JStr x))
    by (intros x; discriminate).
  assert (Hc : is_connected s "a" = true) by (vm_compute; reflexivity).
  split; [exact Hu|]. split; [exact Hf|]. split; [exact Hn|].
  split; [exact Hc|].
  exact (proj2 (proj2 (C10_send_message_without_string_content
                         sample_parse s 3 "a" _ (Some JUndefined) Hu Hf Hn))
           Hc).
Defined.

(** ** Text: trimming, truncation, lines *)

Section Text.

#[local] Arguments String.append !_ _ / : simpl nomatch.

Lemma append_cons_assoc z a y : z +:+ String a y = (z +:+ String a "") +:+ y.
Proof. induction z as [|b z IHz]; simpl; congruence. Qed.

Lemma rev_app_append x : forall y, String.rev_app x y = String.rev x +:+ y.
Proof.
  unfold String.rev. induction x as [|a x IH]; intros y; [reflexivity|].
  simpl. rewrite (IH (String a y)), (IH (String a "")).
  apply append_cons_assoc.
Qed.

Lemma chars_append x y :
  list_ascii_of_string (x +:+ y)
  = list_ascii_of_string x ++ list_ascii_of_string y.
Proof. induction x as [|a x IH]; simpl; congruence. Qed.

Lemma chars_rev x :
  list_ascii_of_string (String.rev x) = List.rev (list_ascii_of_string x).
Proof.
  induction x as [|a x IH]; [reflexivity|].
  unfold String.rev. simpl. rewrite rev_app_append, chars_append, IH.
  reflexivity.
Qed.

Lemma rev_involutive x : String.rev (String.rev x) = x.
Proof.
  rewrite <- (string_of_list_ascii_of_string (String.rev (String.rev x))).
  rewrite !chars_rev, List.rev_involutive.
  apply string_of_list_ascii_of_string.
Qed.

Lemma append_length x y :
  String.length (x +:+ y) = String.length x + String.length y.
Proof. induction x as [|a x IH]; simpl; congruence. Qed.

Lemma append_nil_r x : x +:+ "" = x.
Proof. induction x as [|a x IH]; simpl; congruence. Qed.

Lemma append_assoc x y z : (x +:+ y) +:+ z = x +:+ (y +:+ z).
Proof. induction x as [|a x IH]; simpl; congruence. Qed.

Lemma substring0_length n : forall x,
  String.length (substring0 n x) = Nat.min n (String.length x).
Proof.
  induction n as [|n IH]; intros [|a x]; simpl; try reflexivity.
  rewrite IH. reflexivity.
Qed.

Lemma substring0_empty n x : substring0 n x = "" <-> n = 0 \/ x = "".
Proof.
  destruct n as [|n], x as [|a x]; simpl; split; auto; try discriminate.
  intros [H|H]; discriminate.
Qed.

Lemma trimStart_empty x : trimStart x = "" <-> all_white x = true.
Proof.
  unfold all_white. induction x as [|a x IH]; simpl; [tauto|].
  destruct (isWhiteSpace a); simpl; [exact IH|].
  split; discriminate.
Qed.

(** What [trimStart] returns starts with a code unit that is not white
    space. *)
Lemma trimStart_head x a y :
  trimStart x = String a y -> isWhiteSpace a = false.
Proof.
  induction x as [|b x IH]; simpl; [discriminate|].
  destruct (isWhiteSpace b) eqn:E; [exact IH|]. intros [= <- _]. exact E.
Qed.

Lemma trimStart_length x : String.length (trimStart x) <= String.length x.
Proof.
  induction x as [|a x IH]; simpl; [lia|].
  destruct (isWhiteSpace a); simpl; lia.
Qed.

Lemma all_white_rev x : all_white (String.rev x) = all_white x.
Proof.
  unfold all_white. rewrite chars_rev.
  induction (list_ascii_of_string x) as [|a l IH]; [reflexivity|].
  simpl. rewrite forallb_app, IH. simpl.
  destruct (isWhiteSpace a), (forallb isWhiteSpace l); reflexivity.
Qed.

Lemma rev_empty x : String.rev x = "" <-> x = "".
Proof.
  split; [|intros ->; reflexivity].
  intros H. rewrite <- (rev_involutive x), H. reflexivity.
Qed.

Lemma rev_length x : String.length (String.rev x) = String.length x.
Proof.
  induction x as [|a x IH]; [reflexivity|].
  unfold String.rev. simpl. rewrite rev_app_append, append_length, IH.
  simpl. lia.
Qed.

Lemma trimEnd_empty x : trimEnd x = "" <-> all_white x = true.
Proof.
  unfold trimEnd. rewrite rev_empty, trimStart_empty. rewrite all_white_rev.
  tauto.
Qed.

Lemma trimEnd_length x : String.length (trimEnd x) <= String.length x.
Proof.
  unfold trimEnd. rewrite rev_length.
  pose proof (trimStart_length (String.rev x)) as H.
  rewrite rev_length in H. exact H.
Qed.

(** What [trimEnd] returns starts as its argument does. *)
Lemma trimEnd_head a x :
  isWhiteSpace a = false -> exists y, trimEnd (String a x) = String a y.
Proof.
  intros Ha. unfold trimEnd.
  assert (H : forall l acc, exists l',
            list_ascii_of_string (trimStart (string_of_list_ascii (l ++ [a] ++ acc)))
            = l' ++ [a] ++ acc).
  { induction l as [|b l IH]; intros acc; simpl.
    - rewrite Ha. simpl. rewrite list_ascii_of_string_of_list_ascii.
      exists []. reflexivity.
    - destruct (isWhiteSpace b).
      + apply IH.
      + simpl. rewrite list_ascii_of_string_of_list_ascii.
        exists (b :: l). reflexivity. }
  destruct (H (List.rev (list_ascii_of_string x)) []) as [l' Hl'].
  assert (E : String.rev (String a x)
              = string_of_list_ascii
                  (List.rev (list_ascii_of_string x) ++ [a] ++ [])).
  { rewrite <- (string_of_list_ascii_of_string (String.rev (String a x))).
    rewrite chars_rev. reflexivity. }
  rewrite E.
  set (t := trimStart _) in *.
  exists (string_of_list_ascii (List.rev l')).
  rewrite <- (string_of_list_ascii_of_string (String.rev t)).
  rewrite chars_rev, Hl'. rewrite List.rev_app_distr. reflexivity.
Qed.

Lemma trim_empty x : trim x = "" <-> all_white x = true.
Proof.
  unfold trim. rewrite trimEnd_empty. split.
  - intros H. apply trimStart_empty.
    destruct (trimStart x) as [|a y] eqn:E; [reflexivity|].
    pose proof (trimStart_head _ _ _ E) as Ha.
    unfold all_white in H. simpl in H. rewrite Ha in H. discriminate.
  - intros H. apply trimStart_empty in H. rewrite H. reflexivity.
Qed.

Lemma trim_length x : String.length (trim x) <= String.length x.
Proof.
  unfold trim. pose proof (trimEnd_length (trimStart x)).
  pose proof (trimStart_length x). lia.
Qed.

Lemma trim_head x a y : trim x = String a y -> isWhiteSpace a = false.
Proof.
  unfold trim. destruct (trimStart x) as [|b z] eqn:E.
  - discriminate.
  - pose proof (trimStart_head _ _ _ E) as Hb.
    destruct (trimEnd_head b z Hb) as [w ->]. intros [= <- _]. exact Hb.
Qed.

(** X1. The text [sanitizeInput] returns has at most 500 code units and
    does not start with white space; it is empty exactly when the input is
    empty or made of white space only. An input that is not a string makes
    it throw. *)
Theorem X1_sanitizeInput_bounds input :
  match input with
  | JStr x =>
      exists y, sanitizeInput input = Some y
        /\ String.length y <= MAX_MESSAGE_LENGTH
        /\ String.length y <= String.length x
        /\ (y = "" <-> all_white x = true)
        /\ (forall a z, y = String a z -> isWhiteSpace a = false)
  | _ => sanitizeInput input = None
  end.
Proof.
  destruct input as [| | | |x]; try reflexivity.
  exists (substring0 MAX_MESSAGE_LENGTH (trim x)).
  split; [reflexivity|]. split_and!.
  - rewrite substring0_length. lia.
  - rewrite substring0_length. pose proof (trim_length x). lia.
  - rewrite substring0_empty, <- trim_empty. split; [|tauto].
    intros [H|H]; [discriminate | exact H].
  - intros a z Hy. destruct (trim x) as [|b w] eqn:E; [discriminate|].
    simpl in Hy. injection Hy as <- _. exact (trim_head _ _ _ E).
Qed.

End Text.

(** ** Lines of the bridge channel *)

Section Lines.

#[local] Arguments String.append !_ _ / : simpl nomatch.

Context (JSON_parse : string -> option control_message).

Lemma split_go_nonempty x : forall cur, split_go cur x <> [].
Proof.
  induction x as [|a x IH]; intros cur; simpl; [discriminate|].
  destruct (code a =? 10)%N; [discriminate | apply IH].
Qed.

Lemma code_newline a : (code a =? 10)%N = true -> String a "" = newline.
Proof.
  intros H. apply N.eqb_eq in H. unfold code in H.
  rewrite <- (ascii_N_embedding a), H. reflexivity.
Qed.

Lemma rev_cons a cur : String.rev (String a cur) = String.rev cur +:+ String a "".
Proof. unfold String.rev at 1. simpl. apply rev_app_append. Qed.

(** Joining the pieces of [split] with line feeds gives the text back. *)
Lemma split_go_concat x : forall cur,
  String.concat newline (split_go cur x) = String.rev cur +:+ x.
Proof.
  induction x as [|a x IH]; intros cur.
  - simpl. symmetry. apply append_nil_r.
  - simpl split_go. destruct (code a =? 10)%N eqn:E.
    + pose proof (split_go_nonempty x "") as Hne.
      pose proof (IH "") as IH0.
      destruct (split_go "" x) as [|p ps] eqn:Es; [contradiction|].
      change (String.concat newline (String.rev cur :: p :: ps))
        with (String.rev cur +:+ newline +:+ String.concat newline (p :: ps)).
      rewrite IH0. rewrite <- (code_newline a E). reflexivity.
    + rewrite IH, rev_cons, append_assoc. reflexivity.
Qed.

Lemma no_newline_append x y :
  no_newline (x +:+ y) = no_newline x && no_newline y.
Proof. unfold no_newline. rewrite chars_append. apply forallb_app. Qed.

Lemma no_newline_rev x : no_newline (String.rev x) = no_newline x.
Proof.
  unfold no_newline. rewrite chars_rev.
  induction (list_ascii_of_string x) as [|a l IH]; [reflexivity|].
  simpl. rewrite forallb_app, IH. simpl.
  destruct (negb (code a =? 10)%N), (forallb _ l); reflexivity.
Qed.

(** No piece of [split] holds a line feed. *)
Lemma split_go_pieces x : forall cur p,
  no_newline cur = true -> In p (split_go cur x) -> no_newline p = true.
Proof.
  induction x as [|a x IH]; intros cur p Hcur; simpl.
  - intros [<-|[]]. rewrite no_newline_rev. exact Hcur.
  - destruct (code a =? 10)%N eqn:E.
    + intros [<-|Hin].
      * rewrite no_newline_rev. exact Hcur.
      * exact (IH "" p eq_refl Hin).
    + apply IH. unfold no_newline in *. simpl. rewrite E. exact Hcur.
Qed.

(** A text without line feed is one piece. *)
Lemma split_go_single x : forall cur,
  no_newline x = true -> split_go cur x = [String.rev cur +:+ x].
Proof.
  induction x as [|a x IH]; intros cur Hx.
  - simpl. rewrite append_nil_r. reflexivity.
  - unfold no_newline in Hx. simpl in Hx.
    apply andb_prop in Hx as [Ha Hx]. apply negb_true_iff in Ha.
    simpl. rewrite Ha, (IH (String a cur) Hx), rev_cons, append_assoc.
    reflexivity.
Qed.

Lemma pending_line_no_newline buf : no_newline (pending_line buf) = true.
Proof.
  unfold pending_line, split_newline.
  pose proof (split_go_nonempty buf "") as Hne.
  destruct (exists_last Hne) as (l & p & E). rewrite E, last_last.
  apply (split_go_pieces buf "" p eq_refl). rewrite E.
  apply in_or_app. right. left. reflexivity.
Qed.

Lemma single_line_buffer buf :
  no_newline buf = true -> complete_lines buf = [] /\ pending_line buf = buf.
Proof.
  intros Hbuf. unfold complete_lines, pending_line, split_newline.
  rewrite (split_go_single buf "" Hbuf). simpl. split; reflexivity.
Qed.

(** X2. Splitting the buffer loses nothing: the complete lines and the
    pending line, joined by line feeds, are the buffer; no line holds a line
    feed; and a buffer without line feed has no complete line and is itself
    the pending line. *)
Theorem X2_buffer_split_lossless buf :
  String.concat newline (complete_lines buf ++ [pending_line buf]) = buf
  /\ Forall (fun line => no_newline line = true)
       (complete_lines buf ++ [pending_line buf])
  /\ (no_newline buf = true ->
      complete_lines buf = [] /\ pending_line buf = buf).
Proof.
  unfold complete_lines, pending_line, split_newline.
  pose proof (split_go_nonempty buf "") as Hne.
  rewrite <- (app_removelast_last "" Hne).
  split_and!.
  - apply (split_go_concat buf "").
  - apply Forall_forall. intros p Hp. apply list_elem_of_In in Hp.
    exact (split_go_pieces buf "" p eq_refl Hp).
  - intros Hbuf. rewrite (split_go_single buf "" Hbuf). simpl.
    split; reflexivity.
Qed.

End Lines.

(** ** The closure state of the connections *)

Section Sockets.

Context (JSON_parse : string -> option control_message).

Lemma dispatch_control_laravelSockets now c m s :
  laravelSockets (dispatch_control now c m s).1 = laravelSockets s.
Proof.
  destruct m; simpl; try reflexivity.
  - unfold handleLaravelRoomEmit. case_match; reflexivity.
  - unfold handleLaravelRoomCreation. repeat case_match; reflexivity.
  - unfold handleLaravelPresenceUpdate. repeat case_match; reflexivity.
Qed.

Lemma process_all_laravelSockets now c ms : forall s,
  laravelSockets (process_all now c ms s).1 = laravelSockets s.
Proof.
  induction ms as [|m ms IH]; intros s; [reflexivity|]. simpl.
  pose proof (dispatch_control_laravelSockets now c m s) as H1.
  destruct (dispatch_control now c m s) as [s1 o1]. simpl in H1.
  pose proof (IH s1) as H2.
  destruct (process_all now c ms s1) as [s2 o2]. simpl in *. congruence.
Qed.

(** The text a frame leaves in the buffer of a flagged connection. *)
Lemma on_data_sockets now c data s :
  sockets (on_data JSON_parse now c data s).1
  = if String.eqb (trim data) LARAVEL_CLIENT
    then alter set_laravel c (sockets s)
    else if is_laravel s c
         then alter (set_buffer
                       (pending_line
                          (match sockets s !! c with
                           | Some sk => dataBuffer sk +:+ trim data
                           | None => trim data
                           end))) c (sockets s)
         else sockets s.
Proof.
  unfold on_data. repeat case_match; simpl; try reflexivity;
    rewrite process_all_sockets; reflexivity.
Qed.

Lemma on_data_laravelSockets now c data s :
  laravelSockets (on_data JSON_parse now c data s).1
  = if String.eqb (trim data) LARAVEL_CLIENT
    then laravelSockets s ∪ {[c]} else laravelSockets s.
Proof.
  unfold on_data. repeat case_match; simpl; try reflexivity;
    rewrite process_all_laravelSockets; reflexivity.
Qed.

Lemma leave_room_laravelSockets r c s :
  laravelSockets (leave_room r c s) = laravelSockets s.
Proof. unfold leave_room. repeat case_match; reflexivity. Qed.

(** The other events leave the closure state and the set of Laravel
    sockets alone. *)
Lemma dispatch_sockets_same now ev s :
  match ev with
  | Data _ _ | Disconnect _ => True
  | _ => sockets (dispatch JSON_parse now ev s).1 = sockets s
         /\ laravelSockets (dispatch JSON_parse now ev s).1 = laravelSockets s
  end.
Proof.
  destruct ev; simpl; try exact I; try (split; reflexivity).
  - unfold on_join. repeat case_match; split; reflexivity.
  - unfold on_send_message. repeat case_match; split; reflexivity.
  - unfold on_send_private_message. repeat case_match; split; reflexivity.
  - unfold on_typing. repeat case_match; split; reflexivity.
  - unfold on_typing. repeat case_match; split; reflexivity.
  - unfold on_change_room. repeat case_match; simpl;
      rewrite ?leave_room_sockets, ?leave_room_laravelSockets;
      split; reflexivity.
  - unfold on_get_rooms. repeat case_match; split; reflexivity.
  - unfold on_get_room_users. repeat case_match; split; reflexivity.
  - unfold on_laravel_emit. repeat case_match; split; reflexivity.
  - unfold on_laravel_emit_to_room. repeat case_match; split; reflexivity.
  - unfold on_laravel_room_created, handleLaravelRoomCreation.
    repeat case_match; split; reflexivity.
  - unfold on_laravel_presence_update, handleLaravelPresenceUpdate.
    repeat case_match; split; reflexivity.
Qed.

Lemma dispatch_disconnect_sockets now c s :
  sockets (dispatch JSON_parse now (Disconnect c) s).1
  = alter set_disconnected c (sockets s)
  /\ laravelSockets (dispatch JSON_parse now (Disconnect c) s).1
     = if is_laravel s c then laravelSockets s ∖ {[c]} else laravelSockets s.
Proof.
  simpl. unfold on_disconnect.
  destruct (is_laravel s c); simpl; [split; reflexivity|].
  destruct (users s !! c); simpl;
    rewrite ?leave_room_sockets, ?leave_room_laravelSockets;
    split; reflexivity.
Qed.

Lemma dispatch_sockets_change now ev s :
  sockets_change (sockets s) (sockets (dispatch JSON_parse now ev s).1).
Proof.
  pose proof (dispatch_sockets_same now ev s) as Hs.
  destruct ev; try (apply sockets_same; apply Hs).
  - cbn [dispatch]. rewrite on_data_sockets. repeat case_match.
    + apply (sockets_flagged _ _ c). reflexivity.
    + eapply (sockets_buffered _ _ c). reflexivity.
    + eapply (sockets_buffered _ _ c). reflexivity.
    + apply sockets_same. reflexivity.
  - apply (sockets_closed _ _ c). apply dispatch_disconnect_sockets.
Qed.

Lemma handle_sockets_change now ev s :
  sockets_change (sockets s) (sockets (handle JSON_parse now ev s).1).
Proof.
  pose proof (dispatch_sockets_change now ev s) as Hd.
  unfold handle, event_socket.
  destruct ev; cbv beta iota;
    try (case_match; [exact Hd | apply sockets_same; reflexivity]).
  - destruct (sockets s !! c) eqn:E; simpl.
    + apply sockets_same. reflexivity.
    + apply (sockets_opened _ _ c E). reflexivity.
  - case_match; apply sockets_same; simpl; [|reflexivity].
    unfold purge_history. case_match; reflexivity.
Qed.

Lemma buffers_single_line_step ss ss' :
  sockets_change ss ss' ->
  (forall c sk, ss !! c = Some sk -> no_newline (dataBuffer sk) = true) ->
  forall c sk, ss' !! c = Some sk -> no_newline (dataBuffer sk) = true.
Proof.
  intros [E | k E | k buf E | k E | k Hk E] H c sk; rewrite E.
  - apply H.
  - destruct (decide (k = c)) as [<-|N].
    + rewrite lookup_alter_eq. destruct (ss !! k) as [sk0|] eqn:E0;
        [|discriminate]. intros [= <-]. exact (H k sk0 E0).
    + rewrite lookup_alter_ne by exact N. apply H.
  - destruct (decide (k = c)) as [<-|N].
    + rewrite lookup_alter_eq. destruct (ss !! k) as [sk0|] eqn:E0;
        [|discriminate]. intros [= <-]. simpl. apply pending_line_no_newline.
    + rewrite lookup_alter_ne by exact N. apply H.
  - destruct (decide (k = c)) as [<-|N].
    + rewrite lookup_alter_eq. destruct (ss !! k) as [sk0|] eqn:E0;
        [|discriminate]. intros [= <-]. exact (H k sk0 E0).
    + rewrite lookup_alter_ne by exact N. apply H.
  - destruct (decide (k = c)) as [<-|N].
    + rewrite lookup_insert_eq. intros [= <-]. reflexivity.
    + rewrite lookup_insert_ne by exact N. apply H.
Qed.

Lemma reachable_buffers_single_line s :
  reachable JSON_parse s -> buffers_single_line s.
Proof.
  revert s. apply (reachable_by_ind_inv JSON_parse _ buffers_single_line).
  - intros c sk. simpl. rewrite lookup_empty. discriminate.
  - intros s now ev H _.
    exact (buffers_single_line_step _ _
             (handle_sockets_change now ev s) H).
Qed.

(** X3. In every reachable state the buffer of a connection holds no line
    feed. So, on a connection flagged as the Laravel client, a frame whose
    trimmed text is not the sentinel and holds no line feed is only buffered:
    it is appended to the buffer of the connection, no control message is
    processed, nothing is emitted and the registries and history buffers stay
    as they are. As [trim] removes a line feed that ends the frame, a frame
    made of one line is never processed when it arrives. *)
Theorem X3_single_line_frame_is_buffered s now c sk data :
  reachable JSON_parse s ->
  sockets s !! c = Some sk ->
  no_newline (dataBuffer sk) = true
  /\ (isLaravelClient sk = true ->
      trim data <> LARAVEL_CLIENT -> no_newline (trim data) = true ->
      on_data JSON_parse now c data s
      = (with_sockets (alter (set_buffer (dataBuffer sk +:+ trim data)) c) s,
         [])).
Proof.
  intros Hr Hsk.
  pose proof (reachable_buffers_single_line s Hr c sk Hsk) as Hbuf.
  split; [exact Hbuf|]. intros Hflag Hne Hline.
  assert (Hall : no_newline (dataBuffer sk +:+ trim data) = true)
    by (rewrite no_newline_append, Hbuf, Hline; reflexivity).
  destruct (single_line_buffer _ Hall) as [Hlines Hpending].
  unfold on_data. apply String.eqb_neq in Hne. rewrite Hne.
  unfold is_laravel. rewrite Hsk, Hflag. cbv zeta.
  unfold control_messages. rewrite Hlines, Hpending. reflexivity.
Qed.

(** X4. The set [laravelSockets] changes in two places only. A raw frame
    that is the sentinel once trimmed adds the id of its socket, whatever that
    socket has done before; [disconnect] removes the id when the socket is
    flagged; no other event of a client or of the bridge, and no control
    message of a raw frame, touches the set. *)
Theorem X4_laravelSockets_changes s now ev :
  laravelSockets (dispatch JSON_parse now ev s).1
  = match ev with
    | Data c data =>
        if String.eqb (trim data) LARAVEL_CLIENT
        then laravelSockets s ∪ {[c]} else laravelSockets s
    | Disconnect c =>
        if is_laravel s c then laravelSockets s ∖ {[c]}
        else laravelSockets s
    | _ => laravelSockets s
    end.
Proof.
  pose proof (dispatch_sockets_same now ev s) as Hsame.
  destruct ev; try exact (proj2 Hsame).
  - apply on_data_laravelSockets.
  - apply dispatch_disconnect_sockets.
Qed.

End Sockets.

(** ** User records *)

Section UserRecords.

Context (JSON_parse : string -> option control_message).

Lemma isValidName_length max x :
  isValidName max (JStr x) = true ->
  1 <= String.length x <= max /\ allInClass x = true.
Proof.
  unfold isValidName. intros H.
  apply andb_prop in H as [H Hre]. apply andb_prop in H as [Hne Hlen].
  apply Nat.leb_le in Hlen. destruct x as [|a x]; [discriminate|].
  simpl in *. split; [lia | exact Hre].
Qed.

Lemma users_well_formed_insert c v s :
  users_well_formed s -> user_well_formed c v ->
  users_well_formed (with_users <[c := v]> s).
Proof.
  intros H Hv k u. simpl. destruct (decide (c = k)) as [<-|N].
  - rewrite lookup_insert_eq. intros [= <-]. exact Hv.
  - rewrite lookup_insert_ne by exact N. apply H.
Qed.

Lemma users_well_formed_same s s' :
  users s' = users s -> users_well_formed s -> users_well_formed s'.
Proof. intros E H k u. rewrite E. apply H. Qed.

Lemma users_well_formed_dispatch now ev s :
  users_well_formed s -> users_well_formed (dispatch JSON_parse now ev s).1.
Proof.
  intros H. destruct ev; simpl; try exact H.
  - eapply users_well_formed_same; [|exact H]. unfold on_data.
    repeat case_match; simpl; try reflexivity;
      rewrite process_all_users; reflexivity.
  - unfold on_join. repeat case_match; simpl; try exact H.
    repeat match goal with
           | E : str_of _ = Some _ |- _ => apply str_of_Some in E
           | E : negb _ = false |- _ => apply negb_false_iff in E
           end.
    apply (users_well_formed_insert c _ s H).
    unfold user_well_formed. cbn [username room socketId].
    split_and!; [reflexivity | congruence | congruence].
  - unfold on_send_message. repeat case_match; exact H.
  - unfold on_send_private_message. repeat case_match; exact H.
  - unfold on_typing. repeat case_match; exact H.
  - unfold on_typing. repeat case_match; exact H.
  - unfold on_change_room. repeat case_match; simpl; try exact H.
    repeat match goal with
           | E : str_of _ = Some _ |- _ => apply str_of_Some in E
           | E : negb _ = false |- _ => apply negb_false_iff in E
           end.
    match goal with E : users s !! c = Some ?u |- _ =>
      destruct (H c u E) as (Hw1 & Hw2 & Hw3) end.
    apply (users_well_formed_insert c _ (leave_room _ c s)).
    + eapply users_well_formed_same; [apply leave_room_users | exact H].
    + unfold user_well_formed, set_room. cbn [username room socketId].
      split_and!; [assumption | assumption | congruence].
  - unfold on_get_rooms. repeat case_match; exact H.
  - unfold on_get_room_users. repeat case_match; exact H.
  - unfold on_laravel_emit. repeat case_match; exact H.
  - unfold on_laravel_emit_to_room. repeat case_match; exact H.
  - unfold on_laravel_room_created, handleLaravelRoomCreation.
    repeat case_match; exact H.
  - unfold on_laravel_presence_update, handleLaravelPresenceUpdate.
    repeat case_match; exact H.
  - unfold on_disconnect.
    destruct (is_laravel s c); [exact H|].
    destruct (users s !! c) as [user|]; simpl; [|exact H].
    intros k u. simpl. rewrite leave_room_users. intros Hk.
    apply lookup_delete_Some in Hk as [_ Hk]. exact (H k u Hk).
Qed.

Lemma reachable_users_well_formed s :
  reachable JSON_parse s -> users_well_formed s.
Proof.
  revert s. apply (reachable_by_ind_inv JSON_parse _ users_well_formed).
  - intros k u. simpl. rewrite lookup_empty. discriminate.
  - intros s now ev H _.
    apply (handle_preserves JSON_parse (fun _ _ => True) users_well_formed);
      auto.
    + intros r s' H'. eapply users_well_formed_same; [|exact H'].
      rewrite purge_history_users. reflexivity.
    + intros now' ev' s' H' _. apply users_well_formed_dispatch, H'.
Qed.

End UserRecords.

(** ** What the client handlers do when they accept an event *)

Section Accepted.

Context (JSON_parse : string -> option control_message).

Lemma push_bounded_last h m : last (push_bounded h m) = Some m.
Proof.
  unfold push_bounded.
  destruct (MAX_MESSAGE_HISTORY <? length (h ++ [m]))%nat eqn:Hfull.
  - destruct h as [|m0 h]; [simpl in Hfull; discriminate|].
    simpl. apply last_snoc.
  - apply last_snoc.
Qed.

Lemma addToMessageHistory_last r m mh :
  last (getMessageHistory (addToMessageHistory r m mh) r) = Some m.
Proof. rewrite getMessageHistory_add_eq. apply push_bounded_last. Qed.

Lemma find_user_None_iff name (us : gmap string User) :
  find_user name us = None <->
  forall k v, us !! k = Some v ->
    toLowerCase (username v) <> toLowerCase name.
Proof.
  split.
  - intros H k v. exact (find_user_None name us k v H).
  - intros H. destruct (find_user name us) as [w|] eqn:E; [|reflexivity].
    exfalso. unfold find_user in E. apply find_some in E as [Hin Hsame].
    apply same_name_spec in Hsame.
    apply in_map_iff in Hin as ([k w'] & <- & Hin). simpl in *.
    apply list_elem_of_In, elem_of_map_to_list in Hin.
    exact (H k w' Hin Hsame).
Qed.

Lemma all_white_sanitize raw :
  all_white raw = false ->
  String.eqb (substring0 MAX_MESSAGE_LENGTH (trim raw)) "" = false.
Proof.
  intros Hw. apply String.eqb_neq. intros H.
  apply substring0_empty in H as [H|H]; [discriminate|].
  apply trim_empty in H. congruence.
Qed.

(** X6. A [join] that passes the checks (a connection not flagged as a
    Laravel client, a valid username that no connected user has up to case,
    a valid room name, [general] when the payload names none) stores the
    record of the user under the socket id, adds the socket to the members
    of the room without touching the members that were there or any other
    room, replays to the sender the history as it was before the join,
    reports the member count after it, which is at least 1, and leaves the
    join notice as the last entry of the history of the room. *)
Theorem X6_join_accepted s now c d u r :
  is_laravel s c = false ->
  jd_username d = JStr u -> room_or_general (jd_room d) = JStr r ->
  isValidUsername (JStr u) = true -> isValidRoomName (JStr r) = true ->
  (forall k v, users s !! k = Some v ->
     toLowerCase (username v) <> toLowerCase u) ->
  let res := on_join now c (Some d) s in
  let notice := SystemMessage now (u +:+ " joined the room") r in
  let members := default ∅ (rooms s !! r) ∪ {[c]} in
  users res.1
  = <[c := mkUser u r c (userId_or_null (jd_userId d)) now]> (users s)
  /\ rooms res.1 !! r = Some members
  /\ (forall r', r' <> r -> rooms res.1 !! r' = rooms s !! r')
  /\ res.2
     = [ mkEmit (ToSocket c) "message_history"
           (PHistory (getMessageHistory (messageHistory s) r));
         mkEmit (ToSocket c) "joined" (PJoined r (size members));
         mkEmit (ToRoomExcept r c) "user_joined" (PMessage notice);
         mkEmit (ToRoom r) "users_update" (PUsers (room_users res.1 r)) ]
  /\ 1 <= size members
  /\ last (getMessageHistory (messageHistory res.1) r) = Some notice
  /\ (forall r', r' <> r ->
        messageHistory res.1 !! r' = messageHistory s !! r').
Proof.
  intros Hflag Hname Hroom Hu Hr Hfree res notice members.
  apply find_user_None_iff in Hfree.
  set (s' := with_history (addToMessageHistory r notice)
               (with_rooms (add_member r c)
                  (with_users
                     <[c := mkUser u r c (userId_or_null (jd_userId d)) now]>
                     s))).
  assert (E : res
    = (s',
       [ mkEmit (ToSocket c) "message_history"
           (PHistory (getMessageHistory (messageHistory s) r));
         mkEmit (ToSocket c) "joined" (PJoined r (size members));
         mkEmit (ToRoomExcept r c) "user_joined" (PMessage notice);
         mkEmit (ToRoom r) "users_update" (PUsers (room_users s' r)) ])).
  { unfold res, on_join. cbv zeta.
    rewrite Hflag, Hname, Hroom, Hu, Hr. cbn [negb str_of].
    rewrite Hfree. f_equal. f_equal. f_equal.
    unfold member_count. cbn [rooms with_rooms with_users].
    rewrite add_member_lookup_eq. reflexivity. }
  clearbody res. subst res.
  cbn [fst snd]. unfold s'.
  cbn [users rooms messageHistory with_history with_rooms with_users].
  split_and!.
  - reflexivity.
  - apply add_member_lookup_eq.
  - intros r' Hne. apply add_member_lookup_ne. congruence.
  - reflexivity.
  - assert (Hne : size members <> 0); [|lia].
    apply size_non_empty_iff. intros Heq.
    apply (not_elem_of_empty (C:=gset string) c), Heq.
    apply elem_of_union_r, elem_of_singleton. reflexivity.
  - apply addToMessageHistory_last.
  - intros r' Hne. unfold addToMessageHistory.
    apply lookup_insert_ne. congruence.
Qed.

End Accepted.

(** ** Messages *)

Section Messages.

Context (JSON_parse : string -> option control_message).

(** X7. A [send_message] with some text that is not white space, from a
    connection that has a user record and is not flagged as a Laravel client,
    is emitted once, to the room the record names, with the text trimmed and
    cut to 500 code units, and becomes the last entry of the history of
    that room; the users, the rooms and the history of the other rooms are
    not changed. *)
Theorem X7_send_message_accepted s now c user raw :
  is_laravel s c = false -> users s !! c = Some user ->
  all_white raw = false ->
  let res := on_send_message now c (Some (JStr raw)) s in
  let content := substring0 MAX_MESSAGE_LENGTH (trim raw) in
  let m := ChatMessage now (username user) content (room user) c
             (userId user) in
  res.2 = [mkEmit (ToRoom (room user)) "receive_message" (PMessage m)]
  /\ String.length content <= MAX_MESSAGE_LENGTH
  /\ users res.1 = users s /\ rooms res.1 = rooms s
  /\ last (getMessageHistory (messageHistory res.1) (room user)) = Some m
  /\ (forall r', r' <> room user ->
        messageHistory res.1 !! r' = messageHistory s !! r').
Proof.
  intros Hflag Huser Hw res content m.
  assert (E : res = (with_history (addToMessageHistory (room user) m) s,
                     [mkEmit (ToRoom (room user)) "receive_message"
                        (PMessage m)])).
  { unfold res, on_send_message. rewrite Hflag, Huser. cbn [mbind option_bind
      sanitizeInput]. fold content. unfold content at 1.
    rewrite (all_white_sanitize raw Hw). reflexivity. }
  clearbody res. subst res. cbn [fst snd users rooms messageHistory with_history].
  split_and!; try reflexivity.
  - unfold content. rewrite substring0_length. lia.
  - apply addToMessageHistory_last.
  - intros r' Hne. unfold addToMessageHistory.
    apply lookup_insert_ne. congruence.
Qed.


(** X9. In a reachable state, a private message with some text, sent from a
    joined connection that is not flagged to the name of a connected user,
    in any case of the letters, is emitted to the socket of that user and
    confirmed to the sender, with the same record; the record names the
    target as the sender typed it. *)
Theorem X9_private_message_delivered s now c sender k target t raw :
  reachable JSON_parse s ->
  is_laravel s c = false -> users s !! c = Some sender ->
  users s !! k = Some target ->
  toLowerCase (username target) = toLowerCase t ->
  all_white raw = false ->
  let pm := mkPrivate now c (username sender) t
              (substring0 MAX_MESSAGE_LENGTH (trim raw)) in
  on_send_private_message now c (Some (JStr t, JStr raw)) s
  = (s, [ mkEmit (ToSocket k) "receive_private_message" (PPrivate pm);
          mkEmit (ToSocket c) "private_message_sent" (PPrivate pm) ]).
Proof.
  intros Hr Hflag Hsender Hk Heq Hw pm.
  destruct (reachable_usernames JSON_parse s Hr) as [Huniq _].
  pose proof (find_user_unique s t k target Huniq Hk Heq) as Hfind.
  destruct (reachable_users_well_formed JSON_parse s Hr k target Hk)
    as (Hid & _ & _).
  unfold on_send_private_message. rewrite Hflag, Hsender.
  cbn [sanitizeInput]. rewrite (all_white_sanitize raw Hw).
  cbn [str_of]. rewrite Hfind, Hid. reflexivity.
Qed.

End Messages.

(** ** Leaving, moving, disconnecting *)

Section Departures.

Context (JSON_parse : string -> option control_message).

Lemma leave_room_timers r c s :
  timers (leave_room r c s)
  = match rooms s !! r with
    | Some members =>
        if (size (members ∖ {[c]}) =? 0)%nat then timers s ++ [r]
        else timers s
    | None => timers s
    end.
Proof. unfold leave_room. repeat case_match; reflexivity. Qed.

Lemma leave_room_after r c s :
  (rooms (leave_room r c s) !! r, timers (leave_room r c s))
  = room_after_leaving s r c.
Proof.
  unfold room_after_leaving.
  rewrite leave_room_lookup_eq, leave_room_timers.
  repeat case_match; reflexivity.
Qed.

(** X10. A [change_room] that passes the checks moves the record of the
    user to the new room and makes the socket a member of it. The socket is
    taken out of the old room: its entry is deleted and a purge of its
    history scheduled when the socket was its last member. No third room is
    touched. The history replayed to the sender is that of the new room
    before the move; the leave notice becomes the last entry of the old
    room's history and the join notice that of the new room's. *)
Theorem X10_change_room_moves s now c user new :
  is_laravel s c = false -> users s !! c = Some user ->
  isValidRoomName (JStr new) = true ->
  let res := on_change_room now c (JStr new) s in
  let old := room user in
  users res.1 = <[c := set_room new user]> (users s)
  /\ (exists members, rooms res.1 !! new = Some members /\ c ∈ members
        /\ (old <> new -> members = default ∅ (rooms s !! new) ∪ {[c]}))
  /\ (old <> new ->
      (rooms res.1 !! old, timers res.1) = room_after_leaving s old c)
  /\ (forall r', r' <> old -> r' <> new -> rooms res.1 !! r' = rooms s !! r')
  /\ head res.2
     = Some (mkEmit (ToSocket c) "message_history"
               (PHistory (getMessageHistory (messageHistory s) new)))
  /\ last (getMessageHistory (messageHistory res.1) new)
     = Some (SystemMessage now (username user +:+ " joined the room") new)
  /\ (old <> new ->
      last (getMessageHistory (messageHistory res.1) old)
      = Some (SystemMessage now (username user +:+ " left the room") old)).
Proof.
  intros Hflag Huser Hvalid res old.
  unfold res, on_change_room. rewrite Hflag, Huser, Hvalid.
  cbn [negb str_of]. cbv zeta.
  cbn [fst snd users rooms messageHistory timers with_history with_rooms
       with_users head].
  fold old. rewrite leave_room_users, leave_room_history.
  split_and!.
  - reflexivity.
  - exists (default ∅ (rooms (leave_room old c s) !! new) ∪ {[c]}).
    split_and!.
    + apply add_member_lookup_eq.
    + apply elem_of_union_r, elem_of_singleton. reflexivity.
    + intros Hne. rewrite leave_room_lookup_ne by exact Hne. reflexivity.
  - intros Hne. rewrite add_member_lookup_ne by congruence.
    apply leave_room_after.
  - intros r' H1 H2. rewrite add_member_lookup_ne by congruence.
    apply leave_room_lookup_ne. congruence.
  - reflexivity.
  - apply addToMessageHistory_last.
  - intros Hne. rewrite getMessageHistory_add_ne by congruence.
    apply addToMessageHistory_last.
Qed.

Lemma on_disconnect_user s now c user :
  is_laravel s c = false -> users s !! c = Some user ->
  let res := on_disconnect now c s in
  let left :=
    SystemMessage now (username user +:+ " left the room") (room user) in
  users res.1 = delete c (users s)
  /\ (rooms res.1 !! room user, timers res.1)
     = room_after_leaving s (room user) c
  /\ (forall r', r' <> room user -> rooms res.1 !! r' = rooms s !! r')
  /\ last (getMessageHistory (messageHistory res.1) (room user)) = Some left
  /\ res.2
     = [ mkEmit (ToRoomExcept (room user) c) "user_left" (PMessage left);
         mkEmit (ToRoom (room user)) "users_update"
           (PUsers (room_users res.1 (room user))) ].
Proof.
  intros Hflag Huser res left. unfold res, on_disconnect.
  rewrite Hflag, Huser. cbv zeta.
  cbn [fst snd users rooms messageHistory timers with_history with_users].
  rewrite leave_room_users.
  split_and!; try reflexivity.
  - apply leave_room_after.
  - intros r' Hne. apply leave_room_lookup_ne. congruence.
  - apply addToMessageHistory_last.
Qed.

(** X11. [disconnect] of a connection that is not flagged and has a user
    record deletes the record, takes the socket out of the room the record
    names (deleting the entry and scheduling the purge when it was the last
    member), touches no other room and leaves the leave notice as the last
    entry of the history of that room, even when the room is gone. Without a
    user record nothing changes. A connection flagged as a Laravel client is
    only taken out of [laravelSockets]: a user record and a membership it
    got before it was flagged stay. *)
Theorem X11_disconnect_cleans_up s now c :
  let res := on_disconnect now c s in
  if is_laravel s c then
    res.2 = [] /\ users res.1 = users s /\ rooms res.1 = rooms s
    /\ messageHistory res.1 = messageHistory s
    /\ laravelSockets res.1 = laravelSockets s ∖ {[c]}
  else
    match users s !! c with
    | None => res = (s, [])
    | Some user =>
        let left :=
          SystemMessage now (username user +:+ " left the room") (room user) in
        users res.1 = delete c (users s)
        /\ (rooms res.1 !! room user, timers res.1)
           = room_after_leaving s (room user) c
        /\ (forall r', r' <> room user -> rooms res.1 !! r' = rooms s !! r')
        /\ last (getMessageHistory (messageHistory res.1) (room user))
           = Some left
        /\ res.2
           = [ mkEmit (ToRoomExcept (room user) c) "user_left" (PMessage left);
               mkEmit (ToRoom (room user)) "users_update"
                 (PUsers (room_users res.1 (room user))) ]
    end.
Proof.
  intros res. unfold res.
  destruct (is_laravel s c) eqn:Hflag.
  - unfold on_disconnect. rewrite Hflag. split_and!; reflexivity.
  - destruct (users s !! c) as [user|] eqn:Huser.
    + exact (on_disconnect_user s now c user Hflag Huser).
    + unfold on_disconnect. rewrite Hflag, Huser. reflexivity.
Qed.

(** X12. When the last member of a room disconnects and the purge callback
    of the room comes due before anybody is in the room again, the history
    of the room is gone, leave notice included. *)
Theorem X12_purge_after_last_member_left s now now' c user :
  is_connected s c = true -> is_laravel s c = false ->
  users s !! c = Some user -> rooms s !! room user = Some {[c]} ->
  let s1 := (handle JSON_parse now (Disconnect c) s).1 in
  let s2 := (handle JSON_parse now' (Timeout (room user)) s1).1 in
  users s1 !! c = None
  /\ rooms s1 !! room user = None
  /\ room user ∈ timers s1
  /\ last (getMessageHistory (messageHistory s1) (room user))
     = Some (SystemMessage now (username user +:+ " left the room")
               (room user))
  /\ messageHistory s2 !! room user = None
  /\ rooms s2 = rooms s1.
Proof.
  intros Hconn Hflag Huser Hroom s1 s2.
  destruct (on_disconnect_user s now c user Hflag Huser)
    as (Hu & Hr & _ & Hlast & _).
  unfold room_after_leaving in Hr. rewrite Hroom in Hr.
  assert (Hempty : ({[c]} ∖ {[c]} : gset string) = ∅)
    by apply difference_diag_L.
  rewrite Hempty, size_empty in Hr. simpl in Hr. injection Hr as Hr Ht.
  assert (Es1 : s1 = with_sockets (alter set_disconnected c)
                       (on_disconnect now c s).1).
  { unfold s1, handle. cbn [event_socket]. rewrite Hconn. cbn [dispatch].
    destruct (on_disconnect now c s). reflexivity. }
  assert (H1 : users s1 !! c = None)
    by (rewrite Es1; simpl; rewrite Hu; apply lookup_delete_eq).
  assert (H2 : rooms s1 !! room user = None) by (rewrite Es1; exact Hr).
  assert (H3 : room user ∈ timers s1).
  { rewrite Es1. simpl. rewrite Ht. apply elem_of_app. right.
    apply list_elem_of_here. }
  split_and!; try assumption.
  - rewrite Es1. exact Hlast.
  - unfold s2, handle. rewrite (bool_decide_eq_true_2 _ H3).
    cbn [fst]. unfold purge_history. simpl. rewrite H2. simpl.
    apply lookup_delete_eq.
  - unfold s2, handle. rewrite (bool_decide_eq_true_2 _ H3).
    cbn [fst]. rewrite purge_history_rooms. reflexivity.
Qed.

End Departures.

(** ** The two protocols on one transport *)

Section Protocols.

Context (JSON_parse : string -> option control_message).

(** X13. The flag separates the two protocols: on a connection flagged as a
    Laravel client every regular client event is skipped, and on a
    connection that is not flagged every Socket.IO event of the bridge is
    skipped; a skipped event changes nothing and emits nothing. *)
Theorem X13_flag_separates_protocols s now ev c :
  event_socket ev = Some c ->
  (if is_laravel s c then regular_event ev else laravel_event ev) = true ->
  dispatch JSON_parse now ev s = (s, []).
Proof.
  intros Hev Hkind. destruct (is_laravel s c) eqn:Hflag;
    destruct ev; try discriminate; simpl in Hev; injection Hev as ->;
    simpl; unfold on_join, on_send_message, on_send_private_message,
      on_typing, on_change_room, on_get_rooms, on_get_room_users,
      on_laravel_emit, on_laravel_emit_to_room, on_laravel_room_created,
      on_laravel_presence_update; rewrite Hflag; reflexivity.
Qed.

Lemma rooms_extended_refl rs : rooms_extended rs rs.
Proof. intros r. left. reflexivity. Qed.

Lemma rooms_extended_trans rs1 rs2 rs3 :
  rooms_extended rs1 rs2 -> rooms_extended rs2 rs3 -> rooms_extended rs1 rs3.
Proof.
  intros H12 H23 r. destruct (H12 r) as [E|[E1 E2]], (H23 r) as [F|[F1 F2]].
  - left. congruence.
  - right. split; congruence.
  - right. split; congruence.
  - congruence.
Qed.

Lemma rooms_extended_ensure r rs : rooms_extended rs (ensure_room r rs).
Proof.
  intros r'. unfold ensure_room. destruct (rs !! r) eqn:E; [left; reflexivity|].
  destruct (decide (r = r')) as [<-|N].
  - right. split; [exact E | apply lookup_insert_eq].
  - left. apply lookup_insert_ne, N.
Qed.

Lemma bridge_footprint_refl s : bridge_footprint s s.
Proof. split_and!; try reflexivity. apply rooms_extended_refl. Qed.

Lemma bridge_footprint_trans s1 s2 s3 :
  bridge_footprint s1 s2 -> bridge_footprint s2 s3 -> bridge_footprint s1 s3.
Proof.
  intros (U1 & T1 & R1) (U2 & T2 & R2). split_and!; try congruence.
  exact (rooms_extended_trans _ _ _ R1 R2).
Qed.

Lemma bridge_footprint_control now c m s :
  bridge_footprint s (dispatch_control now c m s).1.
Proof.
  destruct m; simpl; try apply bridge_footprint_refl.
  - unfold handleLaravelRoomEmit. case_match; simpl;
      (split_and!; [reflexivity | reflexivity | apply rooms_extended_ensure]).
  - unfold handleLaravelRoomCreation. repeat case_match; simpl;
      try apply bridge_footprint_refl;
      (split_and!; [reflexivity | reflexivity | apply rooms_extended_ensure]).
  - unfold handleLaravelPresenceUpdate.
    repeat case_match; apply bridge_footprint_refl.
Qed.

Lemma bridge_footprint_process now c ms : forall s,
  bridge_footprint s (process_all now c ms s).1.
Proof.
  induction ms as [|m ms IH]; intros s; [apply bridge_footprint_refl|].
  simpl. pose proof (bridge_footprint_control now c m s) as H1.
  destruct (dispatch_control now c m s) as [s1 o1]. simpl in H1.
  pose proof (IH s1) as H2.
  destruct (process_all now c ms s1) as [s2 o2]. simpl in *.
  exact (bridge_footprint_trans _ _ _ H1 H2).
Qed.

(** X14. Whatever the bridge sends, as raw frames or as its Socket.IO
    events, the users map and the pending purges are not changed, no room
    entry is removed and no member set is changed: the only change to the
    rooms is the creation of entries without members for rooms that had no
    entry. *)
Theorem X14_bridge_keeps_users_and_members s now ev :
  bridge_event ev = true ->
  let s' := (dispatch JSON_parse now ev s).1 in
  users s' = users s /\ timers s' = timers s
  /\ (forall r members, rooms s !! r = Some members ->
        rooms s' !! r = Some members)
  /\ (forall r members, rooms s' !! r = Some members ->
        rooms s !! r = Some members
        \/ (rooms s !! r = None /\ members = ∅)).
Proof.
  intros Hev s'.
  assert (H : bridge_footprint s s').
  { unfold s'. destruct ev; try discriminate; simpl.
    - unfold on_data. repeat case_match; simpl;
        try apply bridge_footprint_refl;
        try (eapply bridge_footprint_trans; [|apply bridge_footprint_process]);
        (split_and!; [reflexivity | reflexivity | apply rooms_extended_refl]).
    - unfold on_laravel_emit. repeat case_match; apply bridge_footprint_refl.
    - unfold on_laravel_emit_to_room. repeat case_match; simpl;
        try apply bridge_footprint_refl;
        (split_and!; [reflexivity | reflexivity | apply rooms_extended_ensure]).
    - unfold on_laravel_room_created. repeat case_match;
        try apply bridge_footprint_refl.
      apply (bridge_footprint_control now c (CRoomCreated _ _)).
    - unfold on_laravel_presence_update. repeat case_match;
        try apply bridge_footprint_refl.
      apply (bridge_footprint_control now c (CPresenceUpdate _ _ _)). }
  destruct H as (Hu & Ht & Hr). split_and!; try assumption.
  - intros r members Hm. destruct (Hr r) as [E|[E _]]; congruence.
  - intros r members Hm. destruct (Hr r) as [E|[E1 E2]].
    + left. congruence.
    + right. split; congruence.
Qed.

Lemma process_quiet now c ms : forall s,
  Forall (fun m => quiet_message m = true) ms ->
  process_all now c ms s
  = (s, map (fun _ => mkEmit (ToSocket c) "pong" (PPong now))
          (List.filter is_ping ms)).
Proof.
  induction ms as [|m ms IH]; intros s Hall; [reflexivity|].
  apply Forall_cons in Hall as [Hm Hall]. simpl.
  destruct m; try discriminate; simpl; rewrite (IH s Hall); reflexivity.
Qed.


End Protocols.

(** ** Snapshots *)

Section Snapshots.

Context (JSON_parse : string -> option control_message).

Lemma fold_lengths_bound (hs : list (list message)) : forall start,
  Forall (fun h => length h <= MAX_MESSAGE_HISTORY) hs ->
  fold_left (fun total h => total + length h) hs start
  <= start + MAX_MESSAGE_HISTORY * length hs.
Proof.
  induction hs as [|h hs IH]; intros start Hall; simpl; [lia|].
  apply Forall_cons in Hall as [Hh Hall].
  pose proof (IH (start + length h) Hall).
  unfold MAX_MESSAGE_HISTORY in *. lia.
Qed.

Lemma reachable_by_weaken (allowed : state -> event -> Prop) s :
  reachable_by JSON_parse allowed s -> reachable JSON_parse s.
Proof.
  intros H. induction H; [apply reach_initial|].
  apply reach_step; [assumption | exact I].
Qed.

(** X16. What [GET /api/rooms] and [GET /api/stats] report in a reachable
    state: one element for each room entry, under distinct names, with the
    size of the member set and a message count of at most 50, which is the
    length of the history of the room (0 when it has none); and a total of
    messages of at most 50 for each history buffer kept. *)
Theorem X16_statistics_are_bounded s :
  reachable JSON_parse s ->
  length (api_rooms s) = active_rooms s
  /\ NoDup (map rs_name (api_rooms s))
  /\ (forall st, In st (api_rooms s) ->
        rooms s !! rs_name st = Some (default ∅ (rooms s !! rs_name st))
        /\ rs_userCount st = member_count s (rs_name st)
        /\ rs_messageCount st
           = length (getMessageHistory (messageHistory s) (rs_name st))
        /\ rs_messageCount st <= MAX_MESSAGE_HISTORY)
  /\ total_messages s <= MAX_MESSAGE_HISTORY * size (messageHistory s).
Proof.
  intros Hr. pose proof (reachable_history_bounded JSON_parse s Hr) as Hb.
  unfold api_rooms, active_rooms. split_and!.
  - rewrite length_map. apply length_map_to_list.
  - rewrite map_map. simpl. apply (NoDup_fst_map_to_list (rooms s)).
  - intros st Hin. apply in_map_iff in Hin as ([r m] & <- & Hin).
    apply list_elem_of_In, elem_of_map_to_list in Hin. simpl in *.
    unfold member_count, message_count, getMessageHistory. rewrite Hin.
    split_and!; try reflexivity.
    + destruct (messageHistory s !! r); reflexivity.
    + destruct (messageHistory s !! r) as [h|] eqn:E; [exact (Hb r h E)|].
      unfold MAX_MESSAGE_HISTORY. lia.
  - unfold total_messages.
    rewrite <- (length_map_to_list (messageHistory s)).
    rewrite <- (length_map snd (map_to_list (messageHistory s))).
    apply (fold_lengths_bound _ 0).
    apply Forall_forall. intros h Hh. apply list_elem_of_In in Hh.
    apply in_map_iff in Hh as ([r h'] & <- & Hin).
    apply list_elem_of_In, elem_of_map_to_list in Hin. exact (Hb r h' Hin).
Qed.

(** X17. As long as no connection joins twice, the member list that
    [users_update], [room_users] and [get_room_users] carry for a room has
    one record for each member of the room, each stored under the id of a
    member and naming this room. *)
Theorem X17_member_list_matches_members s r members :
  reachable_by JSON_parse first_join s ->
  rooms s !! r = Some members ->
  length (room_users s r) = size members
  /\ Forall (fun u => room u = r /\ socketId u ∈ members
                      /\ users s !! socketId u = Some u)
       (room_users s r).
Proof.
  intros Hr Hm.
  pose proof (membership_consistent_until_rejoin JSON_parse s Hr) as Hcons.
  pose proof (reachable_users_well_formed JSON_parse s
                (reachable_by_weaken _ s Hr)) as Hwf.
  unfold room_users. rewrite Hm. simpl.
  assert (Hall : forall c, c ∈ elements members ->
            exists u, users s !! c = Some u /\ room u = r).
  { intros c Hc. apply elem_of_elements in Hc. exact (Hcons r members c Hm Hc). }
  split.
  - unfold size, set_size. simpl.
    induction (elements members) as [|c l IH]; [reflexivity|].
    simpl. destruct (Hall c) as (u & Hu & _); [apply list_elem_of_here|].
    rewrite Hu. simpl. f_equal. apply IH.
    intros c' Hc'. apply Hall. apply list_elem_of_further, Hc'.
  - apply Forall_forall. intros u Hu.
    apply list_elem_of_omap in Hu as (c & Hc & Hlook).
    destruct (Hall c Hc) as (u' & Hu' & Hroom).
    assert (u' = u) as -> by congruence.
    destruct (Hwf c u Hlook) as (Hid & _).
    rewrite Hid. apply elem_of_elements in Hc. auto.
Qed.

End Snapshots.

(** ** Helpers of the handlers *)

Section Helpers.

(** X18. [addToMessageHistory] and [getMessageHistory]: a room without
    history reads as the empty list and gets a buffer of one entry; the
    entry appended is the last one read back; the entries that were there
    are kept in order, the first of them dropped when there were already 50;
    and the history of any other room reads as before. *)
Theorem X18_history_append_then_read r m mh :
  let old := getMessageHistory mh r in
  let new := getMessageHistory (addToMessageHistory r m mh) r in
  (mh !! r = None -> old = [] /\ new = [m])
  /\ last new = Some m
  /\ (length old < MAX_MESSAGE_HISTORY -> new = old ++ [m])
  /\ (length old = MAX_MESSAGE_HISTORY -> new = tail old ++ [m])
  /\ (forall r', r' <> r ->
        getMessageHistory (addToMessageHistory r m mh) r'
        = getMessageHistory mh r').
Proof.
  intros old new. unfold new. rewrite getMessageHistory_add_eq. fold old.
  split_and!.
  - intros Hnone. assert (old = []) as ->
      by (unfold old, getMessageHistory; rewrite Hnone; reflexivity).
    split; reflexivity.
  - apply push_bounded_last.
  - intros Hlt. unfold push_bounded. rewrite length_app. simpl.
    destruct (Nat.ltb_spec MAX_MESSAGE_HISTORY (length old + 1));
      [lia | reflexivity].
  - intros Heq. unfold push_bounded. rewrite length_app. simpl.
    destruct (Nat.ltb_spec MAX_MESSAGE_HISTORY (length old + 1)); [|lia].
    destruct old; [discriminate | reflexivity].
  - intros r' Hne. apply getMessageHistory_add_ne. congruence.
Qed.

Lemma toLowerCase_same_name n1 n2 u :
  toLowerCase n1 = toLowerCase n2 -> same_name n1 u = same_name n2 u.
Proof. intros H. unfold same_name. rewrite H. reflexivity. Qed.

(** X19. The search of a user by name is sound and complete up to the case
    of the letters: a record found is a value of the map whose username
    equals the name up to case; nothing is found exactly when no record has
    such a username; and two names that are equal up to case find the
    same record. *)
Theorem X19_find_user_is_case_insensitive (us : gmap string User) name :
  (forall u, find_user name us = Some u ->
     exists k, us !! k = Some u
               /\ toLowerCase (username u) = toLowerCase name)
  /\ (find_user name us = None <->
      forall k v, us !! k = Some v ->
        toLowerCase (username v) <> toLowerCase name)
  /\ (forall name', toLowerCase name' = toLowerCase name ->
        find_user name' us = find_user name us).
Proof.
  split_and!.
  - intros u H. unfold find_user in H. apply find_some in H as [Hin Hsame].
    apply same_name_spec in Hsame.
    apply in_map_iff in Hin as ([k w] & <- & Hin). simpl in *.
    apply list_elem_of_In, elem_of_map_to_list in Hin. eauto.
  - apply find_user_None_iff.
  - intros name' Heq. unfold find_user.
    induction (map snd (map_to_list us)) as [|u l IH]; [reflexivity|].
    simpl. rewrite (toLowerCase_same_name name' name u Heq), IH.
    reflexivity.
Qed.

Lemma inClass_not_white a : inClass a = true -> isWhiteSpace a = false.
Proof.
  assert (Hall : forallb (fun x => implb (inClass x) (negb (isWhiteSpace x)))
                   all_ascii = true) by (vm_compute; reflexivity).
  rewrite forallb_forall in Hall.
  pose proof (Hall a (all_ascii_complete a)) as Ha.
  intros Hin. rewrite Hin in Ha. simpl in Ha.
  apply negb_true_iff in Ha. exact Ha.
Qed.

Lemma inClass_lowerChar a : inClass a = true -> inClass (lowerChar a) = true.
Proof.
  assert (Hall : forallb (fun x => implb (inClass x) (inClass (lowerChar x)))
                   all_ascii = true) by (vm_compute; reflexivity).
  rewrite forallb_forall in Hall.
  pose proof (Hall a (all_ascii_complete a)) as Ha.
  intros Hin. rewrite Hin in Ha. exact Ha.
Qed.

Lemma allInClass_toLowerCase x :
  allInClass x = true -> allInClass (toLowerCase x) = true.
Proof.
  induction x as [|a x IH]; [reflexivity|]. simpl. intros H.
  apply andb_prop in H as [Ha Hx].
  rewrite (inClass_lowerChar a Ha), (IH Hx). reflexivity.
Qed.

Lemma allInClass_not_white x :
  allInClass x = true ->
  forallb (fun a => negb (isWhiteSpace a)) (list_ascii_of_string x) = true.
Proof.
  induction x as [|a x IH]; [reflexivity|]. simpl. intros H.
  apply andb_prop in H as [Ha Hx].
  rewrite (inClass_not_white a Ha), (IH Hx). reflexivity.
Qed.

(** Text without white space is what trimming returns for it. *)
Lemma trimStart_not_white x :
  forallb (fun a => negb (isWhiteSpace a)) (list_ascii_of_string x) = true ->
  trimStart x = x.
Proof.
  destruct x as [|a x]; [reflexivity|]. simpl. intros H.
  apply andb_prop in H as [Ha _]. apply negb_true_iff in Ha.
  rewrite Ha. reflexivity.
Qed.

Lemma trim_not_white x :
  forallb (fun a => negb (isWhiteSpace a)) (list_ascii_of_string x) = true ->
  trim x = x.
Proof.
  intros H. unfold trim, trimEnd. rewrite (trimStart_not_white x H).
  rewrite trimStart_not_white; [apply rev_involutive|].
  rewrite chars_rev. apply forallb_forall. intros a Ha.
  apply in_rev in Ha. rewrite forallb_forall in H. exact (H a Ha).
Qed.

(** X20. A valid username is a valid room name. A valid name holds no white
    space, so that trimming it changes nothing, and lower-casing it, as the
    comparison of usernames does, gives a valid name of the same length. *)
Theorem X20_name_validation v :
  (isValidUsername v = true -> isValidRoomName v = true)
  /\ (forall max x, v = JStr x -> isValidName max v = true ->
        forallb (fun a => negb (isWhiteSpace a)) (list_ascii_of_string x)
        = true
        /\ trim x = x
        /\ isValidName max (JStr (toLowerCase x)) = true
        /\ String.length (toLowerCase x) = String.length x).
Proof.
  split.
  - unfold isValidUsername, isValidRoomName, isValidName.
    destruct v as [| | | |x]; try discriminate. intros H.
    apply andb_prop in H as [H Hre]. apply andb_prop in H as [Hne Hlen].
    rewrite Hne, Hre. apply Nat.leb_le in Hlen.
    assert (Hle : (String.length x <=? MAX_ROOM_NAME_LENGTH)%nat = true)
      by (apply Nat.leb_le; unfold MAX_USERNAME_LENGTH, MAX_ROOM_NAME_LENGTH in *;
          lia).
    rewrite Hle. reflexivity.
  - intros max x -> Hvalid.
    destruct (isValidName_length _ _ Hvalid) as [[Hpos Hmax] Hcls].
    pose proof (allInClass_not_white x Hcls) as Hwhite.
    split; [exact Hwhite|]. split; [exact (trim_not_white x Hwhite)|].
    split; [|apply toLowerCase_length].
    unfold isValidName, test_name_regex.
    pose proof (toLowerCase_length x) as Hlen.
    pose proof (allInClass_toLowerCase x Hcls) as Hlow.
    destruct (toLowerCase x) as [|a y] eqn:E; [simpl in Hlen; lia|].
    rewrite Hlow. cbn [String.eqb negb andb]. rewrite ?andb_true_r.
    apply Nat.leb_le. lia.
Qed.

End Helpers.

(** ** The relay *)

Module RelayFacts.

Import Relay.

Lemma tracked_rooms_inhabited_step ev s s' out :
  handle ev s = Running s' out ->
  tracked_rooms_inhabited s -> tracked_rooms_inhabited s'.
Proof.
  intros Hstep H. destruct ev as [c|c data|c md|c]; simpl in Hstep.
  - destruct (connections s !! c) eqn:E; injection Hstep as <- _; [exact H|].
    intros id members Hm. simpl in *. destruct (H id members Hm) as [Hne Hc].
    split; [exact Hne|]. intros k Hk.
    destruct (decide (c = k)) as [<-|N].
    + rewrite lookup_insert_eq. eauto.
    + rewrite lookup_insert_ne by exact N. apply Hc, Hk.
  - destruct (is_open s c) eqn:Hopen; [|injection Hstep as <- _; exact H].
    destruct data as [id|]; [|discriminate]. injection Hstep as <- _.
    intros id' members. simpl.
    destruct (decide (id = id')) as [<-|N].
    + rewrite lookup_insert_eq. intros [= <-]. split.
      * intros Heq. apply (not_elem_of_empty (C:=gset string) c).
        rewrite <- Heq. apply elem_of_union_r, elem_of_singleton. reflexivity.
      * intros k Hk. apply elem_of_union in Hk as [Hk|Hk].
        -- destruct (roomUsers s !! id) as [m0|] eqn:E; simpl in Hk.
           ++ exact (proj2 (H id m0 E) k Hk).
           ++ exfalso. exact (not_elem_of_empty k Hk).
        -- apply elem_of_singleton in Hk as ->.
           unfold is_open in Hopen.
           destruct (connections s !! c); [eauto | discriminate].
    + rewrite lookup_insert_ne by exact N. apply H.
  - destruct (is_open s c); [|injection Hstep as <- _; exact H].
    unfold on_send_message in Hstep.
    destruct (truthy (room_id_of s c)); [|injection Hstep as <- _; exact H].
    destruct md as [[]|]; try discriminate; injection Hstep as <- _; exact H.
  - destruct (is_open s c); injection Hstep as <- _; [|exact H].
    assert (Hconn : forall k, is_Some (connections s !! k) ->
              is_Some (<[c := false]> (connections s) !! k)).
    { intros k Hk. destruct (decide (c = k)) as [<-|N].
      - rewrite lookup_insert_eq. eauto.
      - rewrite lookup_insert_ne by exact N. exact Hk. }
    intros id members. unfold on_disconnect. simpl.
    destruct (truthy (room_id_of s c)).
    + destruct (roomUsers s !! room_id_of s c) as [m0|] eqn:E.
      * destruct (Nat.eqb_spec (size (m0 ∖ {[c]})) 0) as [Hz|Hnz].
        -- intros Hm. apply lookup_delete_Some in Hm as [_ Hm].
           destruct (H id members Hm) as [Hne Hc].
           split; [exact Hne|]. intros k Hk. apply Hconn, Hc, Hk.
        -- destruct (decide (room_id_of s c = id)) as [<-|N].
           ++ rewrite lookup_insert_eq. intros [= <-]. split.
              ** intros Heq. apply Hnz. rewrite Heq. apply size_empty.
              ** intros k Hk. apply elem_of_difference in Hk as [Hk _].
                 apply Hconn. exact (proj2 (H _ m0 E) k Hk).
           ++ rewrite lookup_insert_ne by exact N. intros Hm.
              destruct (H id members Hm) as [Hne Hc].
              split; [exact Hne|]. intros k Hk. apply Hconn, Hc, Hk.
      * intros Hm. destruct (H id members Hm) as [Hne Hc].
        split; [exact Hne|]. intros k Hk. apply Hconn, Hc, Hk.
    + intros Hm. destruct (H id members Hm) as [Hne Hc].
      split; [exact Hne|]. intros k Hk. apply Hconn, Hc, Hk.
Qed.

(** X21. At every state the relay reaches, each room it tracks has at least
    one member, and each member is the id of a connection that was opened. *)
Theorem X21_relay_rooms_have_members s :
  reachable s -> tracked_rooms_inhabited s.
Proof.
  intros Hr. induction Hr as [|s ev s' out _ IH Hstep].
  - intros id members. simpl. rewrite lookup_empty. discriminate.
  - exact (tracked_rooms_inhabited_step ev s s' out Hstep IH).
Qed.


Lemma room_id_of_joined c id s : room_id_of (joined c id s) c = id.
Proof. unfold room_id_of, joined. cbn [room_ids]. rewrite lookup_insert_eq. reflexivity. Qed.

Lemma roomUsers_joined_fresh c id s :
  roomUsers s !! id = None ->
  roomUsers (joined c id s) = <[id := {[c]}]> (roomUsers s).
Proof.
  intros Hnone. unfold joined. cbn [roomUsers]. rewrite Hnone.
  cbn [default from_option]. rewrite (left_id_L ∅ (∪)). reflexivity.
Qed.

Lemma on_disconnect_sole_member c id s :
  room_id_of s c = id -> truthy id = true ->
  roomUsers s !! id = Some {[c]} ->
  roomUsers (on_disconnect c s) = delete id (roomUsers s).
Proof.
  intros Hid Ht Hlook. unfold on_disconnect. cbn [roomUsers].
  rewrite Hid, Ht, Hlook.
  assert (Hdiff : ({[c]} ∖ {[c]} : gset string) = ∅)
    by apply difference_diag_L.
  rewrite Hdiff, size_empty. reflexivity.
Qed.

Lemma on_disconnect_falsy c s :
  truthy (room_id_of s c) = false ->
  roomUsers (on_disconnect c s) = roomUsers s.
Proof.
  intros Hf. unfold on_disconnect. cbn [roomUsers]. rewrite Hf. reflexivity.
Qed.

(** X23. Joining a room that was not tracked and disconnecting gives the
    [roomUsers] map back when the room id is truthy. With a falsy id
    [disconnect] skips the cleanup and the entry stays with the closed
    socket in it. And a socket that joined a second room is taken out of
    that one only: the first room keeps it. *)
Theorem X23_relay_disconnect_cleanup c id id' s :
  roomUsers s !! id = None ->
  (truthy id = true ->
   roomUsers (on_disconnect c (joined c id s)) = roomUsers s)
  /\ (truthy id = false ->
      roomUsers (on_disconnect c (joined c id s)) !! id = Some {[c]})
  /\ (id <> id' -> roomUsers s !! id' = None -> truthy id' = true ->
      roomUsers (on_disconnect c (joined c id' (joined c id s))) !! id
      = Some {[c]}
      /\ roomUsers (on_disconnect c (joined c id' (joined c id s))) !! id'
         = None).
Proof.
  intros Hnone. split_and!.
  - intros Ht.
    rewrite (on_disconnect_sole_member c id _ (room_id_of_joined c id s) Ht).
    + rewrite roomUsers_joined_fresh by exact Hnone.
      rewrite delete_insert_eq. apply delete_id, Hnone.
    + rewrite roomUsers_joined_fresh by exact Hnone. apply lookup_insert_eq.
  - intros Hf. rewrite on_disconnect_falsy
      by (rewrite room_id_of_joined; exact Hf).
    rewrite roomUsers_joined_fresh by exact Hnone. apply lookup_insert_eq.
  - intros Hne Hnone' Ht.
    assert (Hfresh : roomUsers (joined c id s) !! id' = None).
    { rewrite roomUsers_joined_fresh by exact Hnone.
      rewrite lookup_insert_ne by exact Hne. exact Hnone'. }
    rewrite (on_disconnect_sole_member c id' _
               (room_id_of_joined c id' _) Ht).
    + rewrite (roomUsers_joined_fresh c id' _ Hfresh).
      rewrite delete_insert_eq. split.
      * rewrite lookup_delete_ne by congruence.
        rewrite roomUsers_joined_fresh by exact Hnone.
        apply lookup_insert_eq.
      * apply lookup_delete_eq.
    + rewrite (roomUsers_joined_fresh c id' _ Hfresh). apply lookup_insert_eq.
Qed.

End RelayFacts.

(** ** The further theorems at sample inputs *)

Lemma X2_witness :
  no_newline "ping" = true
  /\ complete_lines "ping" = [] /\ pending_line "ping" = "ping".
Proof.
  assert (H : no_newline "ping" = true) by reflexivity.
  split; [exact H|].
  exact (proj2 (proj2 (X2_buffer_split_lossless "ping")) H).
Defined.

Lemma X3_witness :
  let s := run sample_parse bridge_connects initial in
  let sk := mkSocket true "" true in
  reachable sample_parse s
  /\ sockets s !! "L" = Some sk
  /\ isLaravelClient sk = true
  /\ trim (sample_line +:+ newline) <> LARAVEL_CLIENT
  /\ no_newline (trim (sample_line +:+ newline)) = true
  /\ on_data sample_parse 3 "L" (sample_line +:+ newline) s
     = (with_sockets
          (alter (set_buffer
                    (dataBuffer sk +:+ trim (sample_line +:+ newline))) "L") s,
        []).
Proof.
  intros s sk.
  assert (Hr : reachable sample_parse s) by apply run_reachable.
  assert (Hsk : sockets s !! "L" = Some sk) by (vm_compute; reflexivity).
  assert (Hne : trim (sample_line +:+ newline) <> LARAVEL_CLIENT)
    by (vm_compute; discriminate).
  assert (Hl : no_newline (trim (sample_line +:+ newline)) = true)
    by (vm_compute; reflexivity).
  split; [exact Hr|]. split; [exact Hsk|]. split; [reflexivity|].
  split; [exact Hne|]. split; [exact Hl|].
  exact (proj2 (X3_single_line_frame_is_buffered sample_parse s 3 "L" sk
                  (sample_line +:+ newline) Hr Hsk) eq_refl Hne Hl).
Defined.

Lemma newcomer_has_no_users :
  users (run sample_parse newcomer initial) = ∅.
Proof. vm_compute. reflexivity. Qed.

Lemma X6_witness :
  let s := run sample_parse newcomer initial in
  let d := mkJoin (JStr "alice") JUndefined JUndefined in
  is_laravel s "a" = false
  /\ room_or_general (jd_room d) = JStr "general"
  /\ users (on_join 2 "a" (Some d) s).1
     = <[ "a" := mkUser "alice" "general" "a" JNull 2 ]> (users s).
Proof.
  intros s d.
  assert (Hf : is_laravel s "a" = false) by (vm_compute; reflexivity).
  assert (Hfree : forall k v, users s !! k = Some v ->
            toLowerCase (username v) <> toLowerCase "alice").
  { intros k v. unfold s. rewrite newcomer_has_no_users, lookup_empty.
    discriminate. }
  split; [exact Hf|]. split; [reflexivity|].
  exact (proj1 (X6_join_accepted s 2 "a" d "alice" "general" Hf
                  eq_refl eq_refl eq_refl eq_refl Hfree)).
Defined.

Lemma X7_witness :
  let s := run sample_parse alice_in_lobby initial in
  let alice := mkUser "alice" "lobby" "a" JNull 2 in
  is_laravel s "a" = false /\ users s !! "a" = Some alice
  /\ all_white "  hi " = false
  /\ (on_send_message 3 "a" (Some (JStr "  hi ")) s).2
     = [mkEmit (ToRoom (room alice)) "receive_message"
          (PMessage (ChatMessage 3 (username alice)
                       (substring0 MAX_MESSAGE_LENGTH (trim "  hi "))
                       (room alice) "a" (userId alice)))].
Proof.
  intros s alice.
  assert (Hf : is_laravel s "a" = false) by (vm_compute; reflexivity).
  assert (Hk : users s !! "a" = Some alice) by (vm_compute; reflexivity).
  assert (Hw : all_white "  hi " = false) by reflexivity.
  split; [exact Hf|]. split; [exact Hk|]. split; [exact Hw|].
  exact (proj1 (X7_send_message_accepted s 3 "a" alice "  hi " Hf Hk Hw)).
Defined.


Lemma X9_witness :
  let s := run sample_parse alice_and_bob initial in
  let alice := mkUser "alice" "lobby" "a" JNull 2 in
  let bob := mkUser "bob" "lobby" "b" JNull 4 in
  let pm := mkPrivate 5 "a" "alice" "BOB"
              (substring0 MAX_MESSAGE_LENGTH (trim "secret")) in
  reachable sample_parse s /\ is_laravel s "a" = false
  /\ users s !! "a" = Some alice /\ users s !! "b" = Some bob
  /\ toLowerCase (username bob) = toLowerCase "BOB"
  /\ all_white "secret" = false
  /\ on_send_private_message 5 "a" (Some (JStr "BOB", JStr "secret")) s
     = (s, [ mkEmit (ToSocket "b") "receive_private_message" (PPrivate pm);
             mkEmit (ToSocket "a") "private_message_sent" (PPrivate pm) ]).
Proof.
  intros s alice bob pm.
  assert (Hr : reachable sample_parse s) by apply run_reachable.
  assert (Hf : is_laravel s "a" = false) by (vm_compute; reflexivity).
  assert (Ha : users s !! "a" = Some alice) by (vm_compute; reflexivity).
  assert (Hb : users s !! "b" = Some bob) by (vm_compute; reflexivity).
  assert (Hl : toLowerCase (username bob) = toLowerCase "BOB")
    by reflexivity.
  assert (Hw : all_white "secret" = false) by reflexivity.
  split_and!; try assumption.
  exact (X9_private_message_delivered sample_parse s 5 "a" alice "b" bob
           "BOB" "secret" Hr Hf Ha Hb Hl Hw).
Defined.

Lemma X10_witness :
  let s := run sample_parse alice_in_lobby initial in
  let alice := mkUser "alice" "lobby" "a" JNull 2 in
  is_laravel s "a" = false /\ users s !! "a" = Some alice
  /\ isValidRoomName (JStr "dev") = true
  /\ users (on_change_room 3 "a" (JStr "dev") s).1
     = <[ "a" := set_room "dev" alice ]> (users s).
Proof.
  intros s alice.
  assert (Hf : is_laravel s "a" = false) by (vm_compute; reflexivity).
  assert (Hk : users s !! "a" = Some alice) by (vm_compute; reflexivity).
  split; [exact Hf|]. split; [exact Hk|]. split; [reflexivity|].
  exact (proj1 (X10_change_room_moves s 3 "a" alice "dev" Hf Hk eq_refl)).
Defined.

Lemma X12_witness :
  let s := run sample_parse alice_in_lobby initial in
  let alice := mkUser "alice" "lobby" "a" JNull 2 in
  let s1 := (handle sample_parse 3 (Disconnect "a") s).1 in
  let s2 := (handle sample_parse 4 (Timeout "lobby") s1).1 in
  is_connected s "a" = true /\ is_laravel s "a" = false
  /\ users s !! "a" = Some alice /\ rooms s !! room alice = Some {["a"]}
  /\ messageHistory s2 !! "lobby" = None.
Proof.
  intros s alice s1 s2.
  assert (Hc : is_connected s "a" = true) by (vm_compute; reflexivity).
  assert (Hf : is_laravel s "a" = false) by (vm_compute; reflexivity).
  assert (Hk : users s !! "a" = Some alice) by (vm_compute; reflexivity).
  assert (Hm : rooms s !! room alice = Some {["a"]})
    by (vm_compute; reflexivity).
  split_and!; try assumption.
  exact (proj1 (proj2 (proj2 (proj2 (proj2
           (X12_purge_after_last_member_left sample_parse s 3 4 "a" alice
              Hc Hf Hk Hm)))))).
Defined.

Lemma X13_witness :
  let s := run sample_parse bridge_connects initial in
  let request := Join "L" (join_data "alice" "lobby") in
  event_socket request = Some "L"
  /\ (if is_laravel s "L" then regular_event request
      else laravel_event request) = true
  /\ dispatch sample_parse 3 request s = (s, []).
Proof.
  intros s request.
  assert (Hk : (if is_laravel s "L" then regular_event request
                else laravel_event request) = true)
    by (vm_compute; reflexivity).
  split; [reflexivity|]. split; [exact Hk|].
  exact (X13_flag_separates_protocols sample_parse s 3 request "L"
           eq_refl Hk).
Defined.

Lemma X14_witness :
  let s := run sample_parse alice_and_bridge initial in
  let ev := Data "L" (sample_line +:+ newline +:+ sample_line) in
  let s' := (dispatch sample_parse 5 ev s).1 in
  bridge_event ev = true
  /\ is_laravel s "L" = true
  /\ rooms s !! "lobby" = Some {["a"]}
  /\ rooms s !! "r1" = None
  /\ rooms s' !! "r1" = Some ∅
  /\ users s' = users s
  /\ rooms s' !! "lobby" = Some {["a"]}.
Proof.
  intros s ev s'.
  assert (Hb : bridge_event ev = true) by reflexivity.
  assert (Hf : is_laravel s "L" = true) by (vm_compute; reflexivity).
  assert (Hl : rooms s !! "lobby" = Some {["a"]}) by (vm_compute; reflexivity).
  assert (Hn : rooms s !! "r1" = None) by (vm_compute; reflexivity).
  assert (Hr : rooms s' !! "r1" = Some ∅) by (vm_compute; reflexivity).
  split; [exact Hb|]. split; [exact Hf|]. split; [exact Hl|].
  split; [exact Hn|]. split; [exact Hr|].
  destruct (X14_bridge_keeps_users_and_members sample_parse s 5 ev Hb)
    as (Hu & _ & Hkeep & _).
  split; [exact Hu | exact (Hkeep "lobby" {["a"]} Hl)].
Defined.


Lemma X16_witness :
  let s := run sample_parse alice_in_lobby initial in
  reachable sample_parse s /\ length (api_rooms s) = active_rooms s.
Proof.
  intros s.
  assert (Hr : reachable sample_parse s) by apply run_reachable.
  split; [exact Hr|].
  exact (proj1 (X16_statistics_are_bounded sample_parse s Hr)).
Defined.

Lemma alice_in_lobby_first_join :
  trace_allowed sample_parse first_join alice_in_lobby initial.
Proof. simpl. split_and!; try exact I. vm_compute. reflexivity. Qed.

Lemma X17_witness :
  let s := run sample_parse alice_in_lobby initial in
  reachable_by sample_parse first_join s
  /\ rooms s !! "lobby" = Some {["a"]}
  /\ length (room_users s "lobby") = size ({["a"]} : gset string).
Proof.
  intros s.
  assert (Hr : reachable_by sample_parse first_join s).
  { apply run_reachable_by; [apply reach_initial|].
    exact alice_in_lobby_first_join. }
  assert (Hm : rooms s !! "lobby" = Some {["a"]}) by (vm_compute; reflexivity).
  split; [exact Hr|]. split; [exact Hm|].
  exact (proj1 (X17_member_list_matches_members sample_parse s "lobby"
                  {["a"]} Hr Hm)).
Defined.

Lemma X18_witness :
  let m := SystemMessage 1 "notice" "lobby" in
  (∅ : gmap string (list message)) !! "lobby" = None
  /\ getMessageHistory (addToMessageHistory "lobby" m ∅) "lobby" = [m].
Proof.
  intros m.
  assert (Hn : (∅ : gmap string (list message)) !! "lobby" = None)
    by apply lookup_empty.
  split; [exact Hn|].
  exact (proj2 (proj1 (X18_history_append_then_read "lobby" m ∅) Hn)).
Defined.

Lemma X19_witness :
  let us : gmap string User :=
    {[ "a" := mkUser "alice" "lobby" "a" JNull 2 ]} in
  toLowerCase "ALICE" = toLowerCase "alice"
  /\ find_user "ALICE" us = find_user "alice" us.
Proof.
  intros us.
  assert (Hl : toLowerCase "ALICE" = toLowerCase "alice") by reflexivity.
  split; [exact Hl|].
  exact (proj2 (proj2 (X19_find_user_is_case_insensitive us "alice"))
           "ALICE" Hl).
Defined.

Lemma X20_witness :
  isValidName 20 (JStr "Alice_1") = true
  /\ trim "Alice_1" = "Alice_1"
  /\ isValidName 20 (JStr (toLowerCase "Alice_1")) = true.
Proof.
  assert (H : isValidName 20 (JStr "Alice_1") = true) by reflexivity.
  split; [exact H|].
  destruct (proj2 (X20_name_validation (JStr "Alice_1")) 20 "Alice_1"
              eq_refl H) as (_ & Ht & Hl & _).
  split; [exact Ht | exact Hl].
Defined.

Lemma relay_open_reachable : Relay.reachable relay_open.
Proof.
  apply (Relay.reach_step Relay.initial (Relay.Connection "a") relay_open []).
  - apply Relay.reach_initial.
  - vm_compute. reflexivity.
Qed.

Lemma relay_joined_reachable : Relay.reachable relay_joined.
Proof.
  apply (Relay.reach_step relay_open
           (Relay.JoinRoom "a" (Some (JStr "r1"))) relay_joined []).
  - exact relay_open_reachable.
  - reflexivity.
Qed.

Lemma X21_witness :
  Relay.reachable relay_joined
  /\ Relay.roomUsers relay_joined !! JStr "r1" = Some {["a"]}
  /\ ({["a"]} : gset string) <> ∅
  /\ is_Some (Relay.connections relay_joined !! "a").
Proof.
  assert (Hm : Relay.roomUsers relay_joined !! JStr "r1" = Some {["a"]})
    by (vm_compute; reflexivity).
  split; [exact relay_joined_reachable|]. split; [exact Hm|].
  destruct (RelayFacts.X21_relay_rooms_have_members relay_joined
              relay_joined_reachable (JStr "r1") {["a"]} Hm) as [Hne Hin].
  split; [exact Hne|]. apply Hin, elem_of_singleton. reflexivity.
Defined.


Lemma X23_witness :
  Relay.roomUsers relay_open !! JStr "r1" = None
  /\ Relay.truthy (JStr "r1") = true
  /\ Relay.roomUsers
       (Relay.on_disconnect "a" (Relay.joined "a" (JStr "r1") relay_open))
     = Relay.roomUsers relay_open.
Proof.
  assert (Hn : Relay.roomUsers relay_open !! JStr "r1" = None)
    by apply lookup_empty.
  split; [exact Hn|]. split; [reflexivity|].
  exact (proj1 (RelayFacts.X23_relay_disconnect_cleanup
                  "a" (JStr "r1") (JStr "r1") relay_open Hn) eq_refl).
Defined.
